(** * OctoDash: the OctoPrint socket service

    A shallow embedding of [OctoPrintSocketService]
    (src/app/services/socket/socket.octoprint.service.ts) and the properties
    of its connection retry ladder, its status normalisers and its event
    inference; then of [FilesOctoprintService]
    (src/app/services/files/files.octoprint.service.ts) and its listings.

    The service is a class whose methods mutate [this] and two shared
    records ([printerStatus], [jobStatus]) that are handed out by reference
    to the subscribers.  The embedding therefore keeps an explicit object
    store, threads the service state through a small state monad in which a
    JavaScript [TypeError] is an outcome, and keeps the rxjs subjects as
    data (their replay buffer and what each observer received). *)

From Stdlib Require Import ZArith String Ascii.
From stdpp Require Import base option list gmap strings pretty.

Local Open Scope string_scope.
Local Open Scope Z_scope.

(** ** JavaScript values *)

(** A property of a JavaScript object is missing ([undefined]), [null], or
    holds a value.  Strict equality [===] on such a property whose values
    are strings or enum cases is Leibniz equality on [js]. *)
Inductive js (A : Type) : Type :=
| Undefined
| Null
| Val (a : A).
Arguments Undefined {A}.
Arguments Null {A}.
Arguments Val {A} a.

#[global] Instance js_eq_dec {A} `{EqDecision A} : EqDecision (js A).
Proof. solve_decision. Defined.

(** Optional chaining [o?.f]: [undefined] as soon as [o] is [undefined] or
    [null]. *)
Definition chain {A B} (o : js A) (f : A -> js B) : js B :=
  match o with
  | Val a => f a
  | _ => Undefined
  end.

(** ['/' + x] where [x] is a string, [undefined] or [null]. *)
Definition str_of_js (o : js string) : string :=
  match o with
  | Val s => s
  | Undefined => "undefined"
  | Null => "null"
  end.

(** ** Strings *)

Module Str.

(** [s.startsWith(p)]. *)
Fixpoint starts_with (p s : string) : bool :=
  match p, s with
  | EmptyString, _ => true
  | String a p', String b s' => if Ascii.eqb a b then starts_with p' s' else false
  | String _ _, EmptyString => false
  end.

Fixpoint drop (n : nat) (s : string) : string :=
  match n, s with
  | O, _ => s
  | S n', String _ s' => drop n' s'
  | S _, EmptyString => EmptyString
  end.

(** [s.replace(pat, rep)] with a string pattern: only the first
    occurrence is replaced. *)
Fixpoint replace (pat rep s : string) : string :=
  if starts_with pat s then rep ++ drop (String.length pat) s
  else match s with
       | EmptyString => EmptyString
       | String c s' => String c (replace pat rep s')
       end.

(** [s.replace(/^http/, 'ws')]. *)
Definition replace_leading_http (s : string) : string :=
  if starts_with "http" s then "ws" ++ drop 4 s else s.

(** [s.slice(-2)]: the last two characters (all of [s] when shorter). *)
Definition slice_last2 (s : string) : string :=
  drop (String.length s - 2) s.

Definition lower_ascii (c : ascii) : ascii :=
  let n := nat_of_ascii c in
  if (Nat.leb 65 n && Nat.leb n 90)%bool then ascii_of_nat (n + 32) else c.

(** [s.toLowerCase()], on the ASCII letters; other bytes are kept. *)
Fixpoint toLowerCase (s : string) : string :=
  match s with
  | EmptyString => EmptyString
  | String c s' => String (lower_ascii c) (toLowerCase s')
  end.


Definition is_space (c : ascii) : bool :=
  let n := nat_of_ascii c in
  (Nat.eqb n 32 || (Nat.leb 9 n && Nat.leb n 13))%bool.

Fixpoint trim_start (s : string) : string :=
  match s with
  | String c s' => if is_space c then trim_start s' else s
  | EmptyString => EmptyString
  end.

Fixpoint rev_acc (s acc : string) : string :=
  match s with
  | EmptyString => acc
  | String c s' => rev_acc s' (String c acc)
  end.

(** [s.trim()], on ASCII white space. *)
Definition trim (s : string) : string :=
  rev_acc (trim_start (rev_acc (trim_start s) "")) "".

End Str.

(** ** The JavaScript runtime

  Numbers are IEEE doubles and [Date] reads the host's clock and time
  zone.  The service only moves such values around, so they are kept
  behind an interface: the development holds for every implementation of
  it, and [IntRuntime] below is one that runs. *)
Class Runtime : Type := {
number : Type;
num_of_Z : Z -> number;
NaN : number;
(** [a + b] on numbers *)
num_add : number -> number -> number;
(** ToBoolean of a number: false for [0] and [NaN] *)
num_truthy : number -> bool;
Math_round : number -> number;
(** [Number(s)] *)
Number_of_string : string -> number;
(** the string a number becomes in ['0' + n] *)
num_to_string : number -> string;
Date : Type;
getSeconds : Date -> number;
getMinutes : Date -> number;
getHours : Date -> number;
(** [d.setSeconds(n)], returning the date [d] has become *)
setSeconds : Date -> number -> Date;
}.

Section Values.
Context `{RT : Runtime}.

(** [Math.round(x)] where [x] may be [undefined] (ToNumber gives [NaN])
    or [null] (ToNumber gives [0]). *)
Definition Math_round_js (x : js number) : number :=
  match x with
  | Val n => Math_round n
  | Undefined => NaN
  | Null => Math_round (num_of_Z 0)
  end.

(** ToBoolean of a property holding a number. *)
Definition truthy_num (x : js number) : bool :=
  match x with
  | Val n => num_truthy n
  | _ => false
  end.

End Values.

(** ** The model types (src/app/model) *)

(** [PrinterEvent]: the six cases the service names. *)
Inductive PrinterEvent : Type :=
| UNKNOWN
| CONNECTED
| PRINTING
| PAUSED
| IDLE
| CLOSED.

#[global] Instance PrinterEvent_eq_dec : EqDecision PrinterEvent.
Proof. solve_decision. Defined.

(** What [PrinterState[key]] can give besides [undefined]: a case of the
    enum, identified by the name of the member (the value a member
    compiles to never leaves the service), or what the enum object holds
    under a key that is no member name: the name a numeric enum maps a
    number back to, or a property every object inherits, such as
    [constructor].  Such a value is no case of the enum. *)
Inductive PrinterState : Type :=
| Member (name : string)
| Foreign (key : string).

#[global] Instance PrinterState_eq_dec : EqDecision PrinterState.
Proof. solve_decision. Defined.

Section Model.
Context `{RT : Runtime}.

(** [{ current, set, unit }] *)
Record Temperature : Type := {
  t_current : number;
  t_set : number;
  t_unit : string;
}.

Record PrinterStatus : Type := {
  status : js PrinterState;
  bed : Temperature;
  tool0 : Temperature;
  fanSpeed : number;
}.

(** [{ value, unit }] *)
Record Duration : Type := {
  d_value : string;
  d_unit : js string;
}.

(** [zHeight]: a plain number, or [{ current, total }] when the layer
    progress plugin is in use. *)
Inductive ZHeight : Type :=
| ZPlain (z : number)
| ZLayers (current total : number).

Record JobStatus : Type := {
  file : js string;
  fullPath : js string;
  progress : number;
  zHeight : ZHeight;
  filamentAmount : number;
  timePrinted : js Duration;
  timeLeft : Duration;
  estimatedPrintTime : js Duration;
  estimatedEndTime : js string;
}.

Record SocketAuth : Type := {
  user : string;
  session : string;
}.

(** *** The frames of the socket (src/app/model/octoprint)

    Only the properties the service reads.  A property it reads through
    [?.], or tests before use, may be missing; the objects it
    dereferences unguarded ([current.temps], [current.state],
    [current.job], [current.progress]) are there in every frame of this
    type. *)
Record OctoprintTemperature : Type := {
  actual : js number;
  target : js number;
}.

Record OctoprintTemps : Type := {
  temps_bed : js OctoprintTemperature;
  temps_tool0 : js OctoprintTemperature;
}.

Record OctoprintFile : Type := {
  display : js string;
  origin : js string;
  path : js string;
}.

(** [OctoprintFilament]: an object with one entry per tool, each with a
    [length]. *)
Definition OctoprintFilament : Type := list (string * number).

Record OctoprintJob : Type := {
  job_file : js OctoprintFile;
  job_filament : js OctoprintFilament;
  job_estimatedPrintTime : js number;
}.

Record OctoprintProgress : Type := {
  completion : js number;
  printTime : js number;
  printTimeLeft : js number;
}.

(** [current] as the handler casts it, and the extractors take it, to be:
    [temps] is an array, [state.text] a string, [job] and [progress] are
    objects.  These are the parts the extractors read unguarded; a frame
    that lacks one of them is outside the model. *)
Record OctoprintSocketCurrent : Type := {
  temps : list OctoprintTemps;
  state_text : string;
  job : OctoprintJob;
  current_progress : OctoprintProgress;
  currentZ : js number;
}.

(** [{ event: { type, payload } }]; the payload is never read. *)
Record OctoprintSocketEvent : Type := {
  event_type : string;
}.

Record DisplayLayerProgressData : Type := {
  fanspeed : string;
  currentLayer : string;
  totalLayer : string;
}.

Record OctoprintPluginMessage : Type := {
  plugin_plugin : string;
  plugin_data : DisplayLayerProgressData;
}.

(** A frame as the handler sees it: an object that has, or has not, each
    of the five properties the handler asks for with [hasOwnProperty].
    What it has under [current] and [event] is what the handler casts it
    to; what it has under [plugin] may also be [null] or [undefined], and
    the handler reads it before it looks at the configuration. *)
Record RawFrame : Type := {
  has_current : option OctoprintSocketCurrent;
  has_event : option OctoprintSocketEvent;
  has_plugin : option (js OctoprintPluginMessage);
  has_reauth : bool;
  has_connected : bool;
}.

End Model.

(** ** rxjs subjects

  The three subjects are declared [Subject<T>] and built with
  [new ReplaySubject<T>()]: buffer size and window time are left at
  their defaults, so the buffer keeps every value and hands all of them
  to an observer when it subscribes. *)
Module ReplaySubject.

Record t (A : Type) : Type := {
  buffer : list A;
  (** what each observer has received, oldest first; an observer is
      known by its position *)
  observers : list (list A);
}.
Arguments buffer {A} _.
Arguments observers {A} _.

Definition new {A} : t A :=
  {| buffer := []; observers := [] |}.

Definition next {A} (v : A) (sub : t A) : t A :=
  {| buffer := (buffer sub ++ [v])%list;
     observers := (fun log => log ++ [v])%list <$> observers sub |}.

(** [subscribe] replays the buffer to the new observer at once. *)
Definition subscribe {A} (sub : t A) : t A * nat :=
  ({| buffer := buffer sub;
      observers := (observers sub ++ [buffer sub])%list |},
   length (observers sub)).

Definition received {A} (sub : t A) (id : nat) : option (list A) :=
  observers sub !! id.

End ReplaySubject.

(** ** The state of the service *)

Section State.
Context `{RT : Runtime}.

(** References to the two shared records. *)
Definition ref : Type := nat.

Record Store : Type := {
  printerObjs : gmap nat PrinterStatus;
  jobObjs : gmap nat JobStatus;
  nextRef : ref;
}.

(** What the service has asked of the world around it.  Requests and
    timers are answered later, by an input of their own. *)
Record World : Type := {
  (** the payloads passed to [socket.next] *)
  socketSent : list string;
  (** the handlers registered with [socket.subscribe] *)
  socketSubscriptions : nat;
  (** the delay of every [setTimeout] so far, in milliseconds *)
  timeouts : list Z;
  (** timers set and not yet fired *)
  pendingTimers : nat;
  (** [getSessionKey] requests of [tryConnect] not yet answered *)
  connectKeyRequests : nat;
  (** [getSessionKey] requests of a [reauth] frame not yet answered *)
  reauthKeyRequests : nat;
  (** requests of [checkPrinterConnection] not yet answered *)
  connectionRequests : nat;
  (** calls of the [resolve] of the promise of [connect] *)
  resolveCalls : nat;
}.

(** The fields of the class; a field not yet assigned is [None]. *)
Record State : Type := {
  fastInterval : nat;
  socket : option string;
  printerStatusSubject : ReplaySubject.t ref;
  jobStatusSubject : ReplaySubject.t ref;
  eventSubject : ReplaySubject.t PrinterEvent;
  printerStatus : option ref;
  jobStatus : option ref;
  lastState : option PrinterEvent;
  store : Store;
  world : World;
}.

Definition set_fastInterval (v : nat) (s : State) : State :=
  {| fastInterval := v; socket := socket s;
     printerStatusSubject := printerStatusSubject s;
     jobStatusSubject := jobStatusSubject s; eventSubject := eventSubject s;
     printerStatus := printerStatus s; jobStatus := jobStatus s;
     lastState := lastState s; store := store s; world := world s |}.

Definition set_socket (v : option string) (s : State) : State :=
  {| fastInterval := fastInterval s; socket := v;
     printerStatusSubject := printerStatusSubject s;
     jobStatusSubject := jobStatusSubject s; eventSubject := eventSubject s;
     printerStatus := printerStatus s; jobStatus := jobStatus s;
     lastState := lastState s; store := store s; world := world s |}.

Definition set_printerStatusSubject (v : ReplaySubject.t ref) (s : State) : State :=
  {| fastInterval := fastInterval s; socket := socket s;
     printerStatusSubject := v;
     jobStatusSubject := jobStatusSubject s; eventSubject := eventSubject s;
     printerStatus := printerStatus s; jobStatus := jobStatus s;
     lastState := lastState s; store := store s; world := world s |}.

Definition set_jobStatusSubject (v : ReplaySubject.t ref) (s : State) : State :=
  {| fastInterval := fastInterval s; socket := socket s;
     printerStatusSubject := printerStatusSubject s;
     jobStatusSubject := v; eventSubject := eventSubject s;
     printerStatus := printerStatus s; jobStatus := jobStatus s;
     lastState := lastState s; store := store s; world := world s |}.

Definition set_eventSubject (v : ReplaySubject.t PrinterEvent) (s : State) : State :=
  {| fastInterval := fastInterval s; socket := socket s;
     printerStatusSubject := printerStatusSubject s;
     jobStatusSubject := jobStatusSubject s; eventSubject := v;
     printerStatus := printerStatus s; jobStatus := jobStatus s;
     lastState := lastState s; store := store s; world := world s |}.

Definition set_printerStatus (v : option ref) (s : State) : State :=
  {| fastInterval := fastInterval s; socket := socket s;
     printerStatusSubject := printerStatusSubject s;
     jobStatusSubject := jobStatusSubject s; eventSubject := eventSubject s;
     printerStatus := v; jobStatus := jobStatus s;
     lastState := lastState s; store := store s; world := world s |}.

Definition set_jobStatus (v : option ref) (s : State) : State :=
  {| fastInterval := fastInterval s; socket := socket s;
     printerStatusSubject := printerStatusSubject s;
     jobStatusSubject := jobStatusSubject s; eventSubject := eventSubject s;
     printerStatus := printerStatus s; jobStatus := v;
     lastState := lastState s; store := store s; world := world s |}.

Definition set_lastState (v : option PrinterEvent) (s : State) : State :=
  {| fastInterval := fastInterval s; socket := socket s;
     printerStatusSubject := printerStatusSubject s;
     jobStatusSubject := jobStatusSubject s; eventSubject := eventSubject s;
     printerStatus := printerStatus s; jobStatus := jobStatus s;
     lastState := v; store := store s; world := world s |}.

Definition set_store (v : Store) (s : State) : State :=
  {| fastInterval := fastInterval s; socket := socket s;
     printerStatusSubject := printerStatusSubject s;
     jobStatusSubject := jobStatusSubject s; eventSubject := eventSubject s;
     printerStatus := printerStatus s; jobStatus := jobStatus s;
     lastState := lastState s; store := v; world := world s |}.

Definition set_world (v : World) (s : State) : State :=
  {| fastInterval := fastInterval s; socket := socket s;
     printerStatusSubject := printerStatusSubject s;
     jobStatusSubject := jobStatusSubject s; eventSubject := eventSubject s;
     printerStatus := printerStatus s; jobStatus := jobStatus s;
     lastState := lastState s; store := store s; world := v |}.

(** *** The monad of the methods

    A method takes the state to a new state and either returns or throws
    a [TypeError]; the writes made before the throw stay. *)
Definition M (A : Type) : Type := State -> State * option A.

Definition ret {A} (a : A) : M A := fun s => (s, Some a).

Definition bind {A B} (m : M A) (k : A -> M B) : M B :=
  fun s => match m s with
           | (s', Some a) => k a s'
           | (s', None) => (s', None)
           end.

Definition throw {A} : M A := fun s => (s, None).

Definition gets {A} (f : State -> A) : M A := fun s => (s, Some (f s)).

Definition modify (f : State -> State) : M unit := fun s => (f s, Some tt).

(** The state a method leaves, thrown or not. *)
Definition exec {A} (m : M A) (s : State) : State := fst (m s).

(** Whether it returned. *)
Definition returns {A} (m : M A) (s : State) : bool :=
  match snd (m s) with
  | Some _ => true
  | None => false
  end.

End State.

Notation "x <- m ;; k" := (bind m (fun x => k))
  (at level 20, m at level 99, k at level 200, only parsing).
Notation "m ;; k" := (bind m (fun _ => k))
  (at level 100, k at level 200, right associativity, only parsing).

(** ** What the service is given

  The configuration and conversion services are not part of the sources
  at hand, and neither is the declaration of the [PrinterState] enum; the
  service is verified for all of them. *)
Class Environment `{RT : Runtime} : Type := {
(** [configService.isDisplayLayerProgressEnabled()] *)
isDisplayLayerProgressEnabled : bool;
(** [configService.getApiURL('sockjs/websocket', false)] *)
getApiURL_socket : string;
(** [conversionService.convertSecondsToHours] *)
convertSecondsToHours : js number -> string;
(** [conversionService.convertFilamentLengthToWeight] *)
convertFilamentLengthToWeight : number -> number;
(** the members of [PrinterState] besides the three the service names *)
PrinterState_other : list string;
(** the keys of the enum object that are no member names: the numbers a
    numeric enum maps back to names, and the properties the object
    inherits *)
PrinterState_foreign : list string;
}.

(** ** The service *)

Section Service.
Context `{RT : Runtime} `{EV : !Environment}.

(** *** The [PrinterState] enum object *)

Definition PrinterState_members : list string :=
  "connecting" :: "printing" :: "paused" :: PrinterState_other.

Definition connecting : PrinterState := Member "connecting".
Definition printing : PrinterState := Member "printing".
Definition paused : PrinterState := Member "paused".

(** [PrinterState[key]], a property access on the enum object: the case
    of that name; else what the object holds under [key] when it has or
    inherits such a property; else [undefined]. *)
Definition PrinterState_get (key : string) : js PrinterState :=
  if existsb (String.eqb key) PrinterState_members then Val (Member key)
  else if existsb (String.eqb key) PrinterState_foreign then Val (Foreign key)
  else Undefined.

(** *** The constructor *)

Definition new_store : Store :=
  {| printerObjs := ∅; jobObjs := ∅; nextRef := O |}.

Definition new_world : World :=
  {| socketSent := []; socketSubscriptions := O; timeouts := [];
     pendingTimers := O; connectKeyRequests := O; reauthKeyRequests := O;
     connectionRequests := O; resolveCalls := O |}.

Definition new_service : State :=
  {| fastInterval := O; socket := None;
     printerStatusSubject := ReplaySubject.new;
     jobStatusSubject := ReplaySubject.new;
     eventSubject := ReplaySubject.new;
     printerStatus := None; jobStatus := None; lastState := None;
     store := new_store; world := new_world |}.

(** *** The shared records *)

(** An object literal assigned to [this.printerStatus]. *)
Definition new_printerStatus (p : PrinterStatus) : M unit :=
  modify (fun s =>
    let st := store s in
    let l := nextRef st in
    set_printerStatus (Some l)
      (set_store {| printerObjs := <[l := p]> (printerObjs st);
                    jobObjs := jobObjs st;
                    nextRef := S l |} s)).

Definition new_jobStatus (j : JobStatus) : M unit :=
  modify (fun s =>
    let st := store s in
    let l := nextRef st in
    set_jobStatus (Some l)
      (set_store {| printerObjs := printerObjs st;
                    jobObjs := <[l := j]> (jobObjs st);
                    nextRef := S l |} s)).

(** Reading [this.printerStatus.f]: a [TypeError] when the field is
    [undefined]. *)
Definition read_printerStatus : M PrinterStatus :=
  fun s => (s, l ← printerStatus s; printerObjs (store s) !! l).

Definition read_jobStatus : M JobStatus :=
  fun s => (s, l ← jobStatus s; jobObjs (store s) !! l).

(** Writing [this.printerStatus.f = v], in place. *)
Definition write_printerStatus (f : PrinterStatus -> PrinterStatus) : M unit :=
  fun s =>
    match printerStatus s with
    | Some l =>
        match printerObjs (store s) !! l with
        | Some p =>
            (set_store {| printerObjs := <[l := f p]> (printerObjs (store s));
                          jobObjs := jobObjs (store s);
                          nextRef := nextRef (store s) |} s, Some tt)
        | None => (s, None)
        end
    | None => (s, None)
    end.

Definition write_jobStatus (f : JobStatus -> JobStatus) : M unit :=
  fun s =>
    match jobStatus s with
    | Some l =>
        match jobObjs (store s) !! l with
        | Some j =>
            (set_store {| printerObjs := printerObjs (store s);
                          jobObjs := <[l := f j]> (jobObjs (store s));
                          nextRef := nextRef (store s) |} s, Some tt)
        | None => (s, None)
        end
    | None => (s, None)
    end.

Definition with_status (v : js PrinterState) (p : PrinterStatus) : PrinterStatus :=
  {| status := v; bed := bed p; tool0 := tool0 p; fanSpeed := fanSpeed p |}.
Definition with_bed (v : Temperature) (p : PrinterStatus) : PrinterStatus :=
  {| status := status p; bed := v; tool0 := tool0 p; fanSpeed := fanSpeed p |}.
Definition with_tool0 (v : Temperature) (p : PrinterStatus) : PrinterStatus :=
  {| status := status p; bed := bed p; tool0 := v; fanSpeed := fanSpeed p |}.
Definition with_fanSpeed (v : number) (p : PrinterStatus) : PrinterStatus :=
  {| status := status p; bed := bed p; tool0 := tool0 p; fanSpeed := v |}.

Definition with_file (v : js string) (j : JobStatus) : JobStatus :=
  {| file := v; fullPath := fullPath j; progress := progress j;
     zHeight := zHeight j; filamentAmount := filamentAmount j;
     timePrinted := timePrinted j; timeLeft := timeLeft j;
     estimatedPrintTime := estimatedPrintTime j;
     estimatedEndTime := estimatedEndTime j |}.
Definition with_fullPath (v : js string) (j : JobStatus) : JobStatus :=
  {| file := file j; fullPath := v; progress := progress j;
     zHeight := zHeight j; filamentAmount := filamentAmount j;
     timePrinted := timePrinted j; timeLeft := timeLeft j;
     estimatedPrintTime := estimatedPrintTime j;
     estimatedEndTime := estimatedEndTime j |}.
Definition with_progress (v : number) (j : JobStatus) : JobStatus :=
  {| file := file j; fullPath := fullPath j; progress := v;
     zHeight := zHeight j; filamentAmount := filamentAmount j;
     timePrinted := timePrinted j; timeLeft := timeLeft j;
     estimatedPrintTime := estimatedPrintTime j;
     estimatedEndTime := estimatedEndTime j |}.
Definition with_zHeight (v : ZHeight) (j : JobStatus) : JobStatus :=
  {| file := file j; fullPath := fullPath j; progress := progress j;
     zHeight := v; filamentAmount := filamentAmount j;
     timePrinted := timePrinted j; timeLeft := timeLeft j;
     estimatedPrintTime := estimatedPrintTime j;
     estimatedEndTime := estimatedEndTime j |}.
Definition with_filamentAmount (v : number) (j : JobStatus) : JobStatus :=
  {| file := file j; fullPath := fullPath j; progress := progress j;
     zHeight := zHeight j; filamentAmount := v;
     timePrinted := timePrinted j; timeLeft := timeLeft j;
     estimatedPrintTime := estimatedPrintTime j;
     estimatedEndTime := estimatedEndTime j |}.
Definition with_timePrinted (v : js Duration) (j : JobStatus) : JobStatus :=
  {| file := file j; fullPath := fullPath j; progress := progress j;
     zHeight := zHeight j; filamentAmount := filamentAmount j;
     timePrinted := v; timeLeft := timeLeft j;
     estimatedPrintTime := estimatedPrintTime j;
     estimatedEndTime := estimatedEndTime j |}.
Definition with_timeLeft (v : Duration) (j : JobStatus) : JobStatus :=
  {| file := file j; fullPath := fullPath j; progress := progress j;
     zHeight := zHeight j; filamentAmount := filamentAmount j;
     timePrinted := timePrinted j; timeLeft := v;
     estimatedPrintTime := estimatedPrintTime j;
     estimatedEndTime := estimatedEndTime j |}.
Definition with_estimatedPrintTime (v : js Duration) (j : JobStatus) : JobStatus :=
  {| file := file j; fullPath := fullPath j; progress := progress j;
     zHeight := zHeight j; filamentAmount := filamentAmount j;
     timePrinted := timePrinted j; timeLeft := timeLeft j;
     estimatedPrintTime := v;
     estimatedEndTime := estimatedEndTime j |}.
Definition with_estimatedEndTime (v : js string) (j : JobStatus) : JobStatus :=
  {| file := file j; fullPath := fullPath j; progress := progress j;
     zHeight := zHeight j; filamentAmount := filamentAmount j;
     timePrinted := timePrinted j; timeLeft := timeLeft j;
     estimatedPrintTime := estimatedPrintTime j;
     estimatedEndTime := v |}.

(** The record [this.printerStatus] points to, if any. *)
Definition printerStatus_of (s : State) : option PrinterStatus :=
  l ← printerStatus s; printerObjs (store s) !! l.

Definition jobStatus_of (s : State) : option JobStatus :=
  l ← jobStatus s; jobObjs (store s) !! l.

(** *** Setup and authentication *)

(** The record [initPrinterStatus] builds. *)
Definition default_printerStatus : PrinterStatus :=
  {| status := Val connecting;
     bed := {| t_current := num_of_Z 0; t_set := num_of_Z 0; t_unit := "°C" |};
     tool0 := {| t_current := num_of_Z 0; t_set := num_of_Z 0; t_unit := "°C" |};
     fanSpeed := if isDisplayLayerProgressEnabled then num_of_Z 0
                 else num_of_Z (-1) |}.

Definition initPrinterStatus : M unit :=
  new_printerStatus default_printerStatus.

(** The record [initJobStatus] builds. *)
Definition default_jobStatus : JobStatus :=
  {| file := Null;
     fullPath := Null;
     progress := num_of_Z 0;
     zHeight := if isDisplayLayerProgressEnabled
                then ZLayers (num_of_Z 0) (num_of_Z (-1))
                else ZPlain (num_of_Z 0);
     filamentAmount := num_of_Z 0;
     timePrinted := Null;
     timeLeft := {| d_value := "---"; d_unit := Null |};
     estimatedPrintTime := Null;
     estimatedEndTime := Null |}.

Definition initJobStatus : M unit :=
  new_jobStatus default_jobStatus.

(** [setTimeout(this.tryConnect.bind(this), delay, resolve)] *)
Definition setTimeout_tryConnect (delay : Z) : M unit :=
  modify (fun s =>
    let w := world s in
    set_world {| socketSent := socketSent w;
                 socketSubscriptions := socketSubscriptions w;
                 timeouts := (timeouts w ++ [delay])%list;
                 pendingTimers := S (pendingTimers w);
                 connectKeyRequests := connectKeyRequests w;
                 reauthKeyRequests := reauthKeyRequests w;
                 connectionRequests := connectionRequests w;
                 resolveCalls := resolveCalls w |} s).

(** [tryConnect] asks for a session key; the two callbacks it passes to
    [subscribe] are [tryConnect_next] and [tryConnect_error]. *)
Definition tryConnect : M unit :=
  modify (fun s =>
    let w := world s in
    set_world {| socketSent := socketSent w;
                 socketSubscriptions := socketSubscriptions w;
                 timeouts := timeouts w;
                 pendingTimers := pendingTimers w;
                 connectKeyRequests := S (connectKeyRequests w);
                 reauthKeyRequests := reauthKeyRequests w;
                 connectionRequests := connectionRequests w;
                 resolveCalls := resolveCalls w |} s).

Definition connect : M unit :=
  initPrinterStatus ;;
  initJobStatus ;;
  modify (set_lastState (Some UNKNOWN)) ;;
  tryConnect.

Definition connectSocket : M unit :=
  let url := Str.replace_leading_http getApiURL_socket in
  sock <- gets socket ;;
  match sock with
  | None => modify (set_socket (Some url))
  | Some _ => ret tt
  end.

(** [this.socket.subscribe(handler)]; the handler is [onMessage] below. *)
Definition setupSocket : M unit :=
  sock <- gets socket ;;
  match sock with
  | None => throw
  | Some _ =>
      modify (fun s =>
        let w := world s in
        set_world {| socketSent := socketSent w;
                     socketSubscriptions := S (socketSubscriptions w);
                     timeouts := timeouts w;
                     pendingTimers := pendingTimers w;
                     connectKeyRequests := connectKeyRequests w;
                     reauthKeyRequests := reauthKeyRequests w;
                     connectionRequests := connectionRequests w;
                     resolveCalls := resolveCalls w |} s)
  end.

Definition authenticateSocket (socketAuth : SocketAuth) : M unit :=
  let payload := user socketAuth ++ ":" ++ session socketAuth in
  sock <- gets socket ;;
  match sock with
  | None => throw
  | Some _ =>
      modify (fun s =>
        let w := world s in
        set_world {| socketSent := (socketSent w ++ [payload])%list;
                     socketSubscriptions := socketSubscriptions w;
                     timeouts := timeouts w;
                     pendingTimers := pendingTimers w;
                     connectKeyRequests := connectKeyRequests w;
                     reauthKeyRequests := reauthKeyRequests w;
                     connectionRequests := connectionRequests w;
                     resolveCalls := resolveCalls w |} s)
  end.

Definition tryConnect_next (socketAuth : SocketAuth) : M unit :=
  connectSocket ;;
  setupSocket ;;
  authenticateSocket socketAuth.

(** The delay is computed from [fastInterval] before it is incremented. *)
Definition tryConnect_error : M unit :=
  fi <- gets fastInterval ;;
  setTimeout_tryConnect (if (fi <? 6)%nat then 5000 else 15000) ;;
  fi' <- gets fastInterval ;;
  modify (set_fastInterval (fi' + 1)%nat).

(** *** Event *)

(** The [switch] of [extractPrinterEvent]; [None] is [newState] left
    [undefined]. *)
Definition newState_of (type : string) : option PrinterEvent :=
  if String.eqb type "PrintStarted" then Some PRINTING
  else if String.eqb type "PrintResumed" then Some PRINTING
  else if String.eqb type "PrintPaused" then Some PAUSED
  else if String.eqb type "PrintFailed" then Some IDLE
  else if String.eqb type "PrintDone" then Some IDLE
  else if String.eqb type "PrintCancelled" then Some IDLE
  else if String.eqb type "Connected" then Some CONNECTED
  else if String.eqb type "Disconnected" then Some CLOSED
  else if String.eqb type "Error" then Some CLOSED
  else None.

Definition eventSubject_next (e : PrinterEvent) : M unit :=
  modify (fun s => set_eventSubject (ReplaySubject.next e (eventSubject s)) s).

Definition extractPrinterEvent (state : OctoprintSocketEvent) : M unit :=
  match newState_of (event_type state) with
  | Some newState =>
      modify (set_lastState (Some newState)) ;;
      eventSubject_next newState
  | None => ret tt
  end.

(** *** Printer status *)

Definition temperature_of (t : js OctoprintTemperature) : Temperature :=
  {| t_current := Math_round_js (chain t actual);
     t_set := Math_round_js (chain t target);
     t_unit := "°C" |}.

Definition extractPrinterStatus (message : OctoprintSocketCurrent) : M unit :=
  match temps message with
  | t0 :: _ =>
      write_printerStatus (with_bed (temperature_of (temps_bed t0))) ;;
      write_printerStatus (with_tool0 (temperature_of (temps_tool0 t0)))
  | [] => ret tt
  end ;;
  write_printerStatus
    (with_status (PrinterState_get (Str.toLowerCase (state_text message)))) ;;
  p <- read_printerStatus ;;
  last <- gets lastState ;;
  (if bool_decide (status p = Val printing) && bool_decide (last = Some UNKNOWN)
   then extractPrinterEvent {| event_type := "PrintStarted" |}
   else if bool_decide (status p = Val paused) && bool_decide (last = Some UNKNOWN)
   then extractPrinterEvent {| event_type := "PrintPaused" |}
   else ret tt) ;;
  s <- gets id ;;
  match printerStatus s with
  | Some l => modify (set_printerStatusSubject
                        (ReplaySubject.next l (printerStatusSubject s)))
  | None => throw
  end.

Definition extractFanSpeed (message : DisplayLayerProgressData) : M unit :=
  write_printerStatus
    (with_fanSpeed
       (if String.eqb (fanspeed message) "Off" then num_of_Z 0
        else if String.eqb (fanspeed message) "-" then num_of_Z 0
        else Number_of_string (Str.trim (Str.replace "%" "" (fanspeed message))))).

(** *** Job status *)

Definition getTotalFilamentWeight (filament : OctoprintFilament) : number :=
  convertFilamentLengthToWeight
    (foldl (fun filamentLength tool => num_add filamentLength (snd tool))
           (num_of_Z 0) filament).

(** [now] is the [new Date()] the method reads. *)
Definition calculateEndTime (now : Date) (printTimeLeft : number) : string :=
  let date := setSeconds now (num_add (getSeconds now) printTimeLeft) in
  Str.slice_last2 ("0" ++ num_to_string (getHours date)) ++ ":" ++
  Str.slice_last2 ("0" ++ num_to_string (getMinutes date)).

(** [message?.current?.job?.file?.display?.replace('.gcode', '').replace('.ufp', '')] *)
Definition file_of (message : OctoprintSocketCurrent) : js string :=
  match chain (job_file (job message)) display with
  | Val d => Val (Str.replace ".ufp" "" (Str.replace ".gcode" "" d))
  | _ => Undefined
  end.

Definition when (b : bool) (m : M unit) : M unit :=
  if b then m else ret tt.

Definition extractJobStatus (now : Date) (message : OctoprintSocketCurrent) : M unit :=
  let file_ := file_of message in
  j <- read_jobStatus ;;
  when (bool_decide (file j <> file_)) initJobStatus ;;
  write_jobStatus (with_file file_) ;;
  write_jobStatus
    (with_fullPath
       (Val ("/" ++ str_of_js (chain (job_file (job message)) origin) ++ "/" ++
             str_of_js (chain (job_file (job message)) path)))) ;;
  write_jobStatus
    (with_progress (Math_round_js (completion (current_progress message)))) ;;
  write_jobStatus
    (with_timePrinted
       (Val {| d_value := convertSecondsToHours (printTime (current_progress message));
               d_unit := Val "h" |})) ;;
  match job_filament (job message) with
  | Val filament =>
      write_jobStatus (with_filamentAmount (getTotalFilamentWeight filament))
  | _ => ret tt
  end ;;
  match printTimeLeft (current_progress message) with
  | Val seconds =>
      when (num_truthy seconds)
        (write_jobStatus
           (with_timeLeft
              {| d_value := convertSecondsToHours (Val seconds);
                 d_unit := Val "h" |}) ;;
         write_jobStatus
           (with_estimatedEndTime (Val (calculateEndTime now seconds))))
  | _ => ret tt
  end ;;
  when (truthy_num (job_estimatedPrintTime (job message)))
    (write_jobStatus
       (with_estimatedPrintTime
          (Val {| d_value := convertSecondsToHours (job_estimatedPrintTime (job message));
                  d_unit := Val "h" |}))) ;;
  match currentZ message with
  | Val z =>
      when (negb isDisplayLayerProgressEnabled && num_truthy z)
        (write_jobStatus (with_zHeight (ZPlain z)))
  | _ => ret tt
  end ;;
  s <- gets id ;;
  match jobStatus s with
  | Some l => modify (set_jobStatusSubject
                        (ReplaySubject.next l (jobStatusSubject s)))
  | None => throw
  end.

Definition extractLayerHeight (message : DisplayLayerProgressData) : M unit :=
  write_jobStatus
    (with_zHeight
       (ZLayers
          (if String.eqb (currentLayer message) "-" then num_of_Z 0
           else Number_of_string (currentLayer message))
          (if String.eqb (totalLayer message) "-" then num_of_Z 0
           else Number_of_string (totalLayer message)))).

(** *** The handler of the socket and the pending callbacks *)

Definition request_reauthKey : M unit :=
  modify (fun s =>
    let w := world s in
    set_world {| socketSent := socketSent w;
                 socketSubscriptions := socketSubscriptions w;
                 timeouts := timeouts w;
                 pendingTimers := pendingTimers w;
                 connectKeyRequests := connectKeyRequests w;
                 reauthKeyRequests := S (reauthKeyRequests w);
                 connectionRequests := connectionRequests w;
                 resolveCalls := resolveCalls w |} s).

Definition resolve : M unit :=
  modify (fun s =>
    let w := world s in
    set_world {| socketSent := socketSent w;
                 socketSubscriptions := socketSubscriptions w;
                 timeouts := timeouts w;
                 pendingTimers := pendingTimers w;
                 connectKeyRequests := connectKeyRequests w;
                 reauthKeyRequests := reauthKeyRequests w;
                 connectionRequests := connectionRequests w;
                 resolveCalls := S (resolveCalls w) |} s).

(** [checkPrinterConnection] sends the request; its callback is
    [checkPrinterConnection_next]. *)
Definition checkPrinterConnection : M unit :=
  modify (fun s =>
    let w := world s in
    set_world {| socketSent := socketSent w;
                 socketSubscriptions := socketSubscriptions w;
                 timeouts := timeouts w;
                 pendingTimers := pendingTimers w;
                 connectKeyRequests := connectKeyRequests w;
                 reauthKeyRequests := reauthKeyRequests w;
                 connectionRequests := S (connectionRequests w);
                 resolveCalls := resolveCalls w |} s).

Definition checkPrinterConnection_next (state : js string) : M unit :=
  if bool_decide (state = Val "Closed") || bool_decide (state = Val "Error")
  then eventSubject_next CLOSED
  else ret tt.

(** The function [setupSocket] passes to [socket.subscribe]. *)
Definition onMessage (now : Date) (message : RawFrame) : M unit :=
  match has_current message with
  | Some current =>
      extractPrinterStatus current ;;
      extractJobStatus now current
  | None =>
  match has_event message with
  | Some event => extractPrinterEvent event
  | None =>
  match has_plugin message with
  | Some (Val pluginMessage) =>
      if String.eqb (plugin_plugin pluginMessage)
                    "DisplayLayerProgress-websocket-payload"
         && isDisplayLayerProgressEnabled
      then extractFanSpeed (plugin_data pluginMessage) ;;
           extractLayerHeight (plugin_data pluginMessage)
      else ret tt
  | Some _ => throw
  | None =>
      if has_reauth message then request_reauthKey
      else if has_connected message then resolve ;; checkPrinterConnection
      else ret tt
  end end end.

(** A consumer subscribes to what [getEventSubscribable] returns, which
    is [eventSubject] itself; it is given the position of its observer. *)
Definition subscribe_event : M nat :=
  fun s =>
    let '(sub, id) := ReplaySubject.subscribe (eventSubject s) in
    (set_eventSubject sub s, Some id).

(** *** The service as a reactive system

    Everything that can happen to the service: calls of its public
    methods, a timer it set firing, the answer to a request it sent, a
    frame arriving at a handler it registered.  The socket closing, and
    rxjs ending a handler whose callback threw, are not among the inputs:
    the service has no code for either, and what is said about handlers
    is said about what the service registers. *)
Inductive Input : Type :=
| Call_connect
| Call_extractPrinterStatus (message : OctoprintSocketCurrent)
| Call_extractFanSpeed (message : DisplayLayerProgressData)
| Call_extractJobStatus (now : Date) (message : OctoprintSocketCurrent)
| Call_extractLayerHeight (message : DisplayLayerProgressData)
| Call_extractPrinterEvent (state : OctoprintSocketEvent)
| Subscribe_event
| Timer_fires
(** the answer to the request of [tryConnect]: a key, or an error *)
| SessionKey_for_connect (answer : option SocketAuth)
(** the answer to the request of a [reauth] frame *)
| SessionKey_for_reauth (answer : option SocketAuth)
(** the answer to [checkPrinterConnection]: [current.state], or an error *)
| Connection_state (answer : option (js string))
(** a frame reaches one registered handler *)
| Socket_message (now : Date) (message : RawFrame).

Definition take_timer : M bool :=
  fun s =>
    let w := world s in
    match pendingTimers w with
    | O => (s, Some false)
    | S n =>
        (set_world {| socketSent := socketSent w;
                      socketSubscriptions := socketSubscriptions w;
                      timeouts := timeouts w;
                      pendingTimers := n;
                      connectKeyRequests := connectKeyRequests w;
                      reauthKeyRequests := reauthKeyRequests w;
                      connectionRequests := connectionRequests w;
                      resolveCalls := resolveCalls w |} s, Some true)
    end.

Definition take_connectKey : M bool :=
  fun s =>
    let w := world s in
    match connectKeyRequests w with
    | O => (s, Some false)
    | S n =>
        (set_world {| socketSent := socketSent w;
                      socketSubscriptions := socketSubscriptions w;
                      timeouts := timeouts w;
                      pendingTimers := pendingTimers w;
                      connectKeyRequests := n;
                      reauthKeyRequests := reauthKeyRequests w;
                      connectionRequests := connectionRequests w;
                      resolveCalls := resolveCalls w |} s, Some true)
    end.

Definition take_reauthKey : M bool :=
  fun s =>
    let w := world s in
    match reauthKeyRequests w with
    | O => (s, Some false)
    | S n =>
        (set_world {| socketSent := socketSent w;
                      socketSubscriptions := socketSubscriptions w;
                      timeouts := timeouts w;
                      pendingTimers := pendingTimers w;
                      connectKeyRequests := connectKeyRequests w;
                      reauthKeyRequests := n;
                      connectionRequests := connectionRequests w;
                      resolveCalls := resolveCalls w |} s, Some true)
    end.

Definition take_connection : M bool :=
  fun s =>
    let w := world s in
    match connectionRequests w with
    | O => (s, Some false)
    | S n =>
        (set_world {| socketSent := socketSent w;
                      socketSubscriptions := socketSubscriptions w;
                      timeouts := timeouts w;
                      pendingTimers := pendingTimers w;
                      connectKeyRequests := connectKeyRequests w;
                      reauthKeyRequests := reauthKeyRequests w;
                      connectionRequests := n;
                      resolveCalls := resolveCalls w |} s, Some true)
    end.

(** One input.  An answer nobody waits for, a timer that was not set and
    a frame without a handler cannot happen: they change nothing. *)
Definition step (i : Input) : M unit :=
  match i with
  | Call_connect => connect
  | Call_extractPrinterStatus message => extractPrinterStatus message
  | Call_extractFanSpeed message => extractFanSpeed message
  | Call_extractJobStatus now message => extractJobStatus now message
  | Call_extractLayerHeight message => extractLayerHeight message
  | Call_extractPrinterEvent state => extractPrinterEvent state
  | Subscribe_event => subscribe_event ;; ret tt
  | Timer_fires =>
      pending <- take_timer ;;
      when pending tryConnect
  | SessionKey_for_connect answer =>
      pending <- take_connectKey ;;
      when pending
        match answer with
        | Some socketAuth => tryConnect_next socketAuth
        | None => tryConnect_error
        end
  | SessionKey_for_reauth answer =>
      pending <- take_reauthKey ;;
      when pending
        match answer with
        | Some socketAuth => authenticateSocket socketAuth
        | None => ret tt
        end
  | Connection_state answer =>
      pending <- take_connection ;;
      when pending
        match answer with
        | Some state => checkPrinterConnection_next state
        | None => ret tt
        end
  | Socket_message now message =>
      subscriptions <- gets (fun s => socketSubscriptions (world s)) ;;
      match subscriptions with
      | O => ret tt
      | S _ => onMessage now message
      end
  end.

(** A sequence of inputs; an input whose method throws leaves the state
    it had reached. *)
Definition run (inputs : list Input) (s : State) : State :=
  foldl (fun s i => exec (step i) s) s inputs.

End Service.

(** ** A runtime that runs

  Numbers are the integers and [NaN]; a date is the number of seconds of
  local time since some midnight, or invalid.  It is there to run the
  service on examples, and is simpler than the real runtime: a date has
  no time zone and no range, and [Number] reads decimal digits only. *)
Module IntRuntime.

Definition add (a b : option Z) : option Z :=
  match a, b with
  | Some x, Some y => Some (x + y)
  | _, _ => None
  end.

Definition truthy (a : option Z) : bool :=
  match a with
  | Some x => negb (x =? 0)
  | None => false
  end.

Fixpoint digits (s : string) (acc : Z) : option Z :=
  match s with
  | EmptyString => Some acc
  | String c s' =>
      let n := nat_of_ascii c in
      if (Nat.leb 48 n && Nat.leb n 57)%bool
      then digits s' (10 * acc + Z.of_nat (n - 48))
      else None
  end.

Definition to_string (a : option Z) : string :=
  match a with
  | Some x => pretty x
  | None => "NaN"
  end.

Definition seconds (d : option Z) : option Z := (fun t => t mod 60) <$> d.
Definition minutes (d : option Z) : option Z := (fun t => (t / 60) mod 60) <$> d.
Definition hours (d : option Z) : option Z := (fun t => (t / 3600) mod 24) <$> d.

Definition set_seconds (d n : option Z) : option Z :=
  match d, n with
  | Some t, Some x => Some (t - t mod 60 + x)
  | _, _ => None
  end.

#[export] Instance runtime : Runtime :=
  {| number := option Z;
     num_of_Z := Some;
     NaN := None;
     num_add := add;
     num_truthy := truthy;
     Math_round := fun a => a;
     Number_of_string := fun s => digits s 0;
     num_to_string := to_string;
     Date := option Z;
     getSeconds := seconds;
     getMinutes := minutes;
     getHours := hours;
     setSeconds := set_seconds |}.

(** Hours with one decimal. *)
Definition seconds_to_hours (x : js (option Z)) : string :=
  match x with
  | Val (Some t) => pretty (t / 3600) ++ "." ++ pretty ((t mod 3600) / 360)
  | Null => "0.0"
  | _ => "NaN"
  end.

(** The keys of a numeric enum object with [n] members that are no member
    names: the numbers it maps back, and what it inherits from
    [Object.prototype]. *)
Definition object_keys (n : nat) : list string :=
  ((fun k : nat => pretty k) <$> seq 0 n) ++
  ["constructor"; "__proto__"; "toString"; "toLocaleString"; "valueOf";
   "hasOwnProperty"; "isPrototypeOf"; "propertyIsEnumerable";
   "__defineGetter__"; "__defineSetter__"; "__lookupGetter__";
   "__lookupSetter__"].

(** A configuration without the layer progress plugin. *)
#[export] Instance environment : Environment :=
  {| isDisplayLayerProgressEnabled := false;
     getApiURL_socket := "http://localhost:5000/sockjs/websocket";
     convertSecondsToHours := seconds_to_hours;
     convertFilamentLengthToWeight := fun l => (fun x => x * 3 / 1000) <$> l;
     PrinterState_other := ["idle"; "error"];
     PrinterState_foreign := object_keys 5 |}.

Definition auth : SocketAuth := {| user := "octodash"; session := "k3y" |}.

(** The clock reading [h:m:sec]. *)
Definition clock (h m sec : Z) : @Date runtime :=
  Some (3600 * h + 60 * m + sec).

(** The [current] of a frame: the state label, the file, the filament
    and the seconds left. *)
Definition current (label : string) (name : js string)
    (filament : js OctoprintFilament) (remaining : js number)
    : OctoprintSocketCurrent :=
  {| temps := [{| temps_bed := Val {| actual := Val (Some 60);
                                      target := Val (Some 60) |};
                  temps_tool0 := Val {| actual := Val (Some 210);
                                        target := Val (Some 215) |} |}];
     state_text := label;
     job := {| job_file := Val {| display := name;
                                  origin := Val "local";
                                  path := name |};
               job_filament := filament;
               job_estimatedPrintTime := Val (Some 7200) |};
     current_progress := {| completion := Val (Some 50);
                            printTime := Val (Some 3600);
                            printTimeLeft := remaining |};
     currentZ := Val (Some 12) |}.

Definition current_frame (c : OctoprintSocketCurrent) : RawFrame :=
  {| has_current := Some c;
     has_event := None;
     has_plugin := None;
     has_reauth := false;
     has_connected := false |}.

(** The cube, printing, 1000 mm of filament, 30 seconds left. *)
Definition cube : OctoprintSocketCurrent :=
  current "Printing" (Val "cube.gcode") (Val [("tool0", Some 1000)])
          (Val (Some 30)).

(** Another file, not sliced with filament data, nothing left to print. *)
Definition benchy : OctoprintSocketCurrent :=
  current "Operational" (Val "benchy.gcode") Undefined Undefined.

Definition event_frame (type : string) : RawFrame :=
  {| has_current := None;
     has_event := Some {| event_type := type |};
     has_plugin := None;
     has_reauth := false;
     has_connected := false |}.

(** The service after [connect()] and a session key at the first try. *)
Definition connected_service : State :=
  run [Call_connect; SessionKey_for_connect (Some auth)] new_service.

(** The same once a handler has been given the cube at 09:59:00. *)
Definition printing_service : State :=
  run [Socket_message (clock 9 59 0) (current_frame cube)] connected_service.


(** The records [this.jobStatus] and [this.printerStatus] point to. *)
Definition the_job (s : State) : JobStatus :=
  default default_jobStatus (jobStatus_of s).


End IntRuntime.

(** ** Notions used by the statements *)

Section Notions.
Context `{RT : Runtime} `{EV : !Environment}.

(** [this.jobStatus] points at [l], which holds [j]. *)
Definition job_at (s : State) (l : ref) (j : JobStatus) : Prop :=
  jobStatus s = Some l /\ jobObjs (store s) !! l = Some j.

Definition printer_at (s : State) (l : ref) (p : PrinterStatus) : Prop :=
  printerStatus s = Some l /\ printerObjs (store s) !! l = Some p.

(** Both records exist: [connect] has been called. *)
Definition ready (s : State) : Prop :=
  is_Some (printerStatus_of s) /\ is_Some (jobStatus_of s).

(** The state in which the object at [l] holds [j]. *)
Definition put_job (l : ref) (j : JobStatus) (s : State) : State :=
  set_store {| printerObjs := printerObjs (store s);
               jobObjs := <[l := j]> (jobObjs (store s));
               nextRef := nextRef (store s) |} s.

Definition put_printer (l : ref) (p : PrinterStatus) (s : State) : State :=
  set_store {| printerObjs := <[l := p]> (printerObjs (store s));
               jobObjs := jobObjs (store s);
               nextRef := nextRef (store s) |} s.

(** The record a [current] frame makes of the record [base]: field by
    field, what the frame gives, and the field of [base] where the frame
    has nothing to give. *)
Definition job_overlay (now : Date) (message : OctoprintSocketCurrent)
    (base : JobStatus) : JobStatus :=
  {| file := file_of message;
     fullPath :=
       Val ("/" ++ str_of_js (chain (job_file (job message)) origin) ++ "/" ++
            str_of_js (chain (job_file (job message)) path));
     progress := Math_round_js (completion (current_progress message));
     zHeight :=
       match currentZ message with
       | Val z => if negb isDisplayLayerProgressEnabled && num_truthy z
                  then ZPlain z else zHeight base
       | _ => zHeight base
       end;
     filamentAmount :=
       match job_filament (job message) with
       | Val filament => getTotalFilamentWeight filament
       | _ => filamentAmount base
       end;
     timePrinted :=
       Val {| d_value := convertSecondsToHours (printTime (current_progress message));
              d_unit := Val "h" |};
     timeLeft :=
       if truthy_num (printTimeLeft (current_progress message))
       then {| d_value := convertSecondsToHours (printTimeLeft (current_progress message));
               d_unit := Val "h" |}
       else timeLeft base;
     estimatedPrintTime :=
       if truthy_num (job_estimatedPrintTime (job message))
       then Val {| d_value := convertSecondsToHours (job_estimatedPrintTime (job message));
                   d_unit := Val "h" |}
       else estimatedPrintTime base;
     estimatedEndTime :=
       match printTimeLeft (current_progress message) with
       | Val seconds => if num_truthy seconds
                        then Val (calculateEndTime now seconds)
                        else estimatedEndTime base
       | _ => estimatedEndTime base
       end |}.

(** The same for the printer status. *)
Definition printer_overlay (message : OctoprintSocketCurrent)
    (base : PrinterStatus) : PrinterStatus :=
  {| status := PrinterState_get (Str.toLowerCase (state_text message));
     bed := match temps message with
            | t0 :: _ => temperature_of (temps_bed t0)
            | [] => bed base
            end;
     tool0 := match temps message with
              | t0 :: _ => temperature_of (temps_tool0 t0)
              | [] => tool0 base
              end;
     fanSpeed := fanSpeed base |}.

(** The transition table of the event inference, as the specification
    gives it. *)
Definition transition_table : list (string * PrinterEvent) :=
  [("PrintStarted", PRINTING); ("PrintResumed", PRINTING);
   ("PrintPaused", PAUSED);
   ("PrintFailed", IDLE); ("PrintDone", IDLE); ("PrintCancelled", IDLE);
   ("Connected", CONNECTED);
   ("Disconnected", CLOSED); ("Error", CLOSED)].

Fixpoint table_lookup (table : list (string * PrinterEvent)) (type : string)
    : option PrinterEvent :=
  match table with
  | [] => None
  | (name, e) :: rest => if String.eqb type name then Some e
                         else table_lookup rest type
  end.

(** The state after a recognised event [e]. *)
Definition publish_event (e : PrinterEvent) (s : State) : State :=
  set_eventSubject (ReplaySubject.next e (eventSubject s))
                   (set_lastState (Some e) s).

(** The delay of the retry after the failure number [k] (from 0) of the
    service. *)
Definition retry_delay (k : nat) : Z :=
  if (k <? 6)%nat then 5000 else 15000.

(** The delays of the failures number [from], ..., [from + n - 1]. *)
Definition ladder (from n : nat) : list Z :=
  retry_delay <$> seq from n.

(** [n] failed attempts in a row: the request fails, the timer it sets
    fires and sends the next request. *)
Fixpoint failures (n : nat) : list Input :=
  match n with
  | O => []
  | S n' => SessionKey_for_connect None :: Timer_fires :: failures n'
  end.

(** The delays set while [inputs] run from [s]. *)
Definition delays_of (inputs : list Input) (s : State) : list Z :=
  drop (length (timeouts (world s))) (timeouts (world (run inputs s))).

Definition is_connect (i : Input) : bool :=
  match i with
  | Call_connect => true
  | _ => false
  end.

(** A sequence of frames given to the handler one after the other. *)
Definition feed (frames : list (Date * RawFrame)) (s : State) : State :=
  foldl (fun s f => exec (onMessage (fst f) (snd f)) s) s frames.

(** A method that keeps a relation between the state before and after,
    thrown or not. *)
Definition keeps {A} (R : State -> State -> Prop) (m : M A) : Prop :=
  forall s, R s (exec m s).

(** The last event has not become [UNKNOWN]. *)
Definition still_known (s s' : State) : Prop :=
  lastState s <> Some UNKNOWN -> lastState s' <> Some UNKNOWN.

(** The observer [id] of the event subject still has all of its
    buffer, and nothing was taken from the buffer. *)
Definition observer_complete (id : nat) (s : State) : Prop :=
  ReplaySubject.received (eventSubject s) id
  = Some (ReplaySubject.buffer (eventSubject s)).

Definition still_complete (id : nat) (s s' : State) : Prop :=
  (observer_complete id s -> observer_complete id s') /\
  ReplaySubject.buffer (eventSubject s)
    `prefix_of` ReplaySubject.buffer (eventSubject s').

(** Where [extractJobStatus] writes once it has compared the file names:
    the record, its reference, and the state. *)
Definition job_base (message : OctoprintSocketCurrent) (j : JobStatus) : JobStatus :=
  if bool_decide (file j <> file_of message) then default_jobStatus else j.

Definition job_base_ref (message : OctoprintSocketCurrent) (s : State)
    (l : ref) (j : JobStatus) : ref :=
  if bool_decide (file j <> file_of message) then nextRef (store s) else l.

Definition job_base_state (message : OctoprintSocketCurrent) (s : State)
    (j : JobStatus) : State :=
  if bool_decide (file j <> file_of message) then exec initJobStatus s else s.

(** The event [extractPrinterStatus] infers from the state label. *)
Definition inferred_event (message : OctoprintSocketCurrent)
    (last : option PrinterEvent) : option PrinterEvent :=
  let st := PrinterState_get (Str.toLowerCase (state_text message)) in
  if bool_decide (st = Val printing) && bool_decide (last = Some UNKNOWN)
  then Some PRINTING
  else if bool_decide (st = Val paused) && bool_decide (last = Some UNKNOWN)
  then Some PAUSED
  else None.

Definition publish_inferred (e : option PrinterEvent) (s : State) : State :=
  match e with
  | Some e => publish_event e s
  | None => s
  end.

(** A statement that writes the job record (the printer record) and
    nothing else, followed by the rest of the method. *)
Definition job_stmt (c : M unit) (g : JobStatus -> JobStatus) : Prop :=
  forall A (k : unit -> M A) s l j,
    job_at s l j -> bind c k s = k tt (put_job l (g j) s).

Definition printer_stmt (c : M unit) (g : PrinterStatus -> PrinterStatus) : Prop :=
  forall A (k : unit -> M A) s l p,
    printer_at s l p -> bind c k s = k tt (put_printer l (g p) s).


End Notions.

(** ** Objects, handlers and subscribers over the life of the service *)

Section Lifetime.
Context `{RT : Runtime} `{EV : !Environment}.

(** The references the service holds have been allocated. *)
Definition wf (s : State) : Prop :=
  (forall l, printerStatus s = Some l -> (l < nextRef (store s))%nat) /\
  (forall l, jobStatus s = Some l -> (l < nextRef (store s))%nat).

(** An observer that has all of the buffer keeps having all of it, and the
    buffer is only appended to. *)
Definition subject_grows {A} (sub sub' : ReplaySubject.t A) : Prop :=
  (forall id, ReplaySubject.received sub id = Some (ReplaySubject.buffer sub) ->
              ReplaySubject.received sub' id = Some (ReplaySubject.buffer sub')) /\
  ReplaySubject.buffer sub `prefix_of` ReplaySubject.buffer sub'.

(** What no method undoes: allocations, the two records once they exist,
    the socket once it is created, the handlers registered, the contents of
    an object the service no longer points to, what the status subjects
    have published. *)
Definition grows (s s' : State) : Prop :=
  (nextRef (store s) <= nextRef (store s'))%nat /\
  (wf s -> wf s') /\
  (ready s -> ready s') /\
  (forall u, socket s = Some u -> socket s' = Some u) /\
  (socketSubscriptions (world s) <= socketSubscriptions (world s'))%nat /\
  (forall l, (l < nextRef (store s))%nat -> jobStatus s <> Some l ->
             jobObjs (store s') !! l = jobObjs (store s) !! l /\
             jobStatus s' <> Some l) /\
  (forall l, (l < nextRef (store s))%nat -> printerStatus s <> Some l ->
             printerObjs (store s') !! l = printerObjs (store s) !! l /\
             printerStatus s' <> Some l) /\
  subject_grows (printerStatusSubject s) (printerStatusSubject s') /\
  subject_grows (jobStatusSubject s) (jobStatusSubject s').

(** *** The status subscribables

    [getPrinterStatusSubscribable] and [getJobStatusSubscribable] return
    the subject piped through [startWith(this.printerStatus)]
    ([startWith(this.jobStatus)]): the value given to [startWith] is the
    field as it is when the method is called, [None] for [undefined]. *)
Definition getPrinterStatusSubscribable (s : State) : option ref :=
  printerStatus s.

Definition getJobStatusSubscribable (s : State) : option ref :=
  jobStatus s.

(** Subscribing to such a subscribable subscribes to the subject. *)
Definition subscribe_printerStatus : M nat :=
  fun s =>
    let '(sub, id) := ReplaySubject.subscribe (printerStatusSubject s) in
    (set_printerStatusSubject sub s, Some id).

Definition subscribe_jobStatus : M nat :=
  fun s =>
    let '(sub, id) := ReplaySubject.subscribe (jobStatusSubject s) in
    (set_jobStatusSubject sub s, Some id).

(** What the observer of a subscribable has been handed: the value of
    [startWith], then what its observer of the subject received. *)
Definition delivered (start : option ref) (log : option (list ref))
    : option (list (option ref)) :=
  (fun values => start :: (Some <$> values)) <$> log.

(** [n] complete failures followed by the key. *)
Definition session_of (n : nat) (socketAuth : SocketAuth) : list Input :=
  (Call_connect :: failures n ++ [SessionKey_for_connect (Some socketAuth)])%list.

(** A name without a dot. *)
Fixpoint no_dot (name : string) : bool :=
  match name with
  | EmptyString => true
  | String c rest => negb (Ascii.eqb c ".") && no_dot rest
  end.

End Lifetime.

(** ** The files service

    [FilesOctoprintService]
    (src/app/services/files/files.octoprint.service.ts): the requests it
    sends and what it makes of the answers. *)

(** What the files service is given besides the [Environment]. *)
Class FilesEnvironment `{RT : Runtime} : Type := {
  (** [configService.getApiURL(path)] *)
  getApiURL : string -> string;
  (** [configService.getApiURL(path, false)] *)
  getApiURL_plain : string -> string;
  (** [conversionService.convertByteToMegabyte] *)
  convertByteToMegabyte : js number -> string;
  (** [conversionService.convertDateToString] *)
  convertDateToString : Date -> string;
  (** [new Date(n)] *)
  Date_of_number : number -> Date;
  (** [a * b] on numbers *)
  num_mul : number -> number -> number;
}.

Section Files.
Context `{RT : Runtime} `{EV : !Environment} `{FE : !FilesEnvironment}.

(** [gcodeAnalysis] of an entry of OctoPrint. *)
Record OctoprintGcodeAnalysis : Type := {
  analysis_estimatedPrintTime : js number;
  analysis_filament : js OctoprintFilament;
}.

(** An entry of a listing, [OctoprintFile & OctoprintFolder]; [typePath]
    is an array, as [typePath.includes] needs. *)
Record OctoprintEntry : Type := {
  entry_type : js string;
  entry_typePath : list string;
  entry_origin : js string;
  entry_path : js string;
  entry_name : js string;
  entry_size : js number;
  entry_date : js number;
  entry_gcodeAnalysis : js OctoprintGcodeAnalysis;
  entry_thumbnail : js string;
}.

(** [File], [Folder] and [Directory] of src/app/model; a property that an
    object literal does not set is [Undefined]. *)
Record File : Type := {
  file_origin : js string;
  file_path : string;
  file_name : js string;
  file_date : string;
  file_size : string;
  file_thumbnail : js string;
  file_printTime : js string;
  file_filamentWeight : js number;
}.

Record Folder : Type := {
  folder_origin : js string;
  folder_path : string;
  folder_name : js string;
  folder_size : string;
}.

Record Directory : Type := {
  files : list File;
  folders : list Folder;
}.

(** The answer to a listing request: it has the [children] property or
    not, and what it has under [children] and under [files] is a list of
    entries, [null] or [undefined]. *)
Record FilesResponse : Type := {
  response_children : option (js (list OctoprintEntry));
  response_files : js (list OctoprintEntry);
}.

(** ToNumber of a property that should hold a number. *)
Definition to_number (x : js number) : number :=
  match x with
  | Val n => n
  | Undefined => NaN
  | Null => num_of_Z 0
  end.

(** [_.sumBy(_.values(filament), tool => tool.length)]: [0] for no value,
    else the lengths added from the first one on. *)
Definition sumBy_length (filament : js OctoprintFilament) : number :=
  match filament with
  | Val (tool :: tools) =>
      foldl (fun sum t => num_add sum (snd t)) (snd tool) tools
  | _ => num_of_Z 0
  end.

(** ['/' + origin + '/' + path] *)
Definition entry_fullPath (e : OctoprintEntry) : string :=
  "/" ++ str_of_js (entry_origin e) ++ "/" ++ str_of_js (entry_path e).

(** [convertDateToString(new Date(date * 1000))] *)
Definition entry_dateString (e : OctoprintEntry) : string :=
  convertDateToString
    (Date_of_number (num_mul (to_number (entry_date e)) (num_of_Z 1000))).

(** The two properties spread in when [gcodeAnalysis] is there. *)
Definition entry_printTime (e : OctoprintEntry) : js string :=
  match entry_gcodeAnalysis e with
  | Val analysis => Val (convertSecondsToHours (analysis_estimatedPrintTime analysis))
  | _ => Undefined
  end.

Definition entry_filamentWeight (e : OctoprintEntry) : js number :=
  match entry_gcodeAnalysis e with
  | Val analysis =>
      Val (convertFilamentLengthToWeight (sumBy_length (analysis_filament analysis)))
  | _ => Undefined
  end.

(** [file.thumbnail ? getApiURL(file.thumbnail, false) : 'assets/object.svg'] *)
Definition thumbnail_of (e : OctoprintEntry) : string :=
  match entry_thumbnail e with
  | Val t => if String.eqb t "" then "assets/object.svg" else getApiURL_plain t
  | _ => "assets/object.svg"
  end.

Definition toFolder (e : OctoprintEntry) : Folder :=
  {| folder_origin := entry_origin e;
     folder_path := entry_fullPath e;
     folder_name := entry_name e;
     folder_size := convertByteToMegabyte (entry_size e) |}.

(** The [File] pushed for an entry of a listing. *)
Definition toFile (e : OctoprintEntry) : File :=
  {| file_origin := entry_origin e;
     file_path := entry_fullPath e;
     file_name := entry_name e;
     file_date := entry_dateString e;
     file_size := convertByteToMegabyte (entry_size e);
     file_thumbnail := Undefined;
     file_printTime := entry_printTime e;
     file_filamentWeight := entry_filamentWeight e |}.

Definition is_folder (e : OctoprintEntry) : bool :=
  bool_decide (entry_type e = Val "folder").

(** [typePath.includes('gcode')] *)
Definition is_gcode (e : OctoprintEntry) : bool :=
  existsb (String.eqb "gcode") (entry_typePath e).

(** The body of the [forEach] of [getFolderContent]. *)
Definition push_entry (directory : Directory) (fileOrFolder : OctoprintEntry)
    : Directory :=
  let directory :=
    if is_folder fileOrFolder
    then {| files := files directory;
            folders := (folders directory ++ [toFolder fileOrFolder])%list |}
    else directory in
  if is_gcode fileOrFolder
  then {| files := (files directory ++ [toFile fileOrFolder])%list;
          folders := folders directory |}
  else directory.

(** The second [map] of [getFolderContent]. *)
Definition list_directory (folderContent : list OctoprintEntry) : Directory :=
  foldl push_entry {| files := []; folders := [] |} folderContent.

(** [_.sumBy(_.concat(files, folders), x => x.origin === o ? 1 : 0)] *)
Definition count_origin (o : string) (directory : Directory) : nat :=
  sum_list_with (fun origin => if bool_decide (origin = Val o) then 1%nat else 0%nat)
    ((file_origin <$> files directory) ++ (folder_origin <$> folders directory))%list.

Definition origin_folder (name : string) (count : nat) : Folder :=
  {| folder_origin := Val name;
     folder_path := "/" ++ name;
     folder_name := Val name;
     folder_size := num_to_string (num_of_Z (Z.of_nat count)) ++ " files" |}.

(** The third [map] of [getFolderContent]. *)
Definition add_origin_folders (folderPath : js string) (directory : Directory)
    : Directory :=
  if bool_decide (folderPath = Val "/")
  then
    let localCount := count_origin "local" directory in
    let sdCardCount := count_origin "sdcard" directory in
    if (0 <? localCount)%nat && (0 <? sdCardCount)%nat
    then {| files := files directory;
            folders := (folders directory ++
                        [origin_folder "local" localCount;
                         origin_folder "sdcard" localCount])%list |}
    else directory
  else directory.

(** The URL [getFolderContent] asks for. *)
Definition getFolderContent_url (folderPath : js string) : string :=
  getApiURL ("files" ++
             (if bool_decide (folderPath = Val "/") then "" else str_of_js folderPath)).

(** The first [map] of [getFolderContent]. *)
Definition folderContent (response : FilesResponse) : js (list OctoprintEntry) :=
  match response_children response with
  | Some children => children
  | None => response_files response
  end.

(** What [getFolderContent] makes of the answer; [None] when
    [folderContent.forEach] throws, which the observable reports as an
    error. *)
Definition getFolderContent (folderPath : js string) (response : FilesResponse)
    : option Directory :=
  match folderContent response with
  | Val content => Some (add_origin_folders folderPath (list_directory content))
  | _ => None
  end.

Definition getFile_url (filePath : string) : string :=
  getApiURL ("files" ++ filePath).

(** What [getFile] makes of the answer. *)
Definition getFile (file : OctoprintEntry) : File :=
  {| file_origin := entry_origin file;
     file_path := entry_fullPath file;
     file_name := entry_name file;
     file_date := entry_dateString file;
     file_size := convertByteToMegabyte (entry_size file);
     file_thumbnail := Val (thumbnail_of file);
     file_printTime := entry_printTime file;
     file_filamentWeight := entry_filamentWeight file |}.

(** What [getThumbnail] makes of the answer. *)
Definition getThumbnail (file : OctoprintEntry) : string :=
  thumbnail_of file.

(** An entry that is listed, as a folder or as a file, under [o]. *)
Definition origin_is (o : string) (e : OctoprintEntry) : bool :=
  bool_decide (entry_origin e = Val o).

Definition listed_under (o : string) (e : OctoprintEntry) : Prop :=
  (is_folder e = true \/ is_gcode e = true) /\ origin_is o e = true.

(** How many items of the listing of [content] are under [o]. *)
Definition count_listed (o : string) (content : list OctoprintEntry) : nat :=
  (length (List.filter (fun e => is_gcode e && origin_is o e) content) +
   length (List.filter (fun e => is_folder e && origin_is o e) content))%nat.

(** [file] with the thumbnail [t]. *)
Definition with_thumbnail (t : string) (file : File) : File :=
  {| file_origin := file_origin file;
     file_path := file_path file;
     file_name := file_name file;
     file_date := file_date file;
     file_size := file_size file;
     file_thumbnail := Val t;
     file_printTime := file_printTime file;
     file_filamentWeight := file_filamentWeight file |}.

End Files.

(** ** Runnable instances for the files service and for layer progress *)

Module IntFiles.
Import IntRuntime.

Definition mul (a b : option Z) : option Z :=
  match a, b with
  | Some x, Some y => Some (x * y)
  | _, _ => None
  end.

(** Megabytes with one decimal. *)
Definition megabytes (size : js (option Z)) : string :=
  match size with
  | Val (Some b) => pretty (b / 1000000) ++ "." ++ pretty ((b mod 1000000) / 100000)
  | Null => "0.0"
  | _ => "NaN"
  end.

(** The seconds of a date. *)
Definition date_string (d : option Z) : string :=
  match d with
  | Some t => pretty t
  | None => "Invalid Date"
  end.

#[export] Instance files_environment : FilesEnvironment :=
  {| getApiURL := fun path => "http://localhost:5000/api/" ++ path;
     getApiURL_plain := fun path => "http://localhost:5000/" ++ path;
     convertByteToMegabyte := megabytes;
     convertDateToString := date_string;
     Date_of_number := fun n => (fun ms => ms / 1000) <$> n;
     num_mul := mul |}.

(** A sliced file of [origin]. *)
Definition gcode_entry (origin name : string) : OctoprintEntry :=
  {| entry_type := Val "machinecode";
     entry_typePath := ["machinecode"; "gcode"];
     entry_origin := Val origin;
     entry_path := Val name;
     entry_name := Val name;
     entry_size := Val (Some 2500000);
     entry_date := Val (Some 1600000000);
     entry_gcodeAnalysis :=
       Val {| analysis_estimatedPrintTime := Val (Some 7200);
              analysis_filament := Val [("tool0", Some 1000); ("tool1", Some 500)] |};
     entry_thumbnail := Undefined |}.

Definition folder_entry (origin name : string) : OctoprintEntry :=
  {| entry_type := Val "folder";
     entry_typePath := ["folder"];
     entry_origin := Val origin;
     entry_path := Val name;
     entry_name := Val name;
     entry_size := Val (Some 5000000);
     entry_date := Undefined;
     entry_gcodeAnalysis := Undefined;
     entry_thumbnail := Undefined |}.

(** Something OctoPrint lists that is neither a folder nor sliced. *)
Definition model_entry (origin name : string) : OctoprintEntry :=
  {| entry_type := Val "model";
     entry_typePath := ["model"; "stl"];
     entry_origin := Val origin;
     entry_path := Val name;
     entry_name := Val name;
     entry_size := Val (Some 100000);
     entry_date := Val (Some 1600000000);
     entry_gcodeAnalysis := Undefined;
     entry_thumbnail := Undefined |}.

(** A listing with two local items and one on the card. *)
Definition listing : list OctoprintEntry :=
  [gcode_entry "local" "cube.gcode"; model_entry "local" "cube.stl";
   folder_entry "local" "parts"; gcode_entry "sdcard" "benchy.gco"].

Definition answer : FilesResponse :=
  {| response_children := None; response_files := Val listing |}.

End IntFiles.

Module IntLayers.
Import IntRuntime.

(** A configuration with the layer progress plugin. *)
Definition environment : Environment :=
  {| isDisplayLayerProgressEnabled := true;
     getApiURL_socket := "http://localhost:5000/sockjs/websocket";
     convertSecondsToHours := seconds_to_hours;
     convertFilamentLengthToWeight := fun l => (fun x => x * 3 / 1000) <$> l;
     PrinterState_other := ["idle"; "error"];
     PrinterState_foreign := object_keys 5 |}.

(** The service after [connect()]. *)
Definition called_service : State :=
  exec (@connect runtime environment) new_service.

(** Layer 12 of 80, the fan at 75%. *)
Definition layer_data : DisplayLayerProgressData :=
  {| fanspeed := "75%"; currentLayer := "12"; totalLayer := "80" |}.

End IntLayers.

Module IntCamelCase.
Import IntRuntime.

(** A configuration whose [PrinterState] has a member with a capital in
    its name. *)
Definition environment : Environment :=
  {| isDisplayLayerProgressEnabled := false;
     getApiURL_socket := "http://localhost:5000/sockjs/websocket";
     convertSecondsToHours := seconds_to_hours;
     convertFilamentLengthToWeight := fun l => (fun x => x * 3 / 1000) <$> l;
     PrinterState_other := ["operational"; "socketDead"];
     PrinterState_foreign := object_keys 5 |}.

(** The service after [connect()]. *)
Definition called_service : State :=
  exec (@connect runtime environment) new_service.

End IntCamelCase.

(** A text of one character with a zero before it; a longer one as it
    is. *)
Definition zero_padded (text : string) : string :=
  if (String.length text <? 2)%nat then "0" ++ text else text.

(** ** The methods on a service that is connected *)

Section Stepping.
Context `{RT : Runtime} `{EV : !Environment}.

Lemma put_job_same s l j : job_at s l j -> put_job l j s = s.
Proof.
  intros [_ Hl]. unfold put_job, set_store.
  rewrite (insert_id _ _ _ Hl). destruct s as [? ? ? ? ? ? ? ? [] ?]; done.
Qed.

Lemma put_job_put_job s l j j' : put_job l j' (put_job l j s) = put_job l j' s.
Proof. unfold put_job, set_store; simpl. by rewrite insert_insert_eq. Qed.

Lemma job_at_put_job s l j : jobStatus s = Some l -> job_at (put_job l j s) l j.
Proof. intros H. split; [done|]. simpl. apply lookup_insert_eq. Qed.

Lemma job_at_jobStatus_of s l j : job_at s l j -> jobStatus_of s = Some j.
Proof. intros [H1 H2]. unfold jobStatus_of. by rewrite H1. Qed.

Lemma jobStatus_of_job_at s j : jobStatus_of s = Some j -> exists l, job_at s l j.
Proof.
  unfold jobStatus_of, job_at. destruct (jobStatus s) as [l|]; [|done].
  simpl. eauto.
Qed.

Lemma read_jobStatus_at {A} (k : JobStatus -> M A) s l j :
  job_at s l j -> bind read_jobStatus k s = k j s.
Proof.
  intros [H1 H2]. unfold bind, read_jobStatus. rewrite H1. simpl. by rewrite H2.
Qed.

Lemma write_jobStatus_at {A} f (k : unit -> M A) s l j :
  job_at s l j -> bind (write_jobStatus f) k s = k tt (put_job l (f j) s).
Proof.
  intros [H1 H2]. unfold bind, write_jobStatus. by rewrite H1, H2.
Qed.

Lemma job_stmt_write f : job_stmt (write_jobStatus f) f.
Proof. intros A k s l j H. by apply write_jobStatus_at. Qed.

Lemma job_stmt_skip : job_stmt (ret tt) (fun j => j).
Proof. intros A k s l j H. by rewrite (put_job_same _ _ _ H). Qed.

Lemma job_stmt_seq c1 c2 g1 g2 :
  job_stmt c1 g1 -> job_stmt c2 g2 ->
  job_stmt (c1 ;; c2) (fun j => g2 (g1 j)).
Proof.
  intros H1 H2 A k s l j H.
  transitivity (bind c1 (fun _ => bind c2 k) s).
  { unfold bind. destruct (c1 s) as [s1 [[]|]]; [|done]. done. }
  rewrite (H1 _ _ _ _ _ H).
  rewrite (H2 _ _ _ l (g1 j)); [|apply job_at_put_job, H].
  by rewrite put_job_put_job.
Qed.

Lemma job_stmt_when (b : bool) c g :
  job_stmt c g -> job_stmt (when b c) (fun j => if b then g j else j).
Proof. destruct b; [done|]. intros _. apply job_stmt_skip. Qed.

End Stepping.

Section JobStatus.
Context `{RT : Runtime} `{EV : !Environment}.

Lemma job_at_initJobStatus s :
  job_at (exec initJobStatus s) (nextRef (store s)) default_jobStatus.
Proof. split; [done|]. simpl. apply lookup_insert_eq. Qed.

Lemma job_at_base message s l j :
  job_at s l j ->
  job_at (job_base_state message s j) (job_base_ref message s l j)
         (job_base message j).
Proof.
  intros H. unfold job_base_state, job_base_ref, job_base.
  case_bool_decide; [apply job_at_initJobStatus | done].
Qed.

Lemma job_stmt_filament (x : js OctoprintFilament) :
  job_stmt
    match x with
    | Val filament =>
        write_jobStatus (with_filamentAmount (getTotalFilamentWeight filament))
    | _ => ret tt
    end
    (fun j => match x with
              | Val filament => with_filamentAmount (getTotalFilamentWeight filament) j
              | _ => j
              end).
Proof. destruct x; auto using job_stmt_write, job_stmt_skip. Qed.

Lemma job_stmt_timeLeft now (x : js number) :
  job_stmt
    match x with
    | Val seconds =>
        when (num_truthy seconds)
          (write_jobStatus
             (with_timeLeft
                {| d_value := convertSecondsToHours (Val seconds);
                   d_unit := Val "h" |}) ;;
           write_jobStatus
             (with_estimatedEndTime (Val (calculateEndTime now seconds))))
    | _ => ret tt
    end
    (fun j => match x with
              | Val seconds =>
                  if num_truthy seconds
                  then with_estimatedEndTime (Val (calculateEndTime now seconds))
                         (with_timeLeft
                            {| d_value := convertSecondsToHours (Val seconds);
                               d_unit := Val "h" |} j)
                  else j
              | _ => j
              end).
Proof.
  destruct x; auto using job_stmt_skip.
  apply (job_stmt_when _ _ (fun j => with_estimatedEndTime _ (with_timeLeft _ j))).
  apply job_stmt_seq; apply job_stmt_write.
Qed.

Lemma job_stmt_currentZ (x : js number) :
  job_stmt
    match x with
    | Val z =>
        when (negb isDisplayLayerProgressEnabled && num_truthy z)
          (write_jobStatus (with_zHeight (ZPlain z)))
    | _ => ret tt
    end
    (fun j => match x with
              | Val z => if negb isDisplayLayerProgressEnabled && num_truthy z
                         then with_zHeight (ZPlain z) j else j
              | _ => j
              end).
Proof.
  destruct x; auto using job_stmt_skip.
  apply (job_stmt_when _ _ (with_zHeight _)), job_stmt_write.
Qed.

Lemma extractJobStatus_at now message s l j :
  job_at s l j ->
  extractJobStatus now message s
  = (set_jobStatusSubject
       (ReplaySubject.next (job_base_ref message s l j) (jobStatusSubject s))
       (put_job (job_base_ref message s l j)
                (job_overlay now message (job_base message j))
                (job_base_state message s j)),
     Some tt).
Proof.
  intros H. pose proof (job_at_base message _ _ _ H) as H0.
  unfold extractJobStatus. rewrite (read_jobStatus_at _ _ _ _ H).
  transitivity
    ((write_jobStatus (with_file (file_of message)) ;;
      write_jobStatus
        (with_fullPath
           (Val ("/" ++ str_of_js (chain (job_file (job message)) origin) ++ "/" ++
                 str_of_js (chain (job_file (job message)) path)))) ;;
      write_jobStatus
        (with_progress (Math_round_js (completion (current_progress message)))) ;;
      write_jobStatus
        (with_timePrinted
           (Val {| d_value := convertSecondsToHours (printTime (current_progress message));
                   d_unit := Val "h" |})) ;;
      match job_filament (job message) with
      | Val filament =>
          write_jobStatus (with_filamentAmount (getTotalFilamentWeight filament))
      | _ => ret tt
      end ;;
      match printTimeLeft (current_progress message) with
      | Val seconds =>
          when (num_truthy seconds)
            (write_jobStatus
               (with_timeLeft
                  {| d_value := convertSecondsToHours (Val seconds);
                     d_unit := Val "h" |}) ;;
             write_jobStatus
               (with_estimatedEndTime (Val (calculateEndTime now seconds))))
      | _ => ret tt
      end ;;
      when (truthy_num (job_estimatedPrintTime (job message)))
        (write_jobStatus
           (with_estimatedPrintTime
              (Val {| d_value := convertSecondsToHours (job_estimatedPrintTime (job message));
                      d_unit := Val "h" |}))) ;;
      match currentZ message with
      | Val z =>
          when (negb isDisplayLayerProgressEnabled && num_truthy z)
            (write_jobStatus (with_zHeight (ZPlain z)))
      | _ => ret tt
      end ;;
      s <- gets id ;;
      match jobStatus s with
      | Some l => modify (set_jobStatusSubject
                            (ReplaySubject.next l (jobStatusSubject s)))
      | None => throw
      end) (job_base_state message s j)).
  { unfold job_base_state. case_bool_decide; reflexivity. }
  rewrite (job_stmt_write _ _ _ _ _ _ H0).
  rewrite (job_stmt_write _ _ _ _ _ _ (job_at_put_job _ _ _ (proj1 H0))), put_job_put_job.
  rewrite (job_stmt_write _ _ _ _ _ _ (job_at_put_job _ _ _ (proj1 H0))), put_job_put_job.
  rewrite (job_stmt_write _ _ _ _ _ _ (job_at_put_job _ _ _ (proj1 H0))), put_job_put_job.
  rewrite (job_stmt_filament _ _ _ _ _ _ (job_at_put_job _ _ _ (proj1 H0))), put_job_put_job.
  rewrite (job_stmt_timeLeft _ _ _ _ _ _ _ (job_at_put_job _ _ _ (proj1 H0))), put_job_put_job.
  rewrite (job_stmt_when _ _ _ (job_stmt_write _) _ _ _ _ _
             (job_at_put_job _ _ _ (proj1 H0))), put_job_put_job.
  rewrite (job_stmt_currentZ _ _ _ _ _ _ (job_at_put_job _ _ _ (proj1 H0))), put_job_put_job.
  unfold bind, gets, modify; simpl. rewrite (proj1 H0).
  f_equal. f_equal; [|f_equal].
  - unfold job_base_state. by case_bool_decide.
  - unfold job_overlay.
    destruct (job_filament (job message)), (printTimeLeft (current_progress message)) as [| |x],
      (job_estimatedPrintTime (job message)) as [| |y], (currentZ message) as [| |z];
      simpl; try reflexivity;
      destruct isDisplayLayerProgressEnabled; simpl;
      repeat (destruct (num_truthy _); simpl); reflexivity.
Qed.

End JobStatus.

Section PrinterStatus.
Context `{RT : Runtime} `{EV : !Environment}.

Lemma put_printer_same s l p : printer_at s l p -> put_printer l p s = s.
Proof.
  intros [_ Hl]. unfold put_printer, set_store.
  rewrite (insert_id _ _ _ Hl). destruct s as [? ? ? ? ? ? ? ? [] ?]; done.
Qed.

Lemma put_printer_put_printer s l p p' :
  put_printer l p' (put_printer l p s) = put_printer l p' s.
Proof. unfold put_printer, set_store; simpl. by rewrite insert_insert_eq. Qed.

Lemma printer_at_put_printer s l p :
  printerStatus s = Some l -> printer_at (put_printer l p s) l p.
Proof. intros H. split; [done|]. simpl. apply lookup_insert_eq. Qed.

Lemma printer_at_printerStatus_of s l p :
  printer_at s l p -> printerStatus_of s = Some p.
Proof. intros [H1 H2]. unfold printerStatus_of. by rewrite H1. Qed.

Lemma printerStatus_of_printer_at s p :
  printerStatus_of s = Some p -> exists l, printer_at s l p.
Proof.
  unfold printerStatus_of, printer_at. destruct (printerStatus s) as [l|]; [|done].
  simpl. eauto.
Qed.

Lemma read_printerStatus_at {A} (k : PrinterStatus -> M A) s l p :
  printer_at s l p -> bind read_printerStatus k s = k p s.
Proof.
  intros [H1 H2]. unfold bind, read_printerStatus. rewrite H1. simpl. by rewrite H2.
Qed.

Lemma printer_stmt_write f : printer_stmt (write_printerStatus f) f.
Proof.
  intros A k s l p [H1 H2]. unfold bind, write_printerStatus. by rewrite H1, H2.
Qed.

Lemma printer_stmt_skip : printer_stmt (ret tt) (fun p => p).
Proof. intros A k s l p H. by rewrite (put_printer_same _ _ _ H). Qed.

Lemma printer_stmt_seq c1 c2 g1 g2 :
  printer_stmt c1 g1 -> printer_stmt c2 g2 ->
  printer_stmt (c1 ;; c2) (fun p => g2 (g1 p)).
Proof.
  intros H1 H2 A k s l p H.
  transitivity (bind c1 (fun _ => bind c2 k) s).
  { unfold bind. destruct (c1 s) as [s1 [[]|]]; done. }
  rewrite (H1 _ _ _ _ _ H).
  rewrite (H2 _ _ _ l (g1 p)); [|apply printer_at_put_printer, H].
  by rewrite put_printer_put_printer.
Qed.

Lemma printer_stmt_temps (ts : list OctoprintTemps) :
  printer_stmt
    match ts with
    | t0 :: _ =>
        write_printerStatus (with_bed (temperature_of (temps_bed t0))) ;;
        write_printerStatus (with_tool0 (temperature_of (temps_tool0 t0)))
    | [] => ret tt
    end
    (fun p => match ts with
              | t0 :: _ => with_tool0 (temperature_of (temps_tool0 t0))
                             (with_bed (temperature_of (temps_bed t0)) p)
              | [] => p
              end).
Proof.
  destruct ts; [apply printer_stmt_skip|].
  apply (printer_stmt_seq _ _ (with_bed _) (with_tool0 _)); apply printer_stmt_write.
Qed.

Lemma extractPrinterEvent_run state s :
  extractPrinterEvent state s
  = (publish_inferred (newState_of (event_type state)) s, Some tt).
Proof. unfold extractPrinterEvent. by destruct (newState_of _). Qed.

Lemma extractPrinterStatus_at message s l p :
  printer_at s l p ->
  extractPrinterStatus message s
  = (set_printerStatusSubject
       (ReplaySubject.next l (printerStatusSubject s))
       (publish_inferred (inferred_event message (lastState s))
          (put_printer l (printer_overlay message p) s)),
     Some tt).
Proof.
  intros H. unfold extractPrinterStatus.
  rewrite (printer_stmt_temps _ _ _ _ _ _ H).
  rewrite (printer_stmt_write _ _ _ _ _ _ (printer_at_put_printer _ _ _ (proj1 H))),
    put_printer_put_printer.
  rewrite (read_printerStatus_at _ _ _ _ (printer_at_put_printer _ _ _ (proj1 H))).
  set (p' := with_status _ _).
  assert (p' = printer_overlay message p) as ->.
  { unfold p', printer_overlay. by destruct (temps message). }
  unfold inferred_event.
  change (status (printer_overlay message p))
    with (PrinterState_get (Str.toLowerCase (state_text message))).
  unfold bind at 1. unfold gets at 1. cbv beta iota.
  change (lastState (put_printer l (printer_overlay message p) s)) with (lastState s).
  destruct (bool_decide (_ = Val printing) && bool_decide (lastState s = Some UNKNOWN)).
  { unfold bind. rewrite extractPrinterEvent_run. simpl. by rewrite (proj1 H). }
  destruct (bool_decide (_ = Val paused) && bool_decide (lastState s = Some UNKNOWN)).
  { unfold bind. rewrite extractPrinterEvent_run. simpl. by rewrite (proj1 H). }
  unfold bind. simpl. by rewrite (proj1 H).
Qed.

End PrinterStatus.


Section Results.
Context `{RT : Runtime} `{EV : !Environment}.

Lemma extractJobStatus_job_at now message s l j :
  job_at s l j ->
  job_at (exec (extractJobStatus now message) s)
         (job_base_ref message s l j)
         (job_overlay now message (job_base message j)).
Proof.
  intros H. unfold exec. rewrite (extractJobStatus_at _ _ _ _ _ H). simpl.
  apply (job_at_put_job _ _ _ (proj1 (job_at_base message _ _ _ H))).
Qed.


Lemma extractJobStatus_jobStatus_of now message s j :
  jobStatus_of s = Some j ->
  jobStatus_of (exec (extractJobStatus now message) s)
  = Some (job_overlay now message (job_base message j)).
Proof.
  intros [l H]%jobStatus_of_job_at.
  eapply job_at_jobStatus_of, extractJobStatus_job_at, H.
Qed.

Lemma extractJobStatus_printer_at now message s l j lp p :
  job_at s l j -> printer_at s lp p ->
  printer_at (exec (extractJobStatus now message) s) lp p.
Proof.
  intros H Hp. unfold exec. rewrite (extractJobStatus_at _ _ _ _ _ H).
  unfold job_base_state. destruct Hp. by case_bool_decide.
Qed.

Lemma extractPrinterStatus_printer_at message s l p :
  printer_at s l p ->
  printer_at (exec (extractPrinterStatus message) s) l
             (printer_overlay message p).
Proof.
  intros H. unfold exec. rewrite (extractPrinterStatus_at _ _ _ _ H).
  destruct H as [H1 H2].
  split; destruct (inferred_event _ _); simpl; try done; apply lookup_insert_eq.
Qed.

Lemma extractPrinterStatus_job_at message s l p lj j :
  printer_at s l p -> job_at s lj j ->
  job_at (exec (extractPrinterStatus message) s) lj j.
Proof.
  intros H [H1 H2]. unfold exec. rewrite (extractPrinterStatus_at _ _ _ _ H).
  split; by destruct (inferred_event _ _).
Qed.

Lemma existsb_eqb_In (k : string) (names : list string) :
  existsb (String.eqb k) names = true <-> In k names.
Proof.
  rewrite existsb_exists. split.
  - intros (x & Hx & ->%String.eqb_eq). done.
  - intros H. exists k. split; [done|]. apply String.eqb_refl.
Qed.


End Results.


Section Handler.
Context `{RT : Runtime} `{EV : !Environment}.

Lemma ready_at s :
  ready s <-> exists lp p lj j, printer_at s lp p /\ job_at s lj j.
Proof.
  unfold ready. split.
  - intros [[p [lp Hp]%printerStatus_of_printer_at]
            [j [lj Hj]%jobStatus_of_job_at]]. eauto 8.
  - intros (lp & p & lj & j & Hp & Hj). split; eexists.
    + eapply printer_at_printerStatus_of, Hp.
    + eapply job_at_jobStatus_of, Hj.
Qed.

Lemma onMessage_current now frame c s lp p :
  has_current frame = Some c ->
  printer_at s lp p ->
  onMessage now frame s
  = extractJobStatus now c (exec (extractPrinterStatus c) s).
Proof.
  intros Hc Hp. unfold onMessage, exec. rewrite Hc. unfold bind.
  by rewrite (extractPrinterStatus_at _ _ _ _ Hp).
Qed.

Lemma extractJobStatus_events now c s l j :
  job_at s l j ->
  lastState (exec (extractJobStatus now c) s) = lastState s /\
  eventSubject (exec (extractJobStatus now c) s) = eventSubject s /\
  printerStatus (exec (extractJobStatus now c) s) = printerStatus s.
Proof.
  intros H. unfold exec. rewrite (extractJobStatus_at _ _ _ _ _ H).
  unfold job_base_state. by case_bool_decide.
Qed.

Lemma extractPrinterStatus_events c s l p :
  printer_at s l p ->
  lastState (exec (extractPrinterStatus c) s)
  = lastState (publish_inferred (inferred_event c (lastState s)) s) /\
  eventSubject (exec (extractPrinterStatus c) s)
  = eventSubject (publish_inferred (inferred_event c (lastState s)) s) /\
  jobStatus (exec (extractPrinterStatus c) s) = jobStatus s.
Proof.
  intros H. unfold exec. rewrite (extractPrinterStatus_at _ _ _ _ H).
  by destruct (inferred_event _ _).
Qed.

(** What the handler does with a [current] frame. *)
Lemma onMessage_current_spec now frame c s lp p lj j :
  has_current frame = Some c ->
  printer_at s lp p -> job_at s lj j ->
  let s' := exec (onMessage now frame) s in
  returns (onMessage now frame) s = true /\
  printer_at s' lp (printer_overlay c p) /\
  job_at s' (job_base_ref c s lj j) (job_overlay now c (job_base c j)) /\
  lastState s' = lastState (publish_inferred (inferred_event c (lastState s)) s) /\
  eventSubject s'
  = eventSubject (publish_inferred (inferred_event c (lastState s)) s).
Proof.
  intros Hc Hp Hj s'.
  pose proof (extractPrinterStatus_printer_at c _ _ _ Hp) as Hp1.
  pose proof (extractPrinterStatus_job_at c _ _ _ _ _ Hp Hj) as Hj1.
  pose proof (extractPrinterStatus_events c _ _ _ Hp) as (Hl1 & He1 & _).
  pose proof (extractJobStatus_events now c _ _ _ Hj1) as (Hl2 & He2 & _).
  pose proof (extractJobStatus_job_at now c _ _ _ Hj1) as Hj2.
  pose proof (extractJobStatus_printer_at now c _ _ _ _ _ Hj1 Hp1) as Hp2.
  assert (s' = exec (extractJobStatus now c) (exec (extractPrinterStatus c) s)) as ->.
  { unfold s', exec at 1. by rewrite (onMessage_current _ _ _ _ _ _ Hc Hp). }
  split.
  { unfold returns. rewrite (onMessage_current _ _ _ _ _ _ Hc Hp).
    by rewrite (extractJobStatus_at _ _ _ _ _ Hj1). }
  split; [done|]. split.
  { assert (job_base_ref c (exec (extractPrinterStatus c) s) lj j
            = job_base_ref c s lj j) as <-; [|done].
    unfold job_base_ref, exec. rewrite (extractPrinterStatus_at _ _ _ _ Hp).
    by destruct (inferred_event _ _). }
  split; congruence.
Qed.

(** What the handler publishes for a [current] frame: the references of
    the two records. *)
Lemma onMessage_current_published now frame c s lp p lj j :
  has_current frame = Some c ->
  printer_at s lp p -> job_at s lj j ->
  let s' := exec (onMessage now frame) s in
  printerStatusSubject s' = ReplaySubject.next lp (printerStatusSubject s) /\
  jobStatusSubject s'
  = ReplaySubject.next (job_base_ref c s lj j) (jobStatusSubject s).
Proof.
  intros Hc Hp Hj s'.
  pose proof (extractPrinterStatus_job_at c _ _ _ _ _ Hp Hj) as Hj1.
  assert (s' = fst (extractJobStatus now c (exec (extractPrinterStatus c) s)))
    as -> by (unfold s', exec at 1; by rewrite (onMessage_current _ _ _ _ _ _ Hc Hp)).
  rewrite (extractJobStatus_at _ _ _ _ _ Hj1).
  unfold job_base_state, job_base_ref, exec.
  rewrite (extractPrinterStatus_at _ _ _ _ Hp).
  case_bool_decide; destruct (inferred_event _ _); split; reflexivity.
Qed.

Lemma inferred_event_known c last :
  last <> Some UNKNOWN -> inferred_event c last = None.
Proof.
  intros H. unfold inferred_event.
  rewrite (bool_decide_eq_false_2 (last = Some UNKNOWN) H).
  by rewrite !andb_false_r.
Qed.

(** Once the last event is known, [current] frames publish no event. *)
Lemma feed_known frames : forall s,
  ready s ->
  lastState s <> Some UNKNOWN ->
  Forall (fun x => is_Some (has_current (snd x))) frames ->
  eventSubject (feed frames s) = eventSubject s /\
  lastState (feed frames s) = lastState s.
Proof.
  induction frames as [|[now frame] frames IH]; intros s Hr Hk Hall; [done|].
  apply Forall_cons in Hall as [[c Hc] Hall]. simpl in Hc.
  apply ready_at in Hr as (lp & p & lj & j & Hp & Hj).
  pose proof (onMessage_current_spec now _ _ _ _ _ _ _ Hc Hp Hj)
    as (_ & Hp' & Hj' & Hl & He).
  rewrite (inferred_event_known _ _ Hk) in Hl, He. simpl in Hl, He.
  unfold feed; simpl. fold (feed frames (exec (onMessage now frame) s)).
  destruct (IH (exec (onMessage now frame) s)) as [IH1 IH2].
  - apply ready_at. eauto 8.
  - by rewrite Hl.
  - done.
  - split; congruence.
Qed.

Lemma job_base_overlay now c base :
  job_base c (job_overlay now c base) = job_overlay now c base.
Proof. unfold job_base. by rewrite bool_decide_eq_false_2 by (simpl; auto). Qed.

Lemma job_overlay_twice now1 now2 c base :
  job_overlay now2 c (job_overlay now1 c base)
  = with_estimatedEndTime
      (estimatedEndTime (job_overlay now2 c (job_overlay now1 c base)))
      (job_overlay now1 c base).
Proof.
  unfold job_overlay, with_estimatedEndTime; simpl. f_equal.
  - by destruct (currentZ c) as [| |z];
      [| |destruct (negb isDisplayLayerProgressEnabled && num_truthy z)].
  - by destruct (job_filament (job c)).
  - by destruct (truthy_num _).
  - by destruct (truthy_num _).
Qed.

Lemma printer_overlay_twice c p :
  printer_overlay c (printer_overlay c p) = printer_overlay c p.
Proof. unfold printer_overlay; simpl. by destruct (temps c). Qed.

End Handler.

(** ** Relations every method keeps *)

Section Keeps.
Context `{RT : Runtime} `{EV : !Environment}.
Variable R : State -> State -> Prop.

(** [R] looks at the retry counter, the last event, the event subject
    and the timers only, and composes. *)
Hypothesis R_same : forall s s',
  fastInterval s' = fastInterval s ->
  lastState s' = lastState s ->
  eventSubject s' = eventSubject s ->
  timeouts (world s') = timeouts (world s) ->
  R s s'.
Hypothesis R_trans : forall s1 s2 s3, R s1 s2 -> R s2 s3 -> R s1 s3.

Lemma keeps_ret {A} (a : A) : keeps R (ret a).
Proof. intros s. by apply R_same. Qed.

Lemma keeps_throw {A} : keeps R (@throw _ A).
Proof. intros s. by apply R_same. Qed.

Lemma keeps_gets {A} (f : State -> A) : keeps R (gets f).
Proof. intros s. by apply R_same. Qed.

Lemma keeps_bind {A B} (m : M A) (k : A -> M B) :
  keeps R m -> (forall a, keeps R (k a)) -> keeps R (bind m k).
Proof.
  intros Hm Hk s. unfold exec, bind.
  specialize (Hm s). unfold exec in Hm.
  destruct (m s) as [s1 [a|]]; [|done].
  eapply R_trans; [exact Hm|]. apply Hk.
Qed.

Lemma keeps_when (b : bool) (m : M unit) : keeps R m -> keeps R (when b m).
Proof. destruct b; [done|]. intros _. apply keeps_ret. Qed.

Lemma keeps_modify (f : State -> State) :
  (forall s, R s (f s)) -> keeps R (modify f).
Proof. intros H s. apply H. Qed.

Lemma keeps_read_printerStatus : keeps R read_printerStatus.
Proof. intros s. by apply R_same. Qed.

Lemma keeps_read_jobStatus : keeps R read_jobStatus.
Proof. intros s. by apply R_same. Qed.

Lemma keeps_write_printerStatus f : keeps R (write_printerStatus f).
Proof.
  intros s. unfold exec, write_printerStatus.
  destruct (printerStatus s) as [l|]; [|by apply R_same].
  destruct (printerObjs (store s) !! l); by apply R_same.
Qed.

Lemma keeps_write_jobStatus f : keeps R (write_jobStatus f).
Proof.
  intros s. unfold exec, write_jobStatus.
  destruct (jobStatus s) as [l|]; [|by apply R_same].
  destruct (jobObjs (store s) !! l); by apply R_same.
Qed.

Lemma keeps_initPrinterStatus : keeps R initPrinterStatus.
Proof. intros s. by apply R_same. Qed.

Lemma keeps_initJobStatus : keeps R initJobStatus.
Proof. intros s. by apply R_same. Qed.

Lemma keeps_tryConnect : keeps R tryConnect.
Proof. intros s. by apply R_same. Qed.

Lemma keeps_request_reauthKey : keeps R request_reauthKey.
Proof. intros s. by apply R_same. Qed.

Lemma keeps_resolve : keeps R resolve.
Proof. intros s. by apply R_same. Qed.

Lemma keeps_checkPrinterConnection : keeps R checkPrinterConnection.
Proof. intros s. by apply R_same. Qed.

Lemma keeps_take_timer : keeps R take_timer.
Proof.
  intros s. unfold exec, take_timer. destruct (pendingTimers _); by apply R_same.
Qed.

Lemma keeps_take_connectKey : keeps R take_connectKey.
Proof.
  intros s. unfold exec, take_connectKey.
  destruct (connectKeyRequests _); by apply R_same.
Qed.

Lemma keeps_take_reauthKey : keeps R take_reauthKey.
Proof.
  intros s. unfold exec, take_reauthKey.
  destruct (reauthKeyRequests _); by apply R_same.
Qed.

Lemma keeps_take_connection : keeps R take_connection.
Proof.
  intros s. unfold exec, take_connection.
  destruct (connectionRequests _); by apply R_same.
Qed.

Ltac keeps_steps :=
  repeat first
    [ apply keeps_ret | apply keeps_throw | apply keeps_gets
    | apply keeps_read_printerStatus | apply keeps_read_jobStatus
    | apply keeps_write_printerStatus | apply keeps_write_jobStatus
    | apply keeps_initJobStatus | apply keeps_initPrinterStatus
    | apply keeps_when
    | assumption
    | apply keeps_bind; [|intros ?]
    | apply keeps_modify; intros ?; by apply R_same
    | match goal with
      | |- keeps _ (match ?x with _ => _ end) => destruct x
      | |- keeps _ (if ?b then _ else _) => destruct b
      end ].

Lemma keeps_connectSocket : keeps R connectSocket.
Proof. unfold connectSocket. keeps_steps. Qed.

Lemma keeps_setupSocket : keeps R setupSocket.
Proof. unfold setupSocket. keeps_steps. Qed.

Lemma keeps_authenticateSocket a : keeps R (authenticateSocket a).
Proof. unfold authenticateSocket. keeps_steps. Qed.

Lemma keeps_tryConnect_next a : keeps R (tryConnect_next a).
Proof.
  unfold tryConnect_next.
  apply keeps_bind; [apply keeps_connectSocket|intros _].
  apply keeps_bind; [apply keeps_setupSocket|intros _].
  apply keeps_authenticateSocket.
Qed.

Lemma keeps_extractJobStatus now message : keeps R (extractJobStatus now message).
Proof. unfold extractJobStatus. keeps_steps. Qed.

Lemma keeps_extractFanSpeed message : keeps R (extractFanSpeed message).
Proof. apply keeps_write_printerStatus. Qed.

Lemma keeps_extractLayerHeight message : keeps R (extractLayerHeight message).
Proof. apply keeps_write_jobStatus. Qed.

(** What is left depends on [R]. *)
Hypothesis R_event : forall state, keeps R (extractPrinterEvent state).
Hypothesis R_closed : keeps R (eventSubject_next CLOSED).
Hypothesis R_subscribe : keeps R subscribe_event.
Hypothesis R_error : keeps R tryConnect_error.

Lemma keeps_extractPrinterStatus message : keeps R (extractPrinterStatus message).
Proof.
  unfold extractPrinterStatus.
  apply keeps_bind; [keeps_steps|intros _].
  apply keeps_bind; [keeps_steps|intros _].
  apply keeps_bind; [keeps_steps|intros p].
  apply keeps_bind; [keeps_steps|intros last].
  apply keeps_bind; [|intros _; keeps_steps].
  destruct (_ && _); [apply R_event|].
  destruct (_ && _); [apply R_event|apply keeps_ret].
Qed.

Lemma keeps_checkPrinterConnection_next state :
  keeps R (checkPrinterConnection_next state).
Proof. unfold checkPrinterConnection_next. keeps_steps. Qed.

Lemma keeps_onMessage now message : keeps R (onMessage now message).
Proof.
  unfold onMessage.
  destruct (has_current message).
  { apply keeps_bind; [apply keeps_extractPrinterStatus|].
    intros _. apply keeps_extractJobStatus. }
  destruct (has_event message); [apply R_event|].
  destruct (has_plugin message) as [[| |pluginMessage]|];
    [apply keeps_throw..| |].
  { destruct (_ && _); [|apply keeps_ret].
    apply keeps_bind; [apply keeps_extractFanSpeed|].
    intros _. apply keeps_extractLayerHeight. }
  destruct (has_reauth message); [apply keeps_request_reauthKey|].
  destruct (has_connected message); [|apply keeps_ret].
  apply keeps_bind; [apply keeps_resolve|].
  intros _. apply keeps_checkPrinterConnection.
Qed.

Lemma keeps_step i :
  (is_connect i = true -> keeps R connect) -> keeps R (step i).
Proof.
  intros Hconnect. destruct i; simpl.
  - by apply Hconnect.
  - apply keeps_extractPrinterStatus.
  - apply keeps_extractFanSpeed.
  - apply keeps_extractJobStatus.
  - apply keeps_extractLayerHeight.
  - apply R_event.
  - apply keeps_bind; [apply R_subscribe|]. intros _. apply keeps_ret.
  - apply keeps_bind; [apply keeps_take_timer|].
    intros b. apply keeps_when, keeps_tryConnect.
  - apply keeps_bind; [apply keeps_take_connectKey|].
    intros b. apply keeps_when. destruct answer; [apply keeps_tryConnect_next|done].
  - apply keeps_bind; [apply keeps_take_reauthKey|].
    intros b. apply keeps_when.
    destruct answer; [apply keeps_authenticateSocket|apply keeps_ret].
  - apply keeps_bind; [apply keeps_take_connection|].
    intros b. apply keeps_when.
    destruct answer; [apply keeps_checkPrinterConnection_next|apply keeps_ret].
  - apply keeps_bind; [apply keeps_gets|].
    intros [|n]; [apply keeps_ret|apply keeps_onMessage].
Qed.

Lemma keeps_run inputs : forall s,
  Forall (fun i => is_connect i = true -> keeps R connect) inputs ->
  R s (run inputs s).
Proof.
  induction inputs as [|i inputs IH]; intros s Hall.
  { by apply R_same. }
  apply Forall_cons in Hall as [Hi Hall].
  eapply R_trans; [apply (keeps_step i Hi s)|]. apply IH, Hall.
Qed.

End Keeps.

(** ** The three relations *)

Section Relations.
Context `{RT : Runtime} `{EV : !Environment}.

Lemma ladder_app (from n m : nat) :
  ladder from (n + m) = (ladder from n ++ ladder (from + n) m)%list.
Proof. unfold ladder. by rewrite seq_app, fmap_app. Qed.

Lemma ladder_late (from n : nat) :
  (6 <= from)%nat -> ladder from n = replicate n 15000.
Proof.
  revert from. induction n as [|n IH]; intros from Hfrom; [done|].
  unfold ladder in *. simpl. rewrite IH by lia. f_equal.
  unfold retry_delay. by rewrite (proj2 (Nat.ltb_ge from 6)).
Qed.








Lemma still_known_same s s' :
  fastInterval s' = fastInterval s ->
  lastState s' = lastState s ->
  eventSubject s' = eventSubject s ->
  timeouts (world s') = timeouts (world s) ->
  still_known s s'.
Proof. intros _ Hl _ _. unfold still_known. by rewrite Hl. Qed.

Lemma still_known_trans s1 s2 s3 :
  still_known s1 s2 -> still_known s2 s3 -> still_known s1 s3.
Proof. unfold still_known. auto. Qed.

Lemma newState_of_known type : newState_of type <> Some UNKNOWN.
Proof. unfold newState_of. repeat case_match; discriminate. Qed.

Lemma still_known_event state : keeps still_known (extractPrinterEvent state).
Proof.
  intros s Hs. unfold exec. rewrite extractPrinterEvent_run.
  pose proof (newState_of_known (event_type state)) as Hne.
  destruct (newState_of _); simpl; congruence.
Qed.

Lemma still_known_run inputs s :
  Forall (fun i => is_connect i = false) inputs ->
  still_known s (run inputs s).
Proof.
  intros Hall.
  apply (keeps_run still_known still_known_same still_known_trans
           still_known_event).
  - intros s0 H. exact H.
  - intros s0 H. exact H.
  - intros s0 H. exact H.
  - eapply Forall_impl; [exact Hall|]. intros i Hi. by rewrite Hi.
Qed.

Lemma still_complete_none id s s' :
  eventSubject s' = eventSubject s -> still_complete id s s'.
Proof. intros He. unfold still_complete, observer_complete. by rewrite He. Qed.

Lemma still_complete_same id s s' :
  fastInterval s' = fastInterval s ->
  lastState s' = lastState s ->
  eventSubject s' = eventSubject s ->
  timeouts (world s') = timeouts (world s) ->
  still_complete id s s'.
Proof. intros _ _ He _. by apply still_complete_none. Qed.

Lemma still_complete_trans id s1 s2 s3 :
  still_complete id s1 s2 -> still_complete id s2 s3 -> still_complete id s1 s3.
Proof.
  intros [H1 P1] [H2 P2]. split; [auto|]. by etrans.
Qed.

Lemma still_complete_next id e : keeps (still_complete id) (eventSubject_next e).
Proof.
  intros s. split; simpl.
  - unfold observer_complete, ReplaySubject.received. simpl. intros H.
    by rewrite list_lookup_fmap, H.
  - by exists [e].
Qed.

Lemma still_complete_event id state :
  keeps (still_complete id) (extractPrinterEvent state).
Proof.
  intros s. unfold exec. rewrite extractPrinterEvent_run.
  destruct (newState_of _) as [e|]; [|by apply still_complete_none].
  apply (still_complete_trans _ _ (set_lastState (Some e) s)).
  - by apply still_complete_none.
  - apply (still_complete_next id e (set_lastState (Some e) s)).
Qed.

Lemma still_complete_subscribe id : keeps (still_complete id) subscribe_event.
Proof.
  intros s. split; simpl; [|done].
  unfold observer_complete, ReplaySubject.received. simpl. intros H.
  rewrite lookup_app_l; [done|]. by eapply lookup_lt_Some.
Qed.

Lemma still_complete_run id inputs s : still_complete id s (run inputs s).
Proof.
  apply (keeps_run (still_complete id) (still_complete_same id)
           (still_complete_trans id) (still_complete_event id)).
  - apply still_complete_next.
  - apply still_complete_subscribe.
  - intros s0. by apply still_complete_none.
  - apply Forall_forall. intros i _ _ s0. by apply still_complete_none.
Qed.

(** [n] failures in a row, the first request being under way. *)
Lemma failures_run n : forall s,
  (0 < connectKeyRequests (world s))%nat ->
  fastInterval (run (failures n) s) = (fastInterval s + n)%nat /\
  timeouts (world (run (failures n) s))
  = (timeouts (world s) ++ ladder (fastInterval s) n)%list /\
  (0 < connectKeyRequests (world (run (failures n) s)))%nat.
Proof.
  induction n as [|n IH]; intros s Hreq.
  { simpl. rewrite app_nil_r. repeat split; [lia|done]. }
  change (run (failures (S n)) s)
    with (run (failures n)
            (exec (step Timer_fires)
               (exec (step (SessionKey_for_connect None)) s))).
  set (s2 := exec (step Timer_fires) _).
  assert (fastInterval s2 = S (fastInterval s) /\
          timeouts (world s2)
          = (timeouts (world s) ++ [retry_delay (fastInterval s)])%list /\
          (0 < connectKeyRequests (world s2))%nat) as (Hf & Ht & Hr).
  { unfold s2, exec, step, bind, take_connectKey.
    destruct (connectKeyRequests (world s)) as [|m] eqn:Hm; [lia|].
    simpl. repeat split; lia. }
  destruct (IH s2 Hr) as (IH1 & IH2 & IH3).
  rewrite IH1, IH2, Hf, Ht. repeat split; [lia| |done].
  by rewrite <- app_assoc.
Qed.

End Relations.

(** ** The claims *)

Section MethodClaims.
Context `{RT : Runtime} `{EV : !Environment}.

(** C4.  For every event frame, [extractPrinterEvent] maps the raw type
    string as the transition table says; on a type of the table the last
    event becomes the new value and that value is published, on any other
    type the state of the service is as it was: nothing is stored and
    nothing is published. *)
Theorem event_transition_table (state : OctoprintSocketEvent) (s : State) :
  newState_of (event_type state) = table_lookup transition_table (event_type state) /\
  returns (extractPrinterEvent state) s = true /\
  match table_lookup transition_table (event_type state) with
  | Some e =>
      exec (extractPrinterEvent state) s = publish_event e s /\
      lastState (exec (extractPrinterEvent state) s) = Some e /\
      ReplaySubject.buffer (eventSubject (exec (extractPrinterEvent state) s))
      = (ReplaySubject.buffer (eventSubject s) ++ [e])%list
  | None => exec (extractPrinterEvent state) s = s
  end.
Proof.
  assert (newState_of (event_type state)
          = table_lookup transition_table (event_type state)) as Htable
    by reflexivity.
  split; [exact Htable|].
  unfold returns, exec. rewrite extractPrinterEvent_run, Htable.
  split; [done|]. by destruct (table_lookup _ _).
Qed.


(** C6, amended.  When an optional field (the filament data, the remaining
    print time, the total estimated print time, or [currentZ], with or
    without layer progress tracking) is absent from a [current] frame,
    [extractJobStatus] leaves the corresponding field of the record as it
    was if the frame names the tracked file, and at its initial default if
    the frame names another file. *)
Theorem absent_field_keeps_base (now : Date) (message : OctoprintSocketCurrent)
    (s : State) (j : JobStatus) :
  jobStatus_of s = Some j ->
  exists j',
    jobStatus_of (exec (extractJobStatus now message) s) = Some j' /\
    let base := if bool_decide (file j = file_of message) then j
                else default_jobStatus in
    (job_filament (job message) = Undefined ->
     filamentAmount j' = filamentAmount base) /\
    (printTimeLeft (current_progress message) = Undefined ->
     timeLeft j' = timeLeft base /\ estimatedEndTime j' = estimatedEndTime base) /\
    (job_estimatedPrintTime (job message) = Undefined ->
     estimatedPrintTime j' = estimatedPrintTime base) /\
    (currentZ message = Undefined -> zHeight j' = zHeight base).
Proof.
  intros Hs. eexists. split; [by apply extractJobStatus_jobStatus_of|].
  assert (job_base message j
          = if bool_decide (file j = file_of message) then j else default_jobStatus)
    as ->.
  { unfold job_base. repeat case_bool_decide; done. }
  unfold job_overlay; cbv zeta; simpl.
  repeat apply conj;
    intros Habsent; rewrite Habsent; simpl; auto.
Qed.


End MethodClaims.

Section HandlerClaims.
Context `{RT : Runtime} `{EV : !Environment}.

(** C5.  When the last event is [UNKNOWN] and the handler is given a
    [current] frame whose state is [printing] (respectively [paused]), the
    frame has on the last event and on the event subject the effect of a
    [PrintStarted] (respectively [PrintPaused]) event; and over that frame
    and any number of further [current] frames with the same state, the
    event subject is given [PRINTING] (respectively [PAUSED]) once and
    nothing else, the last event being that event from then on: what the
    subject has published is what it had published with that one event
    after it, and every observer has been handed that one event more. *)
Theorem inferred_event_emitted_once (label type : string) (e : PrinterEvent)
    (f : Date * RawFrame) (frames : list (Date * RawFrame)) (s : State) :
  (label = "printing" /\ type = "PrintStarted" /\ e = PRINTING) \/
  (label = "paused" /\ type = "PrintPaused" /\ e = PAUSED) ->
  ready s ->
  lastState s = Some UNKNOWN ->
  Forall (fun x => exists c,
            has_current (snd x) = Some c /\
            PrinterState_get (Str.toLowerCase (state_text c)) = Val (Member label))
         (f :: frames) ->
  let first := exec (onMessage (fst f) (snd f)) s in
  let synthesized := exec (extractPrinterEvent {| event_type := type |}) s in
  lastState first = lastState synthesized /\
  eventSubject first = eventSubject synthesized /\
  lastState (feed (f :: frames) s) = Some e /\
  eventSubject (feed (f :: frames) s) = ReplaySubject.next e (eventSubject s) /\
  ReplaySubject.buffer (eventSubject (feed (f :: frames) s))
  = (ReplaySubject.buffer (eventSubject s) ++ [e])%list /\
  ReplaySubject.observers (eventSubject (feed (f :: frames) s))
  = (fun log => log ++ [e])%list <$> ReplaySubject.observers (eventSubject s).
Proof.
  intros Hcase Hr Hlast Hall first synthesized.
  apply Forall_cons in Hall as [(c & Hc & Hst) Hall].
  apply ready_at in Hr as (lp & p & lj & j & Hp & Hj).
  pose proof (onMessage_current_spec (fst f) _ _ _ _ _ _ _ Hc Hp Hj)
    as (_ & Hp' & Hj' & Hl & He).
  fold first in Hp', Hj', Hl, He.
  assert (inferred_event c (lastState s) = Some e) as Hinf.
  { unfold inferred_event. rewrite Hst, Hlast.
    destruct Hcase as [(-> & _ & ->)|(-> & _ & ->)]; reflexivity. }
  assert (newState_of type = Some e) as Hnew.
  { destruct Hcase as [(_ & -> & ->)|(_ & -> & ->)]; reflexivity. }
  assert (synthesized = publish_event e s) as Hsyn.
  { unfold synthesized, exec. rewrite extractPrinterEvent_run. simpl.
    by rewrite Hnew. }
  rewrite Hinf in Hl, He. simpl in Hl, He.
  assert (e <> UNKNOWN) as Hknown
    by (destruct Hcase as [(_ & _ & ->)|(_ & _ & ->)]; discriminate).
  destruct (feed_known frames first) as [F1 F2].
  { apply ready_at. eauto 8. }
  { rewrite Hl. congruence. }
  { eapply Forall_impl; [exact Hall|]. intros x (c' & Hc' & _). by exists c'. }
  rewrite Hsyn. simpl.
  split; [done|]. split; [done|].
  change (feed (f :: frames) s) with (feed frames first).
  assert (eventSubject (feed frames first)
          = ReplaySubject.next e (eventSubject s)) as Hsubject
    by (unfold first in *; congruence).
  split; [unfold first in *; congruence|].
  split; [exact Hsubject|].
  split; [exact (f_equal ReplaySubject.buffer Hsubject)|].
  exact (f_equal ReplaySubject.observers Hsubject).
Qed.

(** C7, amended.  When the handler is given the same [current] frame twice
    in succession, both times it publishes the references of the same two
    objects; the printer status is field for field what it was after the
    first time; the job status is what it was after the first time in every
    field other than [estimatedEndTime], which is computed anew from the
    clock, so that the two job statuses are equal whenever the frame has no
    remaining print time to convert or the two clock readings give the same
    end time. *)
Theorem same_frame_twice (now1 now2 : Date) (frame : RawFrame)
    (c : OctoprintSocketCurrent) (s : State) :
  ready s ->
  has_current frame = Some c ->
  let s1 := exec (onMessage now1 frame) s in
  let s2 := exec (onMessage now2 frame) s1 in
  (exists lp lj,
     printerStatus s1 = Some lp /\ printerStatus s2 = Some lp /\
     jobStatus s1 = Some lj /\ jobStatus s2 = Some lj /\
     printerStatusSubject s1 = ReplaySubject.next lp (printerStatusSubject s) /\
     printerStatusSubject s2 = ReplaySubject.next lp (printerStatusSubject s1) /\
     jobStatusSubject s1 = ReplaySubject.next lj (jobStatusSubject s) /\
     jobStatusSubject s2 = ReplaySubject.next lj (jobStatusSubject s1)) /\
  is_Some (printerStatus_of s1) /\
  printerStatus_of s2 = printerStatus_of s1 /\
  exists j1 j2,
    jobStatus_of s1 = Some j1 /\
    jobStatus_of s2 = Some j2 /\
    j2 = with_estimatedEndTime (estimatedEndTime j2) j1 /\
    ((forall seconds,
        printTimeLeft (current_progress c) = Val seconds ->
        num_truthy seconds = true ->
        calculateEndTime now2 seconds = calculateEndTime now1 seconds) ->
     j2 = j1).
Proof.
  intros (lp & p & lj & j & Hp & Hj)%ready_at Hc s1 s2.
  pose proof (onMessage_current_spec now1 _ _ _ _ _ _ _ Hc Hp Hj)
    as (_ & Hp1 & Hj1 & _). fold s1 in Hp1, Hj1.
  pose proof (onMessage_current_spec now2 _ _ _ _ _ _ _ Hc Hp1 Hj1)
    as (_ & Hp2 & Hj2 & _). fold s2 in Hp2, Hj2.
  rewrite printer_overlay_twice in Hp2.
  rewrite job_base_overlay in Hj2.
  assert (job_base_ref c s1 (job_base_ref c s lj j)
            (job_overlay now1 c (job_base c j)) = job_base_ref c s lj j) as Href.
  { unfold job_base_ref at 1. by rewrite bool_decide_eq_false_2 by (simpl; auto). }
  rewrite Href in Hj2.
  pose proof (onMessage_current_published now1 _ _ _ _ _ _ _ Hc Hp Hj)
    as [Hpub1 Hjpub1]. fold s1 in Hpub1, Hjpub1.
  pose proof (onMessage_current_published now2 _ _ _ _ _ _ _ Hc Hp1 Hj1)
    as [Hpub2 Hjpub2]. fold s2 in Hpub2, Hjpub2.
  rewrite Href in Hjpub2.
  split.
  { exists lp, (job_base_ref c s lj j).
    split; [exact (proj1 Hp1)|]. split; [exact (proj1 Hp2)|].
    split; [exact (proj1 Hj1)|]. split; [exact (proj1 Hj2)|]. done. }
  rewrite (printer_at_printerStatus_of _ _ _ Hp1),
    (printer_at_printerStatus_of _ _ _ Hp2).
  split; [by eexists|]. split; [done|].
  eexists _, _.
  split; [eapply job_at_jobStatus_of, Hj1|].
  split; [eapply job_at_jobStatus_of, Hj2|].
  split; [apply job_overlay_twice|].
  intros Hclock. rewrite job_overlay_twice.
  unfold with_estimatedEndTime, job_overlay; simpl. f_equal.
  destruct (printTimeLeft (current_progress c)) as [| |seconds] eqn:Hleft;
    try reflexivity.
  destruct (num_truthy seconds) eqn:Htruthy; [|reflexivity].
  by rewrite (Hclock seconds).
Qed.

End HandlerClaims.

Section RunClaims.
Context `{RT : Runtime} `{EV : !Environment}.

(** C1, amended.  The event subscribable is the replay subject itself: an
    observer that subscribes is handed at once every event published since
    the service was built, in order, and from then on every later event;
    whatever happens next ([connect] included), what it has received is the
    whole buffer of the subject, which only grows. *)
Theorem event_subscribable_replays_all (s : State) (inputs : list Input) :
  let id := length (ReplaySubject.observers (eventSubject s)) in
  let s0 := exec subscribe_event s in
  let s' := run inputs s0 in
  snd (subscribe_event s) = Some id /\
  ReplaySubject.buffer (eventSubject s0) = ReplaySubject.buffer (eventSubject s) /\
  ReplaySubject.received (eventSubject s0) id
  = Some (ReplaySubject.buffer (eventSubject s)) /\
  ReplaySubject.buffer (eventSubject s)
    `prefix_of` ReplaySubject.buffer (eventSubject s') /\
  ReplaySubject.received (eventSubject s') id
  = Some (ReplaySubject.buffer (eventSubject s')).
Proof.
  intros id s0 s'.
  assert (observer_complete id s0) as H0.
  { unfold observer_complete, ReplaySubject.received, s0, id. simpl.
    by rewrite lookup_app_r, Nat.sub_diag. }
  destruct (still_complete_run id inputs s0) as [Hc Hp].
  repeat split; [exact H0|exact Hp|exact (Hc H0)].
Qed.

(** C2, amended.  In a connection session that starts when the retry
    counter of the service is [c], the retry after the failure number [k]
    (from 0) of the session is set with 5 seconds when [c + k < 6] and with
    15 seconds otherwise; so in a session that starts with the counter at 0,
    as the first one does, the first 6 retries have 5 seconds and all later
    ones 15 seconds.  After any number of failures the next attempt is
    under way: there is no last retry. *)
Theorem retry_ladder_from_counter (s : State) (n : nat) :
  delays_of (Call_connect :: failures n) s = ladder (fastInterval s) n /\
  delays_of (Call_connect :: failures n) new_service
  = (replicate (n `min` 6) 5000 ++ replicate (n - 6) 15000)%list /\
  (0 < connectKeyRequests (world (run (Call_connect :: failures n) s)))%nat.
Proof.
  assert (forall s0 : State,
            delays_of (Call_connect :: failures n) s0 = ladder (fastInterval s0) n /\
            (0 < connectKeyRequests
                   (world (run (Call_connect :: failures n) s0)))%nat) as H.
  { intros s0. unfold delays_of.
    change (run (Call_connect :: failures n) s0)
      with (run (failures n) (exec connect s0)).
    destruct (failures_run n (exec connect s0)) as (_ & Ht & Hr).
    { simpl. lia. }
    split; [|exact Hr]. rewrite Ht. simpl. apply drop_app_length. }
  split; [apply H|]. split; [|apply H].
  rewrite (proj1 (H new_service)). simpl.
  destruct (Nat.le_gt_cases n 6) as [Hn|Hn].
  - replace (n - 6)%nat with O by lia. rewrite Nat.min_l, app_nil_r by lia.
    clear H. unfold ladder.
    do 7 (destruct n as [|n]; [reflexivity|]). lia.
  - replace n with (6 + (n - 6))%nat at 1 by lia.
    rewrite ladder_app, Nat.min_r by lia. f_equal.
    by apply ladder_late.
Qed.


(** C10.  A call of [extractPrinterEvent] either publishes nothing and
    leaves the last event as it was, or publishes one event, which is not
    [UNKNOWN] and is the last event afterwards.  So once a recognised event
    has been processed, the last event stays different from [UNKNOWN]
    whatever happens to the service, as long as [connect] is not called. *)
Theorem last_event_never_unknown_again (state : OctoprintSocketEvent)
    (s : State) (inputs : list Input) :
  (let s' := exec (extractPrinterEvent state) s in
   (eventSubject s' = eventSubject s /\ lastState s' = lastState s) \/
   (exists e, e <> UNKNOWN /\
              eventSubject s' = ReplaySubject.next e (eventSubject s) /\
              lastState s' = Some e)) /\
  (Forall (fun i => is_connect i = false) inputs ->
   (lastState s <> Some UNKNOWN -> lastState (run inputs s) <> Some UNKNOWN) /\
   (is_Some (newState_of (event_type state)) ->
    lastState (run inputs (exec (extractPrinterEvent state) s)) <> Some UNKNOWN)) /\
  lastState (exec connect s) = Some UNKNOWN.
Proof.
  pose proof (newState_of_known (event_type state)) as Hne.
  split; [|split; [|done]].
  - unfold exec. rewrite extractPrinterEvent_run. simpl.
    destruct (newState_of _) as [e|]; [right|left; done].
    exists e. repeat split. congruence.
  - intros Hall. split; [apply (still_known_run inputs s Hall)|].
    intros [e He]. apply (still_known_run inputs _ Hall).
    unfold exec. rewrite extractPrinterEvent_run, He. simpl. congruence.
Qed.

End RunClaims.

(** ** The claims at work on the integer runtime *)

Section OptionFacts.
Context {A : Type}.

Lemma is_Some_default (d : A) (o : option A) :
  is_Some o -> o = Some (default d o).
Proof. by intros [a ->]. Qed.

Lemma fmap_neq {B} (f : A -> B) (o1 o2 : option A) (b1 b2 : B) :
  f <$> o1 = Some b1 -> f <$> o2 = Some b2 -> b1 <> b2 -> o1 <> o2.
Proof. intros H1 H2 Hne ->. congruence. Qed.

End OptionFacts.

Module Examples.
Import IntRuntime.

Ltac computed := vm_compute; reflexivity.
Ltac decided := apply (bool_decide_unpack _); vm_compute; exact I.

(** C1 as stated fails: an observer that subscribes after [PRINTING] was
    published, and before anything else is, has received [PRINTING]. *)
Lemma event_replay_counterexample :
  let s := run [Socket_message (clock 9 59 0) (event_frame "PrintStarted")]
               connected_service in
  let s' := run [Subscribe_event] s in
  ReplaySubject.buffer (eventSubject s) = [PRINTING] /\
  ReplaySubject.buffer (eventSubject s') = ReplaySubject.buffer (eventSubject s) /\
  ReplaySubject.received (eventSubject s') 0 = Some [PRINTING].
Proof. intros s s'. split; [|split]; computed. Qed.

(** C2 as stated fails: after a session with 6 failures before the key,
    the first retry of the next session is set with 15 seconds. *)
Lemma retry_ladder_counterexample :
  let s := run (Call_connect :: failures 6 ++ [SessionKey_for_connect (Some auth)])
               new_service in
  socketSubscriptions (world s) = 1%nat /\
  pendingTimers (world s) = 0%nat /\
  delays_of (Call_connect :: failures 1) s = [15000].
Proof. intros s. split; [|split]; computed. Qed.

(** The first session of a service, 8 failures: six times 5 seconds, then
    twice 15 seconds. *)
Lemma retry_ladder_from_counter_witness :
  delays_of (Call_connect :: failures 8) new_service
  = (replicate (8 `min` 6) 5000 ++ replicate (8 - 6) 15000)%list.
Proof.
  exact (proj1 (proj2 (retry_ladder_from_counter new_service 8))).
Defined.



(** The service has just connected and is given the printing cube three
    times. *)
Lemma inferred_event_emitted_once_witness :
  (lastState connected_service = Some UNKNOWN /\
   ReplaySubject.buffer (eventSubject connected_service) = []) /\
  lastState (feed [(clock 9 59 0, current_frame cube);
                   (clock 9 59 1, current_frame cube);
                   (clock 9 59 2, current_frame cube)] connected_service)
  = Some PRINTING /\
  ReplaySubject.buffer
    (eventSubject (feed [(clock 9 59 0, current_frame cube);
                         (clock 9 59 1, current_frame cube);
                         (clock 9 59 2, current_frame cube)] connected_service))
  = (ReplaySubject.buffer (eventSubject connected_service) ++ [PRINTING])%list.
Proof.
  assert (lastState connected_service = Some UNKNOWN) as Hlast by computed.
  assert (ReplaySubject.buffer (eventSubject connected_service) = []) as Hold
    by computed.
  split; [by split|].
  assert (exists c, has_current (current_frame cube) = Some c /\
                    PrinterState_get (Str.toLowerCase (state_text c))
                    = Val (Member "printing")) as Hcube
    by (exists cube; split; [reflexivity|computed]).
  assert (ready connected_service) as Hready by (split; decided).
  assert (Forall (fun x : Date * RawFrame => exists c,
                    has_current (snd x) = Some c /\
                    PrinterState_get (Str.toLowerCase (state_text c))
                    = Val (Member "printing"))
            [(clock 9 59 0, current_frame cube); (clock 9 59 1, current_frame cube);
             (clock 9 59 2, current_frame cube)]) as Hall.
  { repeat (apply Forall_cons_2; [exact Hcube|]). apply Forall_nil_2. }
  destruct (inferred_event_emitted_once "printing" "PrintStarted" PRINTING
              (clock 9 59 0, current_frame cube)
              [(clock 9 59 1, current_frame cube); (clock 9 59 2, current_frame cube)]
              connected_service
              (or_introl (conj eq_refl (conj eq_refl eq_refl)))
              Hready Hlast Hall)
    as (_ & _ & H1 & _ & H2 & _).
  split; [exact H1|exact H2].
Defined.

(** C6 as stated fails: the cube has 3 g of filament; a frame for another
    file without filament data leaves 0 g. *)
Lemma absent_field_counterexample :
  job_filament (job benchy) = Undefined /\
  filamentAmount <$> jobStatus_of printing_service = Some (Some 3) /\
  filamentAmount <$>
    jobStatus_of (exec (extractJobStatus (clock 10 0 0) benchy) printing_service)
  = Some (Some 0).
Proof. split; [|split]; computed. Qed.

(** A frame for the cube without filament data, while the cube is
    printed. *)
Lemma absent_field_keeps_base_witness :
  jobStatus_of printing_service = Some (the_job printing_service) /\
  exists j',
    jobStatus_of (exec (extractJobStatus (clock 10 0 0)
                          (current "Printing" (Val "cube.gcode") Undefined Undefined))
                       printing_service) = Some j' /\
    filamentAmount j'
    = filamentAmount
        (if bool_decide
              (file (the_job printing_service)
               = file_of (current "Printing" (Val "cube.gcode") Undefined Undefined))
         then the_job printing_service else default_jobStatus).
Proof.
  assert (jobStatus_of printing_service = Some (the_job printing_service)) as H1
    by (apply is_Some_default; decided).
  split; [exact H1|].
  destruct (absent_field_keeps_base (clock 10 0 0)
              (current "Printing" (Val "cube.gcode") Undefined Undefined)
              printing_service (the_job printing_service) H1)
    as (j' & Hj' & Hfilament & _).
  exists j'. split; [exact Hj'|]. exact (Hfilament eq_refl).
Defined.

(** C7 as stated fails: the same frame, with 30 seconds left, at 09:59:00
    and at 09:59:40 gives the end times 09:59 and 10:00. *)
Lemma same_frame_twice_counterexample :
  let s1 := exec (onMessage (clock 9 59 0) (current_frame cube)) connected_service in
  let s2 := exec (onMessage (clock 9 59 40) (current_frame cube)) s1 in
  estimatedEndTime <$> jobStatus_of s1 = Some (Val "09:59") /\
  estimatedEndTime <$> jobStatus_of s2 = Some (Val "10:00") /\
  jobStatus_of s1 <> jobStatus_of s2.
Proof.
  intros s1 s2.
  assert (estimatedEndTime <$> jobStatus_of s1 = Some (Val "09:59")) as H1
    by computed.
  assert (estimatedEndTime <$> jobStatus_of s2 = Some (Val "10:00")) as H2
    by computed.
  split; [exact H1|]. split; [exact H2|].
  apply (fmap_neq _ _ _ _ _ H1 H2). discriminate.
Qed.

(** The cube at 09:59:00 and at 09:59:10: both end at 09:59. *)
Lemma same_frame_twice_witness :
  has_current (current_frame cube) = Some cube /\
  printerStatus_of
    (exec (onMessage (clock 9 59 10) (current_frame cube))
       (exec (onMessage (clock 9 59 0) (current_frame cube)) connected_service))
  = printerStatus_of
      (exec (onMessage (clock 9 59 0) (current_frame cube)) connected_service) /\
  jobStatus_of
    (exec (onMessage (clock 9 59 10) (current_frame cube))
       (exec (onMessage (clock 9 59 0) (current_frame cube)) connected_service))
  = jobStatus_of
      (exec (onMessage (clock 9 59 0) (current_frame cube)) connected_service).
Proof.
  split; [reflexivity|].
  destruct (same_frame_twice (clock 9 59 0) (clock 9 59 10) (current_frame cube) cube
              connected_service)
    as (_ & _ & Hp & j1 & j2 & H1 & H2 & _ & Hsame).
  - split; decided.
  - reflexivity.
  - split; [exact Hp|]. rewrite H1, H2.
    f_equal. apply Hsame. intros seconds Hseconds _.
    injection Hseconds as <-. computed.
Defined.




(** After [PrintPaused]: a frame, an unknown event, a timer and a
    subscription later the last event is still known. *)
Lemma last_event_never_unknown_again_witness :
  is_Some (newState_of "PrintPaused") /\
  lastState
    (run [Socket_message (clock 9 59 0) (current_frame cube);
          Socket_message (clock 9 59 10) (event_frame "Bogus");
          Timer_fires; Subscribe_event]
         (exec (extractPrinterEvent {| event_type := "PrintPaused" |})
               connected_service))
  <> Some UNKNOWN.
Proof.
  assert (is_Some (newState_of "PrintPaused")) as Hsome by (by eexists).
  split; [exact Hsome|].
  refine (proj2 (proj1 (proj2
            (last_event_never_unknown_again {| event_type := "PrintPaused" |}
               connected_service
               [Socket_message (clock 9 59 0) (current_frame cube);
                Socket_message (clock 9 59 10) (event_frame "Bogus");
                Timer_fires; Subscribe_event])) _) Hsome).
  repeat (apply Forall_cons_2; [reflexivity|]). apply Forall_nil_2.
Defined.

End Examples.

(** ** What the service never undoes *)

Section Grows.
Context `{RT : Runtime} `{EV : !Environment}.

Lemma subject_grows_refl {A} (sub : ReplaySubject.t A) : subject_grows sub sub.
Proof. split; [auto|done]. Qed.

Lemma subject_grows_trans {A} (s1 s2 s3 : ReplaySubject.t A) :
  subject_grows s1 s2 -> subject_grows s2 s3 -> subject_grows s1 s3.
Proof. intros [H1 P1] [H2 P2]. split; [auto|]. by etrans. Qed.

Lemma subject_grows_next {A} (v : A) (sub : ReplaySubject.t A) :
  subject_grows sub (ReplaySubject.next v sub).
Proof.
  split.
  - unfold ReplaySubject.received. simpl. intros id H.
    by rewrite list_lookup_fmap, H.
  - by exists [v].
Qed.

Lemma subject_grows_subscribe {A} (sub : ReplaySubject.t A) :
  subject_grows sub (fst (ReplaySubject.subscribe sub)).
Proof.
  split; [|done].
  unfold ReplaySubject.received. simpl. intros id H.
  rewrite lookup_app_l; [done|]. by eapply lookup_lt_Some.
Qed.

Lemma grows_refl s : grows s s.
Proof.
  unfold grows.
  split; [lia|]. split; [auto|]. split; [auto|]. split; [auto|].
  split; [lia|]. split; [by intros l _ Hne|]. split; [by intros l _ Hne|].
  split; apply subject_grows_refl.
Qed.

Lemma grows_trans s1 s2 s3 : grows s1 s2 -> grows s2 s3 -> grows s1 s3.
Proof.
  intros (N1 & W1 & R1 & S1 & H1 & J1 & P1 & PS1 & JS1)
         (N2 & W2 & R2 & S2 & H2 & J2 & P2 & PS2 & JS2).
  unfold grows.
  split; [lia|]. split; [auto|]. split; [auto|]. split; [auto|].
  split; [lia|]. split; [|split; [|split]].
  - intros l Hl Hne. destruct (J1 l Hl Hne) as [E1 Hne1].
    destruct (J2 l) as [E2 Hne2]; [lia|done|]. split; congruence.
  - intros l Hl Hne. destruct (P1 l Hl Hne) as [E1 Hne1].
    destruct (P2 l) as [E2 Hne2]; [lia|done|]. split; congruence.
  - by eapply subject_grows_trans.
  - by eapply subject_grows_trans.
Qed.

(** A method that leaves the store, the two references and the two status
    subjects alone. *)
Lemma grows_frame s s' :
  store s' = store s ->
  printerStatus s' = printerStatus s ->
  jobStatus s' = jobStatus s ->
  (forall u, socket s = Some u -> socket s' = Some u) ->
  (socketSubscriptions (world s) <= socketSubscriptions (world s'))%nat ->
  printerStatusSubject s' = printerStatusSubject s ->
  jobStatusSubject s' = jobStatusSubject s ->
  grows s s'.
Proof.
  intros Hst Hp Hj Hs Hh Hps Hjs.
  unfold grows, wf, ready, printerStatus_of, jobStatus_of.
  rewrite Hst, Hp, Hj, Hps, Hjs.
  split; [lia|]. split; [auto|]. split; [auto|]. split; [auto|].
  split; [lia|]. split; [by intros l _ Hne|]. split; [by intros l _ Hne|].
  split; apply subject_grows_refl.
Qed.

Lemma grows_put_job s l j j' :
  job_at s l j -> grows s (put_job l j' s).
Proof.
  intros [Hl Hj]. unfold grows.
  split; [simpl; lia|]. split; [auto|]. split.
  { intros [Hp _]. split; [exact Hp|].
    unfold jobStatus_of. simpl. rewrite Hl. simpl.
    rewrite lookup_insert_eq. by eexists. }
  split; [auto|]. split; [simpl; lia|]. split.
  { intros l' _ Hne. split; [|done]. simpl.
    apply lookup_insert_ne. intros ->. by apply Hne. }
  split; [by intros l' _ Hne|].
  split; apply subject_grows_refl.
Qed.

Lemma grows_put_printer s l p p' :
  printer_at s l p -> grows s (put_printer l p' s).
Proof.
  intros [Hl Hp]. unfold grows.
  split; [simpl; lia|]. split; [auto|]. split.
  { intros [_ Hj]. split; [|exact Hj].
    unfold printerStatus_of. simpl. rewrite Hl. simpl.
    rewrite lookup_insert_eq. by eexists. }
  split; [auto|]. split; [simpl; lia|]. split; [by intros l' _ Hne|].
  split.
  { intros l' _ Hne. split; [|done]. simpl.
    apply lookup_insert_ne. intros ->. by apply Hne. }
  split; apply subject_grows_refl.
Qed.

Lemma grows_new_jobStatus j s : grows s (exec (new_jobStatus j) s).
Proof.
  unfold grows.
  split; [simpl; lia|]. split.
  { intros [Wp Wj]. split; simpl.
    - intros l Hl. specialize (Wp l Hl). lia.
    - intros l Hl. simpl in Hl. injection Hl as Hl. lia. }
  split.
  { intros [Hp _]. split; [exact Hp|].
    unfold jobStatus_of. simpl. rewrite lookup_insert_eq. by eexists. }
  split; [auto|]. split; [simpl; lia|]. split.
  { intros l Hl Hne. simpl. split.
    - apply lookup_insert_ne. lia.
    - intros Hl'. injection Hl' as Hl'. lia. }
  split; [by intros l' _ Hne|].
  split; apply subject_grows_refl.
Qed.

Lemma grows_new_printerStatus p s : grows s (exec (new_printerStatus p) s).
Proof.
  unfold grows.
  split; [simpl; lia|]. split.
  { intros [Wp Wj]. split; simpl.
    - intros l Hl. simpl in Hl. injection Hl as Hl. lia.
    - intros l Hl. specialize (Wj l Hl). lia. }
  split.
  { intros [_ Hj]. split; [|exact Hj].
    unfold printerStatus_of. simpl. rewrite lookup_insert_eq. by eexists. }
  split; [auto|]. split; [simpl; lia|]. split; [by intros l' _ Hne|].
  split.
  { intros l Hl Hne. simpl. split.
    - apply lookup_insert_ne. lia.
    - intros Hl'. injection Hl' as Hl'. lia. }
  split; apply subject_grows_refl.
Qed.

Lemma keeps_grows_ret {A} (a : A) : keeps grows (ret a).
Proof. intros s. apply grows_refl. Qed.

Lemma keeps_grows_throw {A} : keeps grows (@throw _ A).
Proof. intros s. apply grows_refl. Qed.

Lemma keeps_grows_gets {A} (f : State -> A) : keeps grows (gets f).
Proof. intros s. apply grows_refl. Qed.

Lemma keeps_grows_when (b : bool) m : keeps grows m -> keeps grows (when b m).
Proof. destruct b; [done|]. intros _. apply keeps_grows_ret. Qed.

Lemma keeps_grows_read_printerStatus : keeps grows read_printerStatus.
Proof. intros s. apply grows_refl. Qed.

Lemma keeps_grows_read_jobStatus : keeps grows read_jobStatus.
Proof. intros s. apply grows_refl. Qed.

Lemma keeps_grows_write_printerStatus f : keeps grows (write_printerStatus f).
Proof.
  intros s. unfold exec, write_printerStatus.
  destruct (printerStatus s) as [l|] eqn:Hl; [|apply grows_refl].
  destruct (printerObjs (store s) !! l) as [p|] eqn:Hp; [|apply grows_refl].
  by apply (grows_put_printer s l p).
Qed.

Lemma keeps_grows_write_jobStatus f : keeps grows (write_jobStatus f).
Proof.
  intros s. unfold exec, write_jobStatus.
  destruct (jobStatus s) as [l|] eqn:Hl; [|apply grows_refl].
  destruct (jobObjs (store s) !! l) as [j|] eqn:Hj; [|apply grows_refl].
  by apply (grows_put_job s l j).
Qed.

Lemma keeps_grows_world (f : World -> World) :
  (forall w, (socketSubscriptions w <= socketSubscriptions (f w))%nat) ->
  keeps grows (modify (fun s => set_world (f (world s)) s)).
Proof. intros H s. apply grows_frame; simpl; auto. Qed.

Lemma grows_publish_printer l s :
  grows s (set_printerStatusSubject
             (ReplaySubject.next l (printerStatusSubject s)) s).
Proof.
  unfold grows.
  split; [simpl; lia|]. split; [auto|]. split; [auto|]. split; [auto|].
  split; [simpl; lia|]. split; [by intros l' _ Hne|].
  split; [by intros l' _ Hne|].
  split; simpl; auto using subject_grows_refl, subject_grows_next.
Qed.

Lemma grows_publish_job l s :
  grows s (set_jobStatusSubject
             (ReplaySubject.next l (jobStatusSubject s)) s).
Proof.
  unfold grows.
  split; [simpl; lia|]. split; [auto|]. split; [auto|]. split; [auto|].
  split; [simpl; lia|]. split; [by intros l' _ Hne|].
  split; [by intros l' _ Hne|].
  split; simpl; auto using subject_grows_refl, subject_grows_next.
Qed.

(** The last statement of [extractPrinterStatus] and of
    [extractJobStatus]. *)
Lemma keeps_grows_publish_printer :
  keeps grows
    (s <- gets id ;;
     match printerStatus s with
     | Some l => modify (set_printerStatusSubject
                           (ReplaySubject.next l (printerStatusSubject s)))
     | None => throw
     end).
Proof.
  intros s. unfold exec, bind, gets. simpl.
  destruct (printerStatus s); [apply grows_publish_printer|apply grows_refl].
Qed.

Lemma keeps_grows_publish_job :
  keeps grows
    (s <- gets id ;;
     match jobStatus s with
     | Some l => modify (set_jobStatusSubject
                           (ReplaySubject.next l (jobStatusSubject s)))
     | None => throw
     end).
Proof.
  intros s. unfold exec, bind, gets. simpl.
  destruct (jobStatus s); [apply grows_publish_job|apply grows_refl].
Qed.

Lemma keeps_grows_bind {A B} (m : M A) (k : A -> M B) :
  keeps grows m -> (forall a, keeps grows (k a)) -> keeps grows (bind m k).
Proof. apply keeps_bind, grows_trans. Qed.

Ltac grows_frame_now :=
  intros ?; apply grows_frame; simpl; auto; lia.

Ltac grows_steps :=
  repeat first
    [ apply keeps_grows_ret | apply keeps_grows_throw | apply keeps_grows_gets
    | apply keeps_grows_read_printerStatus | apply keeps_grows_read_jobStatus
    | apply keeps_grows_write_printerStatus | apply keeps_grows_write_jobStatus
    | apply keeps_grows_when
    | assumption
    | apply keeps_grows_bind; [|intros ?]
    | grows_frame_now
    | match goal with
      | |- keeps _ (match ?x with _ => _ end) => destruct x
      | |- keeps _ (if ?b then _ else _) => destruct b
      end ].

Lemma keeps_grows_initPrinterStatus : keeps grows initPrinterStatus.
Proof. intros s. apply grows_new_printerStatus. Qed.

Lemma keeps_grows_initJobStatus : keeps grows initJobStatus.
Proof. intros s. apply grows_new_jobStatus. Qed.

Lemma keeps_grows_tryConnect : keeps grows tryConnect.
Proof. grows_frame_now. Qed.

Lemma keeps_grows_connect : keeps grows connect.
Proof.
  unfold connect.
  apply keeps_grows_bind; [apply keeps_grows_initPrinterStatus|intros _].
  apply keeps_grows_bind; [apply keeps_grows_initJobStatus|intros _].
  apply keeps_grows_bind; [grows_frame_now|intros _].
  apply keeps_grows_tryConnect.
Qed.

Lemma keeps_grows_connectSocket : keeps grows connectSocket.
Proof.
  intros s. unfold exec, connectSocket, bind, gets. simpl.
  destruct (socket s) eqn:Hs; [apply grows_refl|].
  apply grows_frame; simpl; auto. intros u. by rewrite Hs.
Qed.

Lemma keeps_grows_setupSocket : keeps grows setupSocket.
Proof.
  intros s. unfold exec, setupSocket, bind, gets. simpl.
  destruct (socket s); [|apply grows_refl].
  apply grows_frame; simpl; auto.
Qed.

Lemma keeps_grows_authenticateSocket a : keeps grows (authenticateSocket a).
Proof.
  intros s. unfold exec, authenticateSocket, bind, gets. simpl.
  destruct (socket s); [|apply grows_refl].
  apply grows_frame; simpl; auto.
Qed.

Lemma keeps_grows_tryConnect_next a : keeps grows (tryConnect_next a).
Proof.
  unfold tryConnect_next.
  apply keeps_grows_bind; [apply keeps_grows_connectSocket|intros _].
  apply keeps_grows_bind; [apply keeps_grows_setupSocket|intros _].
  apply keeps_grows_authenticateSocket.
Qed.

Lemma keeps_grows_tryConnect_error : keeps grows tryConnect_error.
Proof. grows_frame_now. Qed.

Lemma keeps_grows_extractPrinterEvent state :
  keeps grows (extractPrinterEvent state).
Proof.
  intros s. unfold exec. rewrite extractPrinterEvent_run.
  destruct (newState_of _); [|apply grows_refl].
  apply grows_frame; simpl; auto.
Qed.

Lemma keeps_grows_extractPrinterStatus message :
  keeps grows (extractPrinterStatus message).
Proof.
  unfold extractPrinterStatus.
  apply keeps_grows_bind; [grows_steps|intros _].
  apply keeps_grows_bind; [grows_steps|intros _].
  apply keeps_grows_bind; [grows_steps|intros p].
  apply keeps_grows_bind; [grows_steps|intros last].
  apply keeps_grows_bind.
  { destruct (_ && _); [apply keeps_grows_extractPrinterEvent|].
    destruct (_ && _); [apply keeps_grows_extractPrinterEvent|apply keeps_grows_ret]. }
  intros _. apply keeps_grows_publish_printer.
Qed.

Lemma keeps_grows_extractJobStatus now message :
  keeps grows (extractJobStatus now message).
Proof.
  unfold extractJobStatus.
  apply keeps_grows_bind; [apply keeps_grows_read_jobStatus|intros j].
  apply keeps_grows_bind;
    [apply keeps_grows_when, keeps_grows_initJobStatus|intros _].
  do 8 (apply keeps_grows_bind; [grows_steps|intros _]).
  apply keeps_grows_publish_job.
Qed.

Lemma keeps_grows_onMessage now message : keeps grows (onMessage now message).
Proof.
  unfold onMessage.
  destruct (has_current message).
  { apply keeps_grows_bind; [apply keeps_grows_extractPrinterStatus|].
    intros _. apply keeps_grows_extractJobStatus. }
  destruct (has_event message); [apply keeps_grows_extractPrinterEvent|].
  destruct (has_plugin message) as [[| |pluginMessage]|];
    [apply keeps_grows_throw..| |].
  { destruct (_ && _); [|apply keeps_grows_ret].
    apply keeps_grows_bind; [apply keeps_grows_write_printerStatus|].
    intros _. apply keeps_grows_write_jobStatus. }
  destruct (has_reauth message); [grows_frame_now|].
  destruct (has_connected message); [|apply keeps_grows_ret].
  apply keeps_grows_bind; [grows_frame_now|intros _]. grows_frame_now.
Qed.

Lemma keeps_grows_step i : keeps grows (step i).
Proof.
  destruct i; simpl.
  - apply keeps_grows_connect.
  - apply keeps_grows_extractPrinterStatus.
  - apply keeps_grows_write_printerStatus.
  - apply keeps_grows_extractJobStatus.
  - apply keeps_grows_write_jobStatus.
  - apply keeps_grows_extractPrinterEvent.
  - apply keeps_grows_bind; [grows_frame_now|intros _; apply keeps_grows_ret].
  - apply keeps_grows_bind.
    { intros s. unfold exec, take_timer. destruct (pendingTimers _);
        [apply grows_refl|apply grows_frame; simpl; auto]. }
    intros b. apply keeps_grows_when, keeps_grows_tryConnect.
  - apply keeps_grows_bind.
    { intros s. unfold exec, take_connectKey. destruct (connectKeyRequests _);
        [apply grows_refl|apply grows_frame; simpl; auto]. }
    intros b. apply keeps_grows_when.
    destruct answer; [apply keeps_grows_tryConnect_next|apply keeps_grows_tryConnect_error].
  - apply keeps_grows_bind.
    { intros s. unfold exec, take_reauthKey. destruct (reauthKeyRequests _);
        [apply grows_refl|apply grows_frame; simpl; auto]. }
    intros b. apply keeps_grows_when.
    destruct answer; [apply keeps_grows_authenticateSocket|apply keeps_grows_ret].
  - apply keeps_grows_bind.
    { intros s. unfold exec, take_connection. destruct (connectionRequests _);
        [apply grows_refl|apply grows_frame; simpl; auto]. }
    intros b. apply keeps_grows_when.
    destruct answer as [state|]; [|apply keeps_grows_ret].
    unfold checkPrinterConnection_next.
    destruct (_ || _); [grows_frame_now|apply keeps_grows_ret].
  - apply keeps_grows_bind; [apply keeps_grows_gets|].
    intros [|n]; [apply keeps_grows_ret|apply keeps_grows_onMessage].
Qed.

Lemma grows_run inputs : forall s, grows s (run inputs s).
Proof.
  induction inputs as [|i inputs IH]; intros s; [apply grows_refl|].
  eapply grows_trans; [apply (keeps_grows_step i s)|]. apply IH.
Qed.

Lemma wf_new_service : wf new_service.
Proof. split; intros l H; discriminate H. Qed.

Lemma wf_reachable inputs : wf (run inputs new_service).
Proof.
  destruct (grows_run inputs new_service) as (_ & W & _). apply W, wf_new_service.
Qed.

End Grows.

(** ** Further properties of the socket service *)

Section Lifetime_facts.
Context `{RT : Runtime} `{EV : !Environment}.

Lemma ready_connect s : ready (exec connect s).
Proof.
  split; unfold printerStatus_of, jobStatus_of; simpl.
  - rewrite lookup_insert_eq. by eexists.
  - rewrite lookup_insert_eq. by eexists.
Qed.

Lemma onMessage_current_returns now c e p r k s :
  ready s ->
  returns (onMessage now {| has_current := Some c; has_event := e;
                            has_plugin := p; has_reauth := r;
                            has_connected := k |}) s = true.
Proof.
  intros (lp & ps & lj & j & Hp & Hj)%ready_at.
  by destruct (onMessage_current_spec now
                 {| has_current := Some c; has_event := e; has_plugin := p;
                    has_reauth := r; has_connected := k |}
                 c s lp ps lj j eq_refl Hp Hj) as [H _].
Qed.

(** [n] failures in a row leave as many requests and timers pending as
    there were. *)
Lemma failures_run_pending n : forall s,
  (0 < connectKeyRequests (world s))%nat ->
  connectKeyRequests (world (run (failures n) s)) = connectKeyRequests (world s) /\
  pendingTimers (world (run (failures n) s)) = pendingTimers (world s) /\
  socketSubscriptions (world (run (failures n) s)) = socketSubscriptions (world s) /\
  socket (run (failures n) s) = socket s /\
  socketSent (world (run (failures n) s)) = socketSent (world s).
Proof.
  induction n as [|n IH]; intros s Hreq; [done|].
  change (run (failures (S n)) s)
    with (run (failures n)
            (exec (step Timer_fires)
               (exec (step (SessionKey_for_connect None)) s))).
  set (s2 := exec (step Timer_fires) _).
  assert (connectKeyRequests (world s2) = connectKeyRequests (world s) /\
          pendingTimers (world s2) = pendingTimers (world s) /\
          socketSubscriptions (world s2) = socketSubscriptions (world s) /\
          socket s2 = socket s /\
          socketSent (world s2) = socketSent (world s)) as (H1 & H2 & H3 & H4 & H5).
  { unfold s2, exec, step, bind, take_connectKey.
    destruct (connectKeyRequests (world s)) as [|m] eqn:Hm; [lia|].
    simpl. done. }
  destruct (IH s2) as (I1 & I2 & I3 & I4 & I5); [lia|].
  rewrite I1, I2, I3, I4, I5. done.
Qed.

End Lifetime_facts.

Section SocketExtras.
Context `{RT : Runtime} `{EV : !Environment}.

(** X1.  Once [connect] has been called, both records exist whatever
    happens afterwards (calls of [connect], keys, failures, timers,
    subscriptions, frames, also frames on which the handler throws), so
    the handler returns on every frame whose [current] is what the
    handler casts it to, an [OctoprintSocketCurrent] with its [temps],
    its [state.text], its [job] and its [progress]: on such a frame a
    missing record is never again the cause of a [TypeError]. *)
Theorem handler_returns_after_connect (s0 : State) (inputs : list Input)
    (now : Date) (c : OctoprintSocketCurrent) (e : option OctoprintSocketEvent)
    (p : option (js OctoprintPluginMessage)) (r k : bool) :
  ready (run inputs (exec connect s0)) /\
  returns (onMessage now {| has_current := Some c; has_event := e;
                            has_plugin := p; has_reauth := r;
                            has_connected := k |})
          (run inputs (exec connect s0)) = true.
Proof.
  assert (ready (run inputs (exec connect s0))) as Hr.
  { destruct (grows_run inputs (exec connect s0)) as (_ & _ & R & _).
    apply R, ready_connect. }
  split; [exact Hr|]. by apply onMessage_current_returns.
Qed.

(** X2.  Before the first [connect] the records are [undefined]: each of
    the four public extractors throws at its first access and leaves the
    service as it was, nothing being published. *)
Theorem extractors_throw_before_connect (s : State)
    (message : OctoprintSocketCurrent) (data : DisplayLayerProgressData)
    (now : Date) :
  printerStatus s = None ->
  jobStatus s = None ->
  (returns (extractPrinterStatus message) s = false /\
   exec (extractPrinterStatus message) s = s) /\
  (returns (extractFanSpeed data) s = false /\
   exec (extractFanSpeed data) s = s) /\
  (returns (extractJobStatus now message) s = false /\
   exec (extractJobStatus now message) s = s) /\
  (returns (extractLayerHeight data) s = false /\
   exec (extractLayerHeight data) s = s).
Proof.
  intros Hp Hj.
  split; [|split; [|split]].
  - unfold returns, exec, extractPrinterStatus, bind, write_printerStatus.
    destruct (temps message); simpl; by rewrite Hp.
  - unfold returns, exec, extractFanSpeed, write_printerStatus. by rewrite Hp.
  - unfold returns, exec, extractJobStatus, bind, read_jobStatus. by rewrite Hj.
  - unfold returns, exec, extractLayerHeight, write_jobStatus. by rewrite Hj.
Qed.

(** X3.  An object the service does not point to any more is never
    written again and never pointed to again, whatever happens. *)
Theorem stale_objects_are_frozen (s : State) (inputs : list Input) (l : ref) :
  (l < nextRef (store s))%nat ->
  (jobStatus s <> Some l ->
   jobObjs (store (run inputs s)) !! l = jobObjs (store s) !! l /\
   jobStatus (run inputs s) <> Some l) /\
  (printerStatus s <> Some l ->
   printerObjs (store (run inputs s)) !! l = printerObjs (store s) !! l /\
   printerStatus (run inputs s) <> Some l).
Proof.
  intros Hl.
  destruct (grows_run inputs s) as (_ & _ & _ & _ & _ & J & P & _).
  split; intros Hne; [by apply J|by apply P].
Qed.

(** X4.  In a state the service can reach, a [current] frame for the
    tracked file is written into the object [this.jobStatus] already points
    to, and nothing is allocated; a frame for another file makes
    [extractJobStatus] point to a new object and leaves the old one with
    the record it had, for ever.  [connect] does the same to both
    records. *)
Theorem replaced_records_are_kept (pre inputs : list Input) (now : Date)
    (message : OctoprintSocketCurrent) (lp lj : ref)
    (p : PrinterStatus) (j : JobStatus) :
  let s := run pre new_service in
  let s1 := exec (extractJobStatus now message) s in
  let s2 := exec connect s in
  printer_at s lp p ->
  job_at s lj j ->
  (file j = file_of message ->
   jobStatus s1 = Some lj /\ nextRef (store s1) = nextRef (store s)) /\
  (file j <> file_of message ->
   jobStatus s1 = Some (nextRef (store s)) /\ lj <> nextRef (store s) /\
   jobObjs (store (run inputs s1)) !! lj = Some j) /\
  (jobObjs (store (run inputs s2)) !! lj = Some j /\
   printerObjs (store (run inputs s2)) !! lp = Some p /\
   jobStatus s2 <> Some lj /\ printerStatus s2 <> Some lp).
Proof.
  intros s s1 s2 Hp Hj.
  destruct (wf_reachable pre) as [Wp Wj]. fold s in Wp, Wj.
  pose proof (Wj lj (proj1 Hj)) as Hlj.
  pose proof (Wp lp (proj1 Hp)) as Hlp.
  assert (s1 = fst (extractJobStatus now message s)) as Hs1 by done.
  rewrite (extractJobStatus_at _ _ _ _ _ Hj) in Hs1. simpl in Hs1.
  split; [|split].
  - intros Hsame. rewrite Hs1.
    unfold job_base_state, job_base_ref.
    rewrite bool_decide_eq_false_2 by (intros H; by apply H).
    split; [exact (proj1 Hj)|done].
  - intros Hdiff. rewrite Hs1.
    unfold job_base_state, job_base_ref.
    rewrite bool_decide_eq_true_2 by done.
    split; [done|]. split; [lia|].
    set (s1' := set_jobStatusSubject _ _).
    destruct (grows_run inputs s1') as (_ & _ & _ & _ & _ & J & _).
    destruct (J lj) as [E _].
    + simpl. lia.
    + simpl. intros H. injection H as H. lia.
    + etrans; [exact E|]. simpl.
      rewrite !lookup_insert_ne by lia. exact (proj2 Hj).
  - destruct (grows_run inputs s2) as (_ & _ & _ & _ & _ & J & P & _).
    assert (jobStatus s2 <> Some lj) as Hnj.
    { simpl. intros H. injection H as H. lia. }
    assert (printerStatus s2 <> Some lp) as Hnp.
    { simpl. intros H. injection H as H. lia. }
    destruct (J lj) as [EJ _]; [simpl; lia|exact Hnj|].
    destruct (P lp) as [EP _]; [simpl; lia|exact Hnp|].
    split.
    { etrans; [exact EJ|]. simpl.
      rewrite lookup_insert_ne by lia. exact (proj2 Hj). }
    split; [|done].
    etrans; [exact EP|]. simpl.
    rewrite lookup_insert_ne by lia. exact (proj2 Hp).
Qed.

End SocketExtras.

Section SocketExtras2.
Context `{RT : Runtime} `{EV : !Environment}.

(** X5.  The answer to [checkPrinterConnection]: on [Closed] or [Error] it
    publishes [CLOSED] but does not store it as the last event, whereas the
    [Disconnected] event of the socket publishes and stores it; on any
    other answer it publishes nothing. *)
Theorem connection_check_publishes_without_storing (state : js string) (s : State) :
  let s' := exec (checkPrinterConnection_next state) s in
  lastState s' = lastState s /\
  (state = Val "Closed" \/ state = Val "Error" ->
   eventSubject s' = ReplaySubject.next CLOSED (eventSubject s)) /\
  (state <> Val "Closed" -> state <> Val "Error" -> s' = s) /\
  (lastState (exec (extractPrinterEvent {| event_type := "Disconnected" |}) s)
   = Some CLOSED /\
   eventSubject (exec (extractPrinterEvent {| event_type := "Disconnected" |}) s)
   = ReplaySubject.next CLOSED (eventSubject s)).
Proof.
  intros s'. unfold s', exec, checkPrinterConnection_next.
  split; [by destruct (_ || _)|]. split; [|split; [|done]].
  - intros [-> | ->]; reflexivity.
  - intros H1 H2.
    rewrite (bool_decide_eq_false_2 _ H1), (bool_decide_eq_false_2 _ H2). done.
Qed.

(** X6.  A [reauth] frame only asks for a session key.  When the key
    arrives it is sent on the socket as [user:session]; no handler is
    registered and no timer set.  When the request fails nothing happens:
    the re-authentication is not retried. *)
Theorem reauth_sends_the_key (now : Date) (k : bool) (socketAuth : SocketAuth)
    (u : string) (s : State) :
  let frame := {| has_current := None; has_event := None; has_plugin := None;
                  has_reauth := true; has_connected := k |} in
  let s1 := exec (onMessage now frame) s in
  let s2 := exec (step (SessionKey_for_reauth (Some socketAuth))) s1 in
  socket s = Some u ->
  (reauthKeyRequests (world s1) = S (reauthKeyRequests (world s)) /\
   socketSent (world s1) = socketSent (world s) /\
   resolveCalls (world s1) = resolveCalls (world s)) /\
  (socketSent (world s2)
   = (socketSent (world s) ++ [(user socketAuth ++ ":" ++ session socketAuth)%string])%list /\
   reauthKeyRequests (world s2) = reauthKeyRequests (world s) /\
   socketSubscriptions (world s2) = socketSubscriptions (world s) /\
   timeouts (world s2) = timeouts (world s) /\
   fastInterval s2 = fastInterval s) /\
  (socketSent (world (exec (step (SessionKey_for_reauth None)) s1))
   = socketSent (world s) /\
   timeouts (world (exec (step (SessionKey_for_reauth None)) s1))
   = timeouts (world s) /\
   reauthKeyRequests (world (exec (step (SessionKey_for_reauth None)) s1))
   = reauthKeyRequests (world s)).
Proof.
  intros frame s1 s2 Hs.
  split; [done|]. split; [|done].
  unfold s2, s1, exec, step, take_reauthKey, authenticateSocket.
  unfold bind, gets. simpl. rewrite Hs. done.
Qed.

Lemma key_connects_the_socket_aux (socketAuth : SocketAuth) (s : State) :
  (0 < connectKeyRequests (world s))%nat ->
  let s' := exec (step (SessionKey_for_connect (Some socketAuth))) s in
  returns (step (SessionKey_for_connect (Some socketAuth))) s = true /\
  socket s' = Some (default (Str.replace_leading_http getApiURL_socket) (socket s)) /\
  socketSubscriptions (world s') = S (socketSubscriptions (world s)) /\
  socketSent (world s')
  = (socketSent (world s) ++ [(user socketAuth ++ ":" ++ session socketAuth)%string])%list /\
  connectKeyRequests (world s') = pred (connectKeyRequests (world s)) /\
  fastInterval s' = fastInterval s /\
  timeouts (world s') = timeouts (world s) /\
  pendingTimers (world s') = pendingTimers (world s).
Proof.
  intros Hreq s'.
  unfold s', returns, exec, step, take_connectKey, tryConnect_next,
    connectSocket, setupSocket, authenticateSocket.
  unfold bind, gets.
  destruct (connectKeyRequests (world s)) as [|n] eqn:Hn; [lia|].
  destruct (socket s) eqn:Hs; repeat (simpl; rewrite ?Hs); repeat split.
Qed.

(** X7.  When the session key of [tryConnect] arrives, the socket is
    created if there was none and kept if there was one, one more handler
    is registered on it, and the key is sent; the retry counter is not
    reset and no timer is touched. *)
Theorem key_connects_the_socket (socketAuth : SocketAuth) (s : State) :
  let s' := exec (step (SessionKey_for_connect (Some socketAuth))) s in
  (0 < connectKeyRequests (world s))%nat ->
  returns (step (SessionKey_for_connect (Some socketAuth))) s = true /\
  socket s' = Some (default (Str.replace_leading_http getApiURL_socket) (socket s)) /\
  socketSubscriptions (world s') = S (socketSubscriptions (world s)) /\
  socketSent (world s')
  = (socketSent (world s) ++ [(user socketAuth ++ ":" ++ session socketAuth)%string])%list /\
  connectKeyRequests (world s') = pred (connectKeyRequests (world s)) /\
  fastInterval s' = fastInterval s /\
  timeouts (world s') = timeouts (world s) /\
  pendingTimers (world s') = pendingTimers (world s).
Proof. intros s' Hreq. by apply key_connects_the_socket_aux. Qed.

(** X9.  A session of [n] failed attempts followed by the key sets the [n]
    timers of the ladder and ends with no request and no timer pending
    that was not pending before: after the key, nothing retries. *)
Theorem session_ends_at_the_key (n : nat) (socketAuth : SocketAuth) (s : State) :
  let s' := run (session_of n socketAuth) s in
  connectKeyRequests (world s') = connectKeyRequests (world s) /\
  pendingTimers (world s') = pendingTimers (world s) /\
  timeouts (world s') = (timeouts (world s) ++ ladder (fastInterval s) n)%list /\
  fastInterval s' = (fastInterval s + n)%nat /\
  socketSubscriptions (world s') = S (socketSubscriptions (world s)) /\
  socketSent (world s')
  = (socketSent (world s) ++ [(user socketAuth ++ ":" ++ session socketAuth)%string])%list.
Proof.
  intros s'.
  assert (s' = exec (step (SessionKey_for_connect (Some socketAuth)))
                 (run (failures n) (exec connect s))) as ->.
  { unfold s', session_of, run. by rewrite app_comm_cons, foldl_app. }
  set (s0 := exec connect s).
  assert (0 < connectKeyRequests (world s0))%nat as Hreq by (simpl; lia).
  destruct (failures_run n s0 Hreq) as (F1 & F2 & F3).
  destruct (failures_run_pending n s0 Hreq) as (P1 & P2 & P3 & P4 & P5).
  destruct (key_connects_the_socket_aux socketAuth (run (failures n) s0) F3)
    as (_ & K2 & K3 & K4 & K5 & K6 & K7 & K8).
  rewrite K3, K4, K5, K6, K7, K8, P1, P2, P3, P5, F1, F2.
  simpl. done.
Qed.

End SocketExtras2.

Section SocketExtras3.
Context `{RT : Runtime} `{EV : !Environment}.

Lemma PrinterState_get_unknown (key : string) :
  ~ In key PrinterState_members ->
  PrinterState_get key
  = if existsb (String.eqb key) PrinterState_foreign then Val (Foreign key)
    else Undefined.
Proof.
  intros H. unfold PrinterState_get.
  destruct (existsb _ PrinterState_members) eqn:E; [|done].
  by apply existsb_eqb_In in E.
Qed.

Lemma replace_cons (pat rep : string) (c : ascii) (s : string) :
  Str.replace pat rep (String c s)
  = if Str.starts_with pat (String c s)
    then rep ++ Str.drop (String.length pat) (String c s)
    else String c (Str.replace pat rep s).
Proof. reflexivity. Qed.

Lemma starts_with_dot (ext : string) (c : ascii) (s : string) :
  Ascii.eqb c "." = false -> Str.starts_with (String "." ext) (String c s) = false.
Proof.
  intros H. change (Str.starts_with (String "." ext) (String c s))
    with (if Ascii.eqb "." c then Str.starts_with ext s else false).
  by rewrite Ascii.eqb_sym, H.
Qed.

Lemma starts_with_refl (p : string) : Str.starts_with p p = true.
Proof.
  induction p as [|a p IH]; [done|].
  change (Str.starts_with (String a p) (String a p))
    with (if Ascii.eqb a a then Str.starts_with p p else false).
  by rewrite Ascii.eqb_refl.
Qed.

Lemma drop_length (p : string) : Str.drop (String.length p) p = "".
Proof. induction p; auto. Qed.

Lemma replace_no_dot (ext name : string) :
  no_dot name = true -> Str.replace (String "." ext) "" name = name.
Proof.
  induction name as [|c name IH]; [done|].
  intros [Hc%negb_true_iff Hname]%andb_true_iff.
  by rewrite replace_cons, (starts_with_dot _ _ _ Hc), (IH Hname).
Qed.

Lemma replace_gcode_in_ufp (name : string) :
  no_dot name = true ->
  Str.replace ".gcode" "" (name ++ ".ufp") = name ++ ".ufp".
Proof.
  induction name as [|c name IH]; [reflexivity|].
  intros [Hc%negb_true_iff Hname]%andb_true_iff.
  change (String c name ++ ".ufp") with (String c (name ++ ".ufp")).
  by rewrite replace_cons, (starts_with_dot _ _ _ Hc), (IH Hname).
Qed.

Lemma replace_extension (ext name : string) :
  no_dot name = true ->
  Str.replace (String "." ext) "" (name ++ String "." ext) = name.
Proof.
  induction name as [|c name IH].
  - intros _. change ("" ++ String "." ext) with (String "." ext).
    by rewrite replace_cons, starts_with_refl, drop_length.
  - intros [Hc%negb_true_iff Hname]%andb_true_iff.
    change (String c name ++ String "." ext) with (String c (name ++ String "." ext)).
    by rewrite replace_cons, (starts_with_dot _ _ _ Hc), (IH Hname).
Qed.

(** X10.  A state label that is, in lower case, no member name of
    [PrinterState] does not raise an error.  The status becomes
    [undefined] when the enum object has no property of that name at all,
    and the value the object holds under it, which is no case of the enum,
    when it has or inherits one (a number of a numeric enum, or
    [constructor]).  Either way no event is inferred from it, and the
    record is published all the same. *)
Theorem unknown_label_gives_undefined (message : OctoprintSocketCurrent)
    (s : State) (l : ref) (p : PrinterStatus) :
  let s' := exec (extractPrinterStatus message) s in
  let key := Str.toLowerCase (state_text message) in
  printer_at s l p ->
  ~ In key PrinterState_members ->
  returns (extractPrinterStatus message) s = true /\
  (~ In key PrinterState_foreign ->
   status <$> printerStatus_of s' = Some Undefined) /\
  (In key PrinterState_foreign ->
   status <$> printerStatus_of s' = Some (Val (Foreign key))) /\
  lastState s' = lastState s /\
  eventSubject s' = eventSubject s /\
  printerStatusSubject s' = ReplaySubject.next l (printerStatusSubject s).
Proof.
  intros s' key Hp Hunknown.
  pose proof (PrinterState_get_unknown _ Hunknown) as Hget. fold key in Hget.
  assert (inferred_event message (lastState s) = None) as Hinf.
  { unfold inferred_event. fold key. rewrite Hget.
    by destruct (existsb _ PrinterState_foreign). }
  assert (status <$> printerStatus_of s' = Some (PrinterState_get key)) as Hst.
  { unfold s', exec. rewrite (extractPrinterStatus_at _ _ _ _ Hp), Hinf. simpl.
    unfold printerStatus_of. simpl. rewrite (proj1 Hp). simpl.
    by rewrite lookup_insert_eq. }
  unfold returns. rewrite Hst, Hget.
  split; [by rewrite (extractPrinterStatus_at _ _ _ _ Hp)|].
  split.
  { intros Hno. destruct (existsb _ PrinterState_foreign) eqn:E; [|done].
    by apply existsb_eqb_In in E. }
  split.
  { intros Hin. apply existsb_eqb_In in Hin. by rewrite Hin. }
  unfold s', exec. rewrite (extractPrinterStatus_at _ _ _ _ Hp), Hinf. done.
Qed.

(** X11.  [extractPrinterStatus] writes the object [this.printerStatus]
    points to and publishes its reference once, changed or not; it never
    touches the fan speed, leaves the bed and the tool as they were when
    the frame has no temperature sample, and does nothing to the job
    status. *)
Theorem printer_frame_effect (message : OctoprintSocketCurrent)
    (s : State) (l : ref) (p : PrinterStatus) :
  let s' := exec (extractPrinterStatus message) s in
  printer_at s l p ->
  exists p',
    printer_at s' l p' /\
    fanSpeed p' = fanSpeed p /\
    (temps message = [] -> bed p' = bed p /\ tool0 p' = tool0 p) /\
    (forall t0 rest, temps message = t0 :: rest ->
       bed p' = temperature_of (temps_bed t0) /\
       tool0 p' = temperature_of (temps_tool0 t0)) /\
    printerStatusSubject s' = ReplaySubject.next l (printerStatusSubject s) /\
    jobStatus s' = jobStatus s /\
    jobObjs (store s') = jobObjs (store s) /\
    jobStatusSubject s' = jobStatusSubject s.
Proof.
  intros s' Hp. exists (printer_overlay message p).
  split; [by apply extractPrinterStatus_printer_at|].
  split; [done|].
  split; [intros H; simpl; by rewrite H|].
  split; [intros t0 rest H; simpl; by rewrite H|].
  unfold s', exec. rewrite (extractPrinterStatus_at _ _ _ _ Hp).
  by destruct (inferred_event _ _).
Qed.

(** X12.  In [extractJobStatus] a value that is there but falsy, [null] or
    a zero, is skipped like a missing one: a remaining time of 0 leaves
    the time left and the end time as they were, and likewise the
    estimated print time and [currentZ]; and with layer progress tracking
    enabled [currentZ] is never written, whatever its value. *)
Theorem falsy_values_are_skipped (now : Date) (message : OctoprintSocketCurrent)
    (s : State) (j : JobStatus) :
  jobStatus_of s = Some j ->
  exists j',
    jobStatus_of (exec (extractJobStatus now message) s) = Some j' /\
    (truthy_num (printTimeLeft (current_progress message)) = false ->
     timeLeft j' = timeLeft (job_base message j) /\
     estimatedEndTime j' = estimatedEndTime (job_base message j)) /\
    (truthy_num (job_estimatedPrintTime (job message)) = false ->
     estimatedPrintTime j' = estimatedPrintTime (job_base message j)) /\
    (truthy_num (currentZ message) = false \/ isDisplayLayerProgressEnabled = true ->
     zHeight j' = zHeight (job_base message j)).
Proof.
  intros Hs. eexists. split; [by apply extractJobStatus_jobStatus_of|].
  unfold job_overlay; simpl. split; [|split].
  - intros H. rewrite H. split; [done|].
    destruct (printTimeLeft (current_progress message)) as [| |x]; try done.
    simpl in H. by rewrite H.
  - intros H. by rewrite H.
  - intros [H | H].
    + destruct (currentZ message) as [| |z]; try done.
      simpl in H. rewrite H. by rewrite andb_false_r.
    + rewrite H. by destruct (currentZ message).
Qed.

(** X13.  A frame that has neither [current] nor [event] and whose plugin
    message comes from the layer progress plugin, with layer progress
    tracking enabled, sets the fan speed and the layer heights in the two
    records and publishes nothing: none of the three subjects is given a
    value. *)
Theorem plugin_message_is_not_published (now : Date)
    (data : DisplayLayerProgressData) (r k : bool)
    (s : State) (lp lj : ref) (p : PrinterStatus) (j : JobStatus) :
  let frame := {| has_current := None; has_event := None;
                  has_plugin := Some (Val {| plugin_plugin := "DisplayLayerProgress-websocket-payload";
                                             plugin_data := data |});
                  has_reauth := r; has_connected := k |} in
  let s' := exec (onMessage now frame) s in
  isDisplayLayerProgressEnabled = true ->
  printer_at s lp p ->
  job_at s lj j ->
  returns (onMessage now frame) s = true /\
  (exists p',
     printer_at s' lp p' /\
     status p' = status p /\ bed p' = bed p /\ tool0 p' = tool0 p /\
     (fanspeed data = "Off" \/ fanspeed data = "-" -> fanSpeed p' = num_of_Z 0)) /\
  (exists current total,
     job_at s' lj (with_zHeight (ZLayers current total) j) /\
     (currentLayer data = "-" -> current = num_of_Z 0) /\
     (totalLayer data = "-" -> total = num_of_Z 0)) /\
  printerStatusSubject s' = printerStatusSubject s /\
  jobStatusSubject s' = jobStatusSubject s /\
  eventSubject s' = eventSubject s /\
  lastState s' = lastState s.
Proof.
  intros frame s' Hdlp Hp Hj.
  assert (onMessage now frame s
          = (put_job lj (with_zHeight
                           (ZLayers
                              (if String.eqb (currentLayer data) "-" then num_of_Z 0
                               else Number_of_string (currentLayer data))
                              (if String.eqb (totalLayer data) "-" then num_of_Z 0
                               else Number_of_string (totalLayer data))) j)
               (put_printer lp
                  (with_fanSpeed
                     (if String.eqb (fanspeed data) "Off" then num_of_Z 0
                      else if String.eqb (fanspeed data) "-" then num_of_Z 0
                      else Number_of_string
                             (Str.trim (Str.replace "%" "" (fanspeed data)))) p) s),
             Some tt)) as Hrun.
  { unfold onMessage, frame. simpl. rewrite Hdlp. simpl.
    unfold extractFanSpeed, extractLayerHeight.
    rewrite (printer_stmt_write _ _ _ _ _ _ Hp).
    unfold write_jobStatus. simpl.
    rewrite (proj1 Hj), (proj2 Hj). done. }
  unfold s', returns, exec. rewrite Hrun. simpl.
  split; [done|]. split; [|split; [|done]].
  - eexists. split; [apply printer_at_put_printer, Hp|].
    simpl. split; [done|]. split; [done|]. split; [done|].
    intros [-> | ->]; reflexivity.
  - eexists _, _. split.
    + split; [exact (proj1 Hj)|]. simpl. apply lookup_insert_eq.
    + split; intros ->; reflexivity.
Qed.

(** X14.  Frames the handler has no use for.  A frame with none of the
    five properties changes nothing.  A frame without [current] and
    [event] that has a plugin message changes nothing either when layer
    progress tracking is disabled or the message is of another plugin,
    whatever else the frame has: [reauth] and [connected] are not looked
    at.  But the handler reads [plugin.plugin] before it looks at the
    configuration: on a frame whose [plugin] is [null] or [undefined] it
    throws, with layer progress tracking disabled too. *)
Theorem foreign_frames_are_ignored (now : Date)
    (plugin : option (js OctoprintPluginMessage)) (r k : bool) (s : State) :
  let frame := {| has_current := None; has_event := None; has_plugin := plugin;
                  has_reauth := r; has_connected := k |} in
  (plugin = None -> r = false -> k = false ->
   returns (onMessage now frame) s = true /\ exec (onMessage now frame) s = s) /\
  (forall pm, plugin = Some (Val pm) ->
     isDisplayLayerProgressEnabled = false \/
     plugin_plugin pm <> "DisplayLayerProgress-websocket-payload" ->
     returns (onMessage now frame) s = true /\ exec (onMessage now frame) s = s) /\
  (plugin = Some Null \/ plugin = Some Undefined ->
   returns (onMessage now frame) s = false /\ exec (onMessage now frame) s = s).
Proof.
  intros frame. unfold returns, exec, onMessage, frame. simpl.
  split; [|split].
  - by intros -> -> ->.
  - intros pm -> [H|H].
    + rewrite H, andb_false_r. done.
    + apply String.eqb_neq in H. rewrite H. done.
  - by intros [-> | ->].
Qed.

(** X15.  The display name of the file loses its extension: for a name
    without a dot, [name.gcode], [name.ufp] and [name] all give the file
    name [name], so that frames naming [name.gcode] and [name.ufp] are
    frames for the same file. *)
Theorem extension_is_stripped (name : string) (message : OctoprintSocketCurrent)
    (f : OctoprintFile) :
  no_dot name = true ->
  job_file (job message) = Val f ->
  (display f = Val (name ++ ".gcode") \/ display f = Val (name ++ ".ufp") \/
   display f = Val name) ->
  file_of message = Val name.
Proof.
  intros Hname Hf Hd. unfold file_of. rewrite Hf. simpl.
  destruct Hd as [-> | [-> | ->]]; f_equal.
  - rewrite (replace_extension "gcode" name Hname).
    apply (replace_no_dot "ufp" name Hname).
  - rewrite (replace_gcode_in_ufp name Hname).
    apply (replace_extension "ufp" name Hname).
  - rewrite (replace_no_dot "gcode" name Hname).
    apply (replace_no_dot "ufp" name Hname).
Qed.

Lemma job_subscribable_history (s : State)
    (before after : list Input) :
  let s1 := run before s in
  let s2 := exec subscribe_jobStatus s1 in
  let id := length (ReplaySubject.observers (jobStatusSubject s1)) in
  let s3 := run after s2 in
  snd (subscribe_jobStatus s1) = Some id /\
  delivered (getJobStatusSubscribable s)
            (ReplaySubject.received (jobStatusSubject s2) id)
  = Some (jobStatus s :: (Some <$> ReplaySubject.buffer (jobStatusSubject s1))) /\
  delivered (getJobStatusSubscribable s)
            (ReplaySubject.received (jobStatusSubject s3) id)
  = Some (jobStatus s :: (Some <$> ReplaySubject.buffer (jobStatusSubject s3))) /\
  ReplaySubject.buffer (jobStatusSubject s1)
    `prefix_of` ReplaySubject.buffer (jobStatusSubject s3).
Proof.
  intros s1 s2 id s3.
  assert (ReplaySubject.received (jobStatusSubject s2) id
          = Some (ReplaySubject.buffer (jobStatusSubject s2))) as H2.
  { unfold ReplaySubject.received, s2, id. simpl.
    by rewrite lookup_app_r, Nat.sub_diag. }
  destruct (grows_run after s2) as (_ & _ & _ & _ & _ & _ & _ & _ & [Hc Hp]).
  split; [done|]. split; [by rewrite H2|].
  split; [unfold s3; by rewrite (Hc id H2)|exact Hp].
Qed.

Lemma printer_subscribable_history (s : State)
    (before after : list Input) :
  let s1 := run before s in
  let s2 := exec subscribe_printerStatus s1 in
  let id := length (ReplaySubject.observers (printerStatusSubject s1)) in
  let s3 := run after s2 in
  snd (subscribe_printerStatus s1) = Some id /\
  delivered (getPrinterStatusSubscribable s)
            (ReplaySubject.received (printerStatusSubject s2) id)
  = Some (printerStatus s :: (Some <$> ReplaySubject.buffer (printerStatusSubject s1))) /\
  delivered (getPrinterStatusSubscribable s)
            (ReplaySubject.received (printerStatusSubject s3) id)
  = Some (printerStatus s :: (Some <$> ReplaySubject.buffer (printerStatusSubject s3))) /\
  ReplaySubject.buffer (printerStatusSubject s1)
    `prefix_of` ReplaySubject.buffer (printerStatusSubject s3).
Proof.
  intros s1 s2 id s3.
  assert (ReplaySubject.received (printerStatusSubject s2) id
          = Some (ReplaySubject.buffer (printerStatusSubject s2))) as H2.
  { unfold ReplaySubject.received, s2, id. simpl.
    by rewrite lookup_app_r, Nat.sub_diag. }
  destruct (grows_run after s2) as (_ & _ & _ & _ & _ & _ & _ & [Hc Hp] & _).
  split; [done|]. split; [by rewrite H2|].
  split; [unfold s3; by rewrite (Hc id H2)|exact Hp].
Qed.

(** X16.  The status subscribables.  Whoever subscribes to what
    [getPrinterStatusSubscribable] (or [getJobStatusSubscribable])
    returned is handed first the reference the service pointed to when the
    method was called, not when the subscription is made, and then every
    reference published since the service was built, before or after the
    subscription. *)
Theorem status_subscribable_replays_history (s : State)
    (before after : list Input) :
  (let s1 := run before s in
   let s2 := exec subscribe_printerStatus s1 in
   let id := length (ReplaySubject.observers (printerStatusSubject s1)) in
   let s3 := run after s2 in
   snd (subscribe_printerStatus s1) = Some id /\
   delivered (getPrinterStatusSubscribable s)
             (ReplaySubject.received (printerStatusSubject s2) id)
   = Some (printerStatus s :: (Some <$> ReplaySubject.buffer (printerStatusSubject s1))) /\
   delivered (getPrinterStatusSubscribable s)
             (ReplaySubject.received (printerStatusSubject s3) id)
   = Some (printerStatus s :: (Some <$> ReplaySubject.buffer (printerStatusSubject s3))) /\
   ReplaySubject.buffer (printerStatusSubject s1)
     `prefix_of` ReplaySubject.buffer (printerStatusSubject s3)) /\
  (let s1 := run before s in
   let s2 := exec subscribe_jobStatus s1 in
   let id := length (ReplaySubject.observers (jobStatusSubject s1)) in
   let s3 := run after s2 in
   snd (subscribe_jobStatus s1) = Some id /\
   delivered (getJobStatusSubscribable s)
             (ReplaySubject.received (jobStatusSubject s2) id)
   = Some (jobStatus s :: (Some <$> ReplaySubject.buffer (jobStatusSubject s1))) /\
   delivered (getJobStatusSubscribable s)
             (ReplaySubject.received (jobStatusSubject s3) id)
   = Some (jobStatus s :: (Some <$> ReplaySubject.buffer (jobStatusSubject s3))) /\
   ReplaySubject.buffer (jobStatusSubject s1)
     `prefix_of` ReplaySubject.buffer (jobStatusSubject s3)).
Proof.
  split; [apply printer_subscribable_history|apply job_subscribable_history].
Qed.


End SocketExtras3.

(** ** The end time *)

Section EndTime.
Context `{RT : Runtime} `{EV : !Environment}.

Lemma slice_last2_padded (text : string) :
  (1 <= String.length text <= 2)%nat ->
  Str.slice_last2 ("0" ++ text) = zero_padded text /\
  String.length (zero_padded text) = 2%nat.
Proof.
  destruct text as [|a [|b [|c text]]]; simpl; intros H; try lia; by split.
Qed.

(** X17.  [calculateEndTime] pads to two characters: when the hours and
    the minutes of the moment [printTimeLeft] seconds after now are
    written with one or two characters, as those of a valid date are, the
    result is the hours, a colon and the minutes, each with a leading
    zero when it is one character, five characters in all.  When the date
    is invalid, so that both are written [NaN], the result is [aN:aN]. *)
Theorem end_time_is_padded (now : Date) (printTimeLeft : number) :
  let date := setSeconds now (num_add (getSeconds now) printTimeLeft) in
  let hours := num_to_string (getHours date) in
  let minutes := num_to_string (getMinutes date) in
  ((1 <= String.length hours <= 2)%nat ->
   (1 <= String.length minutes <= 2)%nat ->
   calculateEndTime now printTimeLeft
   = zero_padded hours ++ ":" ++ zero_padded minutes /\
   String.length (calculateEndTime now printTimeLeft) = 5%nat) /\
  (hours = "NaN" -> minutes = "NaN" ->
   calculateEndTime now printTimeLeft = "aN:aN").
Proof.
  intros date hours minutes. unfold calculateEndTime. fold date hours minutes.
  split.
  - intros [Hh Lh]%slice_last2_padded [Hm Lm]%slice_last2_padded.
    rewrite Hh, Hm. split; [done|].
    destruct (zero_padded hours) as [|h1 [|h2 [|h3 rest]]]; simpl in Lh; try lia.
    destruct (zero_padded minutes) as [|m1 [|m2 [|m3 rest]]]; simpl in Lm; try lia.
    reflexivity.
  - by intros -> ->.
Qed.

End EndTime.

(** ** Properties of the files service *)

Section FilesFacts.
Context `{RT : Runtime} `{EV : !Environment} `{FE : !FilesEnvironment}.

Lemma foldl_push_entry (content : list OctoprintEntry) : forall d,
  foldl push_entry d content =
  {| files := (files d ++ (toFile <$> List.filter is_gcode content))%list;
     folders := (folders d ++ (toFolder <$> List.filter is_folder content))%list |}.
Proof.
  induction content as [|e content IH]; intros d; simpl.
  - destruct d. by rewrite !app_nil_r.
  - rewrite IH. unfold push_entry.
    destruct (is_folder e), (is_gcode e); simpl;
      by rewrite <- ?app_assoc.
Qed.

Lemma list_directory_filter (content : list OctoprintEntry) :
  list_directory content =
  {| files := toFile <$> List.filter is_gcode content;
     folders := toFolder <$> List.filter is_folder content |}.
Proof. unfold list_directory. by rewrite foldl_push_entry. Qed.

Lemma sum_indicator {A} (f : A -> js string) (o : string)
    (l : list A) :
  sum_list_with (fun origin => if bool_decide (origin = Val o) then 1%nat else 0%nat)
    (f <$> l) =
  length (List.filter (fun x => bool_decide (f x = Val o)) l).
Proof.
  induction l as [|x l IH]; csimpl; [done|].
  rewrite IH. by destruct (bool_decide (f x = Val o)).
Qed.

Lemma filter_filter {A} (p q : A -> bool) (l : list A) :
  List.filter q (List.filter p l) = List.filter (fun x => p x && q x) l.
Proof.
  induction l as [|x l IH]; simpl; [done|].
  destruct (p x); simpl; [destruct (q x)|]; by rewrite IH.
Qed.

Lemma count_origin_listed (o : string) (content : list OctoprintEntry) :
  count_origin o (list_directory content) = count_listed o content.
Proof.
  rewrite list_directory_filter. unfold count_origin, count_listed. simpl.
  rewrite sum_list_with_app, <- !list_fmap_compose, !sum_indicator.
  by rewrite !filter_filter.
Qed.

Lemma filter_nonempty {A} (p : A -> bool) (l : list A) :
  (0 < length (List.filter p l))%nat <-> Exists (fun x => p x = true) l.
Proof.
  induction l as [|x l IH]; simpl.
  - split; [lia|]. by intros H%Exists_nil.
  - rewrite Exists_cons. destruct (p x) eqn:E; simpl.
    + split; [by left|lia].
    + rewrite IH. split; [by right|]. by intros [|].
Qed.

Lemma count_listed_pos (o : string) (content : list OctoprintEntry) :
  (0 < count_listed o content)%nat <-> Exists (listed_under o) content.
Proof.
  unfold count_listed.
  pose proof (filter_nonempty (fun e => is_gcode e && origin_is o e) content) as Hg.
  pose proof (filter_nonempty (fun e => is_folder e && origin_is o e) content) as Hf.
  rewrite Exists_exists in Hg, Hf. rewrite Exists_exists.
  unfold listed_under. split.
  - intros H.
    destruct (decide (0 < length (List.filter (fun e => is_gcode e && origin_is o e) content))%nat)
      as [Hpos|Hzero].
    + apply Hg in Hpos as (e & He & [? ?]%andb_true_iff). exists e. tauto.
    + assert (0 < length (List.filter (fun e => is_folder e && origin_is o e) content))%nat
        as Hpos by lia.
      apply Hf in Hpos as (e & He & [? ?]%andb_true_iff). exists e. tauto.
  - intros (e & He & [[Hk|Hk] Ho]).
    + assert (0 < length (List.filter (fun e => is_folder e && origin_is o e) content))%nat;
        [|lia].
      apply Hf. exists e. split; [done|]. by rewrite Hk, Ho.
    + assert (0 < length (List.filter (fun e => is_gcode e && origin_is o e) content))%nat;
        [|lia].
      apply Hg. exists e. split; [done|]. by rewrite Hk, Ho.
Qed.

End FilesFacts.

Section FilesExtras.
Context `{RT : Runtime} `{EV : !Environment} `{FE : !FilesEnvironment}.

(** X18. [getFolderContent] away from the root: the files are the gcode
    entries of the answer and the folders its folder entries, each in the
    order of the answer and each converted on its own; an entry that is
    neither is dropped, and nothing else is listed. *)
Theorem folder_content_is_filtered (folderPath : js string)
    (response : FilesResponse) (content : list OctoprintEntry) :
  folderPath <> Val "/" ->
  folderContent response = Val content ->
  getFolderContent folderPath response =
  Some {| files := toFile <$> List.filter is_gcode content;
          folders := toFolder <$> List.filter is_folder content |}.
Proof.
  intros Hp Hc. unfold getFolderContent, add_origin_folders. rewrite Hc.
  rewrite bool_decide_false; [|done]. by rewrite list_directory_filter.
Qed.

(** X19. [getFolderContent] at the root: the same listing, and after its
    folders the two folders [local] and [sdcard], exactly when the listing
    has an item of either origin; both of them are labelled with the number
    of local items. *)
Theorem origin_folders_at_the_root (response : FilesResponse)
    (content : list OctoprintEntry) :
  folderContent response = Val content ->
  exists extra,
    getFolderContent (Val "/") response =
    Some {| files := toFile <$> List.filter is_gcode content;
            folders := ((toFolder <$> List.filter is_folder content) ++ extra)%list |} /\
    (Exists (listed_under "local") content /\
     Exists (listed_under "sdcard") content ->
     extra = [origin_folder "local" (count_listed "local" content);
              origin_folder "sdcard" (count_listed "local" content)]) /\
    (~ (Exists (listed_under "local") content /\
        Exists (listed_under "sdcard") content) ->
     extra = []).
Proof.
  intros Hc. unfold getFolderContent, add_origin_folders. rewrite Hc.
  rewrite bool_decide_true; [|done]. rewrite !count_origin_listed.
  rewrite list_directory_filter. simpl.
  pose proof (count_listed_pos "local" content) as Hl.
  pose proof (count_listed_pos "sdcard" content) as Hs.
  destruct (Nat.ltb_spec 0 (count_listed "local" content)) as [El|El];
    destruct (Nat.ltb_spec 0 (count_listed "sdcard" content)) as [Es|Es]; simpl.
  1: { eexists. split; [done|]. split; [done|].
       intros H. exfalso. apply H. split; [by apply Hl|by apply Hs]. }
  all: exists []; rewrite app_nil_r; (split; [done|]);
    (split; [intros [?%Hl ?%Hs]; lia|done]).
Qed.

(** X21. [getFile] answers the file [getFolderContent] lists for the same
    entry, with a thumbnail added: the one [getThumbnail] answers, which is
    the placeholder when the entry has none or an empty one. A listed file
    has no thumbnail. *)
Theorem file_is_the_listed_file_with_thumbnail (file : OctoprintEntry) :
  getFile file = with_thumbnail (getThumbnail file) (toFile file) /\
  file_thumbnail (toFile file) = Undefined /\
  ((forall t, entry_thumbnail file = Val t -> t = "") ->
   getThumbnail file = "assets/object.svg") /\
  (forall t, entry_thumbnail file = Val t -> t <> "" ->
   getThumbnail file = getApiURL_plain t).
Proof.
  unfold getThumbnail, thumbnail_of. split; [done|]. split; [done|]. split.
  - intros H. destruct (entry_thumbnail file) as [| |t]; [done..|].
    by rewrite (H t eq_refl).
  - intros t -> Ht. by apply String.eqb_neq in Ht as ->.
Qed.

(** X22. Where adding to [0] changes nothing, the files service weighs
    the filament of an analysis as the socket service weighs the filament
    of a job: the lengths of the tools added up and converted. *)
Theorem filament_weight_agrees (tools : OctoprintFilament)
    (analysis : OctoprintGcodeAnalysis) (file : OctoprintEntry) :
  (forall x, num_add (num_of_Z 0) x = x) ->
  entry_gcodeAnalysis file = Val analysis ->
  analysis_filament analysis = Val tools ->
  file_filamentWeight (toFile file) = Val (getTotalFilamentWeight tools) /\
  file_filamentWeight (getFile file) = Val (getTotalFilamentWeight tools).
Proof.
  intros H0 Ha Hf. unfold toFile, getFile, entry_filamentWeight. simpl.
  rewrite Ha, Hf. unfold getTotalFilamentWeight, sumBy_length.
  destruct tools as [|tool tools]; [done|]. simpl. by rewrite H0.
Qed.

(** X23. The request of [getFolderContent]: the root asks for [files],
    any other folder for what [getFile] asks for its path, and a call
    without a folder for [filesundefined]. *)
Theorem folder_request_url (folderPath : string) :
  getFolderContent_url (Val "/") = getApiURL "files" /\
  (folderPath <> "/" -> getFolderContent_url (Val folderPath) = getFile_url folderPath) /\
  getFolderContent_url Undefined = getApiURL "filesundefined".
Proof.
  unfold getFolderContent_url, getFile_url. split; [done|]. split; [|done].
  intros H. rewrite bool_decide_false; [done|]. intros [= ?]. by apply H.
Qed.

End FilesExtras.

(** ** The further properties at work on the integer runtime *)

Module MoreExamples.
Import IntRuntime.

Ltac computed := vm_compute; reflexivity.
Ltac decided := apply (bool_decide_unpack _); vm_compute; exact I.

(** A service that has not been connected is given the cube. *)
Lemma extractors_throw_before_connect_witness :
  (printerStatus new_service = None /\ jobStatus new_service = None) /\
  returns (extractJobStatus (clock 9 59 0) cube) new_service = false /\
  exec (extractJobStatus (clock 9 59 0) cube) new_service = new_service.
Proof.
  split; [split; reflexivity|].
  exact (proj1 (proj2 (proj2
           (extractors_throw_before_connect new_service cube
              IntLayers.layer_data (clock 9 59 0) eq_refl eq_refl)))).
Defined.

(** [connect] is called a second time: the job status of the first call
    is the object 1, and a frame later it is as it was. *)
Lemma stale_objects_are_frozen_witness :
  (1 < nextRef (store (exec connect connected_service)))%nat /\
  jobObjs (store (run [Socket_message (clock 9 59 0) (current_frame cube)]
                      (exec connect connected_service))) !! 1%nat
  = jobObjs (store (exec connect connected_service)) !! 1%nat.
Proof.
  assert (1 < nextRef (store (exec connect connected_service)))%nat as Hl
    by (vm_compute; lia).
  split; [exact Hl|].
  refine (proj1 (proj1 (stale_objects_are_frozen (exec connect connected_service)
                          [Socket_message (clock 9 59 0) (current_frame cube)]
                          1%nat Hl) _)).
  vm_compute. discriminate.
Defined.

(** After [connect] the records are the objects 0 and 1; the cube is
    another file than none, so it is written into a new object. *)
Lemma replaced_records_are_kept_witness :
  (printer_at (run [Call_connect] new_service) 0%nat default_printerStatus /\
   job_at (run [Call_connect] new_service) 1%nat default_jobStatus) /\
  jobStatus (exec (extractJobStatus (clock 9 59 0) cube)
                  (run [Call_connect] new_service))
  = Some (nextRef (store (run [Call_connect] new_service))).
Proof.
  assert (printer_at (run [Call_connect] new_service) 0%nat default_printerStatus)
    as Hp by (split; reflexivity).
  assert (job_at (run [Call_connect] new_service) 1%nat default_jobStatus)
    as Hj by (split; reflexivity).
  split; [by split|].
  pose proof (replaced_records_are_kept [Call_connect] [] (clock 9 59 0) cube
                0%nat 1%nat default_printerStatus default_jobStatus) as H.
  cbv zeta in H.
  destruct (H Hp Hj) as (_ & Hnew & _).
  apply Hnew. discriminate.
Defined.

(** The connected service is asked to authenticate again. *)
Lemma reauth_sends_the_key_witness :
  socket connected_service = Some "ws://localhost:5000/sockjs/websocket" /\
  reauthKeyRequests
    (world (exec (onMessage (clock 9 59 0)
                    {| has_current := None; has_event := None; has_plugin := None;
                       has_reauth := true; has_connected := false |})
                 connected_service))
  = S (reauthKeyRequests (world connected_service)).
Proof.
  assert (socket connected_service = Some "ws://localhost:5000/sockjs/websocket")
    as Hs by computed.
  split; [exact Hs|].
  pose proof (reauth_sends_the_key (clock 9 59 0) false auth
                "ws://localhost:5000/sockjs/websocket" connected_service) as H.
  cbv zeta in H.
  exact (proj1 (proj1 (H Hs))).
Defined.

(** [connect] has asked for a key, and the key arrives. *)
Lemma key_connects_the_socket_witness :
  (0 < connectKeyRequests (world (run [Call_connect] new_service)))%nat /\
  socketSubscriptions
    (world (exec (step (SessionKey_for_connect (Some auth)))
                 (run [Call_connect] new_service)))
  = S (socketSubscriptions (world (run [Call_connect] new_service))).
Proof.
  assert (0 < connectKeyRequests (world (run [Call_connect] new_service)))%nat
    as Hreq by (vm_compute; lia).
  split; [exact Hreq|].
  pose proof (key_connects_the_socket auth (run [Call_connect] new_service)) as H.
  cbv zeta in H.
  exact (proj1 (proj2 (proj2 (H Hreq)))).
Defined.

(** The label [Bogus]. *)
Lemma unknown_label_gives_undefined_witness :
  (printer_at connected_service 0%nat default_printerStatus /\
   ~ In (Str.toLowerCase
           (state_text (current "Bogus" (Val "cube.gcode") Undefined Undefined)))
        PrinterState_members) /\
  status <$> printerStatus_of
               (exec (extractPrinterStatus
                        (current "Bogus" (Val "cube.gcode") Undefined Undefined))
                     connected_service)
  = Some Undefined.
Proof.
  assert (printer_at connected_service 0%nat default_printerStatus) as Hp
    by (split; reflexivity).
  assert (~ In (Str.toLowerCase
                  (state_text (current "Bogus" (Val "cube.gcode") Undefined Undefined)))
               PrinterState_members) as Hno.
  { intros H. vm_compute in H.
    repeat (destruct H as [H|H]; [discriminate H|]). exact H. }
  split; [by split|].
  pose proof (unknown_label_gives_undefined
                (current "Bogus" (Val "cube.gcode") Undefined Undefined)
                connected_service 0%nat default_printerStatus) as H.
  cbv zeta in H.
  apply (proj1 (proj2 (H Hp Hno))).
  intros Hin. vm_compute in Hin.
  repeat (destruct Hin as [Hin|Hin]; [discriminate Hin|]). exact Hin.
Defined.

(** The connected service is given the cube. *)
Lemma printer_frame_effect_witness :
  printer_at connected_service 0%nat default_printerStatus /\
  exists p',
    printer_at (exec (extractPrinterStatus cube) connected_service) 0%nat p' /\
    fanSpeed p' = fanSpeed default_printerStatus.
Proof.
  assert (printer_at connected_service 0%nat default_printerStatus) as Hp
    by (split; reflexivity).
  split; [exact Hp|].
  pose proof (printer_frame_effect cube connected_service 0%nat
                default_printerStatus) as H.
  cbv zeta in H.
  destruct (H Hp) as (p' & H1 & H2 & _).
  exists p'. split; [exact H1|exact H2].
Defined.

(** The cube with 0 seconds left, while the cube is printed. *)
Lemma falsy_values_are_skipped_witness :
  jobStatus_of printing_service = Some (the_job printing_service) /\
  exists j',
    jobStatus_of (exec (extractJobStatus (clock 10 0 0)
                          (current "Printing" (Val "cube.gcode") Undefined
                                   (Val (Some 0))))
                       printing_service) = Some j' /\
    timeLeft j'
    = timeLeft (job_base (current "Printing" (Val "cube.gcode") Undefined
                                  (Val (Some 0)))
                         (the_job printing_service)).
Proof.
  assert (jobStatus_of printing_service = Some (the_job printing_service)) as H1
    by (apply is_Some_default; decided).
  split; [exact H1|].
  destruct (falsy_values_are_skipped (clock 10 0 0)
              (current "Printing" (Val "cube.gcode") Undefined (Val (Some 0)))
              printing_service (the_job printing_service) H1)
    as (j' & Hj' & Hleft & _).
  exists j'. split; [exact Hj'|]. exact (proj1 (Hleft eq_refl)).
Defined.

(** A frame whose [plugin] is [null]. *)
Lemma foreign_frames_are_ignored_witness :
  returns (onMessage (clock 9 59 0)
             {| has_current := None; has_event := None; has_plugin := Some Null;
                has_reauth := false; has_connected := false |})
          connected_service
  = false.
Proof.
  pose proof (foreign_frames_are_ignored (clock 9 59 0) (Some Null) false false
                connected_service) as H.
  cbv zeta in H.
  exact (proj1 (proj2 (proj2 H) (or_introl eq_refl))).
Defined.

(** The cube. *)
Lemma extension_is_stripped_witness :
  no_dot "cube" = true /\
  file_of cube = Val "cube".
Proof.
  split; [reflexivity|].
  apply (extension_is_stripped "cube" cube
           {| display := Val "cube.gcode"; origin := Val "local";
              path := Val "cube.gcode" |});
    [reflexivity|reflexivity|left; reflexivity].
Defined.

(** Thirty seconds after 09:59:00. *)
Lemma end_time_is_padded_witness :
  calculateEndTime (clock 9 59 0) (Some 30) = "09:59".
Proof.
  pose proof (end_time_is_padded (clock 9 59 0) (Some 30)) as H.
  cbv zeta in H.
  destruct H as [H _].
  destruct H as [H _]; [vm_compute; lia|vm_compute; lia|].
  exact H.
Defined.

End MoreExamples.

Module LayerExamples.
Import IntRuntime.

(** Layer 12 of 80 with the plugin enabled. *)
Lemma plugin_message_is_not_published_witness :
  (@isDisplayLayerProgressEnabled runtime IntLayers.environment = true /\
   printer_at IntLayers.called_service 0%nat
     (@default_printerStatus runtime IntLayers.environment) /\
   job_at IntLayers.called_service 1%nat
     (@default_jobStatus runtime IntLayers.environment)) /\
  jobStatusSubject
    (exec (@onMessage runtime IntLayers.environment (clock 9 59 0)
             {| has_current := None; has_event := None;
                has_plugin := Some (Val {| plugin_plugin := "DisplayLayerProgress-websocket-payload";
                                           plugin_data := IntLayers.layer_data |});
                has_reauth := false; has_connected := false |})
          IntLayers.called_service)
  = jobStatusSubject IntLayers.called_service.
Proof.
  assert (printer_at IntLayers.called_service 0%nat
            (@default_printerStatus runtime IntLayers.environment)) as Hp
    by (split; reflexivity).
  assert (job_at IntLayers.called_service 1%nat
            (@default_jobStatus runtime IntLayers.environment)) as Hj
    by (split; reflexivity).
  split; [split; [reflexivity|by split]|].
  pose proof (@plugin_message_is_not_published runtime IntLayers.environment
                (clock 9 59 0) IntLayers.layer_data false false
                IntLayers.called_service 0%nat 1%nat _ _ eq_refl Hp Hj) as H.
  cbv zeta in H.
  exact (proj1 (proj2 (proj2 (proj2 (proj2 H))))).
Defined.

End LayerExamples.

Module FilesExamples.
Import IntRuntime IntFiles.

(** The listing of the folder [/local]. *)
Lemma folder_content_is_filtered_witness :
  (Val "/local" <> Val "/" /\ folderContent answer = Val listing) /\
  getFolderContent (Val "/local") answer
  = Some {| files := toFile <$> List.filter is_gcode listing;
            folders := toFolder <$> List.filter is_folder listing |}.
Proof.
  assert (@Val string "/local" <> Val "/") as Hp by discriminate.
  split; [split; [exact Hp|reflexivity]|].
  exact (folder_content_is_filtered (Val "/local") answer listing Hp eq_refl).
Defined.

(** The listing of the root: two local items and one on the card. *)
Lemma origin_folders_at_the_root_witness :
  folderContent answer = Val listing /\
  exists extra,
    getFolderContent (Val "/") answer
    = Some {| files := toFile <$> List.filter is_gcode listing;
              folders := ((toFolder <$> List.filter is_folder listing) ++ extra)%list |} /\
    extra = [origin_folder "local" (count_listed "local" listing);
             origin_folder "sdcard" (count_listed "local" listing)].
Proof.
  split; [reflexivity|].
  destruct (origin_folders_at_the_root answer listing eq_refl)
    as (extra & Hd & Hboth & _).
  exists extra. split; [exact Hd|]. apply Hboth. split.
  - apply Exists_cons_hd. split; [right|]; reflexivity.
  - do 3 apply Exists_cons_tl. apply Exists_cons_hd. split; [right|]; reflexivity.
Defined.

(** The two tools of the sliced cube. *)
Lemma filament_weight_agrees_witness :
  (forall x, num_add (num_of_Z 0) x = x) /\
  file_filamentWeight (toFile (gcode_entry "local" "cube.gcode"))
  = Val (getTotalFilamentWeight [("tool0", Some 1000); ("tool1", Some 500)]).
Proof.
  assert (forall x, num_add (num_of_Z 0) x = x) as H0 by (intros [x|]; reflexivity).
  split; [exact H0|].
  exact (proj1 (filament_weight_agrees
                  [("tool0", Some 1000); ("tool1", Some 500)]
                  {| analysis_estimatedPrintTime := Val (Some 7200);
                     analysis_filament := Val [("tool0", Some 1000); ("tool1", Some 500)] |}
                  (gcode_entry "local" "cube.gcode") H0 eq_refl eq_refl)).
Defined.

End FilesExamples.
